(** * A shallow embedding of the YouTube data collector

    The development follows the two source modules of the collector:

    - [ytcollector.py]: the paginated collector with its temporary
      checkpoints ([init_pager], [query_all_items],
      [check_quota_exceeded_tmp], [get_replies_comment_thread], ...);
    - [ytcollector_class.py]: the class [YtEntityData] (the crawl over the
      channels and the videos of a channel), the retry decorator
      [error_api_method] with [handle_http_error], and the class
      [YtEntityDataCheckpoint] that restores an object from the files of an
      earlier run.

    Python code mutates its objects in place and raises exceptions; both are
    modelled by a state-and-exception monad in which a raised exception keeps
    the state reached so far.  The remote API, the glob matcher of [pathlib]
    and the date arithmetic of [pandas] are parameters of the development.

    What the model keeps of the data: of a response, its items and its page
    token; of an item, the ids, the date, the reply count and a text; of a
    data frame, the column [video_ids].  Calls of [logging] are left out;
    [print] and [time.sleep] are recorded in the state, as are the requests
    sent to the API and the pickles written under [data/raw].  The loops
    that the API can keep going take a fuel. *)

From Stdlib Require Import List String Ascii ZArith Bool Lia Permutation DecimalString.
Import ListNotations.

Local Open Scope string_scope.
Local Open Scope list_scope.

(** ** Exceptions and the monad *)

(** [HttpError.error_details] is either a text or a list of dictionaries. *)
Inductive ErrorDetails :=
| DetailsText (s : string)
| DetailsList (l : list (list (string * string))).

Record HttpError := mkHttpError {
  http_status : Z;
  error_details : ErrorDetails
}.

Inductive PyExn :=
| HttpErrorExn (e : HttpError)
| AssertionError (msg : string)
| KeyError
| IndexError
| TypeError
| AttributeError
| ValueError.

(** The outcome of a call: a value, a raised exception, or a loop of the
    source that did not finish within the fuel given to the model. *)
Inductive Res (A : Type) :=
| Ok (a : A)
| Raise (e : PyExn)
| OutOfFuel.

Arguments Ok {A} a.
Arguments Raise {A} e.
Arguments OutOfFuel {A}.

Definition M (S A : Type) : Type := S -> Res A * S.

Definition ret {S A} (a : A) : M S A := fun s => (Ok a, s).

Definition bind {S A B} (c : M S A) (k : A -> M S B) : M S B :=
  fun s =>
    match c s with
    | (Ok a, s') => k a s'
    | (Raise e, s') => (Raise e, s')
    | (OutOfFuel, s') => (OutOfFuel, s')
    end.

Definition raise {S A} (e : PyExn) : M S A := fun s => (Raise e, s).

Definition out_of_fuel {S A} : M S A := fun s => (OutOfFuel, s).

Definition get {S} : M S S := fun s => (Ok s, s).

Definition modify {S} (f : S -> S) : M S unit := fun s => (Ok tt, f s).

(** [try: c except ...]: the handler says which exceptions it catches. *)
Definition try_except {S A} (c : M S A) (h : PyExn -> option (M S A)) : M S A :=
  fun s =>
    match c s with
    | (Raise e, s') =>
        match h e with
        | Some k => k s'
        | None => (Raise e, s')
        end
    | r => r
    end.

(** A value of type [PyExn + A]: the result of a pure partial operation. *)
Definition lift_sum {S A} (r : PyExn + A) : M S A :=
  match r with
  | inl e => raise e
  | inr a => ret a
  end.

Declare Scope py_scope.
Delimit Scope py_scope with py.
Notation "x <- c ;; k" := (bind c (fun x => k))
  (at level 100, c at next level, right associativity) : py_scope.
Notation "c ;; k" := (bind c (fun _ => k))
  (at level 100, right associativity) : py_scope.
Local Open Scope py_scope.

(** ** Lists and dictionaries as Python has them *)

(** [list.pop()]: the last element. *)
Fixpoint pop {A} (l : list A) : option (list A * A) :=
  match l with
  | [] => None
  | [x] => Some ([], x)
  | x :: l' =>
      match pop l' with
      | Some (r, y) => Some (x :: r, y)
      | None => None
      end
  end.

Definition mem (k : string) (l : list string) : bool :=
  existsb (String.eqb k) l.

(** A [dict] or [OrderedDict] with string keys: insertion order is kept. *)
Fixpoint od_get {V} (k : string) (d : list (string * V)) : option V :=
  match d with
  | [] => None
  | (k', v) :: d' => if String.eqb k k' then Some v else od_get k d'
  end.

Fixpoint od_set {V} (k : string) (v : V) (d : list (string * V)) : list (string * V) :=
  match d with
  | [] => [(k, v)]
  | (k', v') :: d' =>
      if String.eqb k k' then (k', v) :: d' else (k', v') :: od_set k v d'
  end.

Definition od_keys {V} (d : list (string * V)) : list string := map fst d.

(** ** API data *)

(** One item of a response; the fields are those the collector reads. *)
Record Item := mkItem {
  item_id : string;
  item_video_id : string;
  item_published_at : Z;
  item_total_reply_count : Z;
  item_text : string
}.

Record Response := mkResponse {
  items : list Item;
  nextPageToken : option string
}.

(** The response of [channels().list]: every key may be absent. *)
Record RelatedPlaylists := mkRelatedPlaylists { uploads : option string }.
Record ContentDetails := mkContentDetails { relatedPlaylists : option RelatedPlaylists }.
Record ChannelItem := mkChannelItem { contentDetails : option ContentDetails }.
Record ChannelResponse := mkChannelResponse { channel_items : option (list ChannelItem) }.

Inductive Request :=
| ChannelsList (channel_id : string)
| PlaylistItemsList (playlist_id : string) (page_token : option string)
| VideosList (ids : list string)
| CommentThreadsList (video_id : string) (page_token : option string)
| CommentsList (parent_id : string) (page_token : option string).

(** A row of comment data, as built by [extract_data_comment]. *)
Record Row := mkRow {
  row_comment_id : string;
  row_thread_id : string;
  row_video_id : string;
  row_total_reply_count : Z;
  row_text : string
}.

(** [DataClassPager] *)
Record DataClassPager := mkPager {
  responses : list Response;
  next_page_token : option string;
  all_items_collected : bool;
  num_requests : Z
}.

(** A data frame, reduced to its column [video_ids]. *)
Record DataFrame := mkFrame { frame_video_ids : list string }.

(** The values of a dictionary of the collector: a list of rows or a list of
    responses. *)
Inductive DictVal :=
| DRows (rows : list Row)
| DResps (resps : list Response).

(** The elements of a list that is pickled: ids or responses. *)
Inductive Elem :=
| EId (s : string)
| EResp (r : Response).

(** The objects that are pickled, read back and stored in attributes. *)
Inductive PyVal :=
| VNone
| VPager (p : DataClassPager)
| VDict (d : list (string * DictVal))
| VList (l : list Elem).

Definition is_id (k : string) (e : Elem) : bool :=
  match e with
  | EId s => String.eqb k s
  | EResp _ => false
  end.

(** [k in v], for a string [k] *)
Definition py_contains (k : string) (v : PyVal) : PyExn + bool :=
  match v with
  | VDict d => inr (mem k (od_keys d))
  | VList l => inr (existsb (is_id k) l)
  | VNone | VPager _ => inl TypeError
  end.

(** [v[k] = x] *)
Definition py_setitem (k : string) (x : DictVal) (v : PyVal) : PyExn + PyVal :=
  match v with
  | VDict d => inr (VDict (od_set k x d))
  | _ => inl TypeError
  end.

(** [v[k]] *)
Definition py_getitem (k : string) (v : PyVal) : PyExn + DictVal :=
  match v with
  | VDict d =>
      match od_get k d with
      | Some x => inr x
      | None => inl KeyError
      end
  | _ => inl TypeError
  end.

(** [list(v.keys())] *)
Definition py_keys (v : PyVal) : PyExn + list string :=
  match v with
  | VDict d => inr (od_keys d)
  | _ => inl AttributeError
  end.

(** ** ytcollector.py *)

Definition unpack_http_error (e : HttpError) : PyExn + string :=
  match error_details e with
  | DetailsText s =>
      match s with
      | EmptyString => inl IndexError
      | String _ _ => inl TypeError
      end
  | DetailsList [] => inl IndexError
  | DetailsList (element_error_dict :: _) =>
      match od_get "reason" element_error_dict with
      | Some reason => inr reason
      | None => inl KeyError
      end
  end.

Definition get_upload_playlist_id (channel_response : ChannelResponse) : PyExn + string :=
  match channel_items channel_response with
  | None => inl KeyError
  | Some [] => inl IndexError
  | Some (item :: _) =>
      match contentDetails item with
      | None => inl KeyError
      | Some content_details =>
          match relatedPlaylists content_details with
          | None => inl KeyError
          | Some related =>
              match uploads related with
              | None => inl KeyError
              | Some upload_playlist_id => inr upload_playlist_id
              end
          end
      end
  end.

Definition get_tmp_file (item_id : string) : string :=
  "temp-" ++ item_id ++ ".pkl".

Definition last_token (rs : list Response) : option string :=
  match pop rs with
  | Some (_, r) => nextPageToken r
  | None => None
  end.

(** ** The object of class [YtEntityData]

    An attribute that Python may hold as [None], or that does not exist
    before a method creates it, has an option type: [None] stands for the
    Python [None] for the attributes that [setup_attributes] creates, and for
    a missing attribute for [video_ids], [videos_ids_to_collect] and
    [collected_video_ids].  The attributes that [restore_responses] fills
    with whatever a file holds are dynamic values. *)
Record YtEntityData := mkYt {
  current_api_key : string;
  channels : list (string * string);
  cutoff_date : Z;
  channel_response : option ChannelResponse;
  upload_responses : PyVal;
  vid_ids : option (list string);
  videos_responses : PyVal;
  df_upload_playlist : option DataFrame;
  df_videos : option DataFrame;
  df_m : option DataFrame;
  responses_replies : PyVal;
  responses_toplevel : PyVal;
  i : option Z;
  temp_id_storage : option (list string);
  videos_with_comments_disabled : PyVal;
  comment_threads : option (list Response);
  comment_thread_responses : PyVal;
  video_ids : option (list string);
  videos_ids_to_collect : option (list string);
  collected_video_ids : option (list string)
}.

Definition set_channel_response (v : option ChannelResponse) (o : YtEntityData) : YtEntityData :=
  mkYt (current_api_key o) (channels o) (cutoff_date o) v (upload_responses o)
    (vid_ids o) (videos_responses o) (df_upload_playlist o) (df_videos o) (df_m o)
    (responses_replies o) (responses_toplevel o) (i o) (temp_id_storage o)
    (videos_with_comments_disabled o) (comment_threads o)
    (comment_thread_responses o) (video_ids o) (videos_ids_to_collect o)
    (collected_video_ids o).

Definition set_upload_responses (v : PyVal) (o : YtEntityData) : YtEntityData :=
  mkYt (current_api_key o) (channels o) (cutoff_date o) (channel_response o) v
    (vid_ids o) (videos_responses o) (df_upload_playlist o) (df_videos o) (df_m o)
    (responses_replies o) (responses_toplevel o) (i o) (temp_id_storage o)
    (videos_with_comments_disabled o) (comment_threads o)
    (comment_thread_responses o) (video_ids o) (videos_ids_to_collect o)
    (collected_video_ids o).

Definition set_vid_ids (v : option (list string)) (o : YtEntityData) : YtEntityData :=
  mkYt (current_api_key o) (channels o) (cutoff_date o) (channel_response o)
    (upload_responses o) v (videos_responses o) (df_upload_playlist o) (df_videos o)
    (df_m o) (responses_replies o) (responses_toplevel o) (i o) (temp_id_storage o)
    (videos_with_comments_disabled o) (comment_threads o)
    (comment_thread_responses o) (video_ids o) (videos_ids_to_collect o)
    (collected_video_ids o).

Definition set_videos_responses (v : PyVal) (o : YtEntityData) : YtEntityData :=
  mkYt (current_api_key o) (channels o) (cutoff_date o) (channel_response o)
    (upload_responses o) (vid_ids o) v (df_upload_playlist o) (df_videos o) (df_m o)
    (responses_replies o) (responses_toplevel o) (i o) (temp_id_storage o)
    (videos_with_comments_disabled o) (comment_threads o)
    (comment_thread_responses o) (video_ids o) (videos_ids_to_collect o)
    (collected_video_ids o).

Definition set_df_upload_playlist (v : option DataFrame) (o : YtEntityData) : YtEntityData :=
  mkYt (current_api_key o) (channels o) (cutoff_date o) (channel_response o)
    (upload_responses o) (vid_ids o) (videos_responses o) v (df_videos o) (df_m o)
    (responses_replies o) (responses_toplevel o) (i o) (temp_id_storage o)
    (videos_with_comments_disabled o) (comment_threads o)
    (comment_thread_responses o) (video_ids o) (videos_ids_to_collect o)
    (collected_video_ids o).

Definition set_df_videos (v : option DataFrame) (o : YtEntityData) : YtEntityData :=
  mkYt (current_api_key o) (channels o) (cutoff_date o) (channel_response o)
    (upload_responses o) (vid_ids o) (videos_responses o) (df_upload_playlist o) v
    (df_m o) (responses_replies o) (responses_toplevel o) (i o) (temp_id_storage o)
    (videos_with_comments_disabled o) (comment_threads o)
    (comment_thread_responses o) (video_ids o) (videos_ids_to_collect o)
    (collected_video_ids o).

Definition set_df_m (v : option DataFrame) (o : YtEntityData) : YtEntityData :=
  mkYt (current_api_key o) (channels o) (cutoff_date o) (channel_response o)
    (upload_responses o) (vid_ids o) (videos_responses o) (df_upload_playlist o)
    (df_videos o) v (responses_replies o) (responses_toplevel o) (i o)
    (temp_id_storage o) (videos_with_comments_disabled o) (comment_threads o)
    (comment_thread_responses o) (video_ids o) (videos_ids_to_collect o)
    (collected_video_ids o).

Definition set_responses_replies (v : PyVal) (o : YtEntityData) : YtEntityData :=
  mkYt (current_api_key o) (channels o) (cutoff_date o) (channel_response o)
    (upload_responses o) (vid_ids o) (videos_responses o) (df_upload_playlist o)
    (df_videos o) (df_m o) v (responses_toplevel o) (i o) (temp_id_storage o)
    (videos_with_comments_disabled o) (comment_threads o)
    (comment_thread_responses o) (video_ids o) (videos_ids_to_collect o)
    (collected_video_ids o).

Definition set_responses_toplevel (v : PyVal) (o : YtEntityData) : YtEntityData :=
  mkYt (current_api_key o) (channels o) (cutoff_date o) (channel_response o)
    (upload_responses o) (vid_ids o) (videos_responses o) (df_upload_playlist o)
    (df_videos o) (df_m o) (responses_replies o) v (i o) (temp_id_storage o)
    (videos_with_comments_disabled o) (comment_threads o)
    (comment_thread_responses o) (video_ids o) (videos_ids_to_collect o)
    (collected_video_ids o).

Definition set_i (v : option Z) (o : YtEntityData) : YtEntityData :=
  mkYt (current_api_key o) (channels o) (cutoff_date o) (channel_response o)
    (upload_responses o) (vid_ids o) (videos_responses o) (df_upload_playlist o)
    (df_videos o) (df_m o) (responses_replies o) (responses_toplevel o) v
    (temp_id_storage o) (videos_with_comments_disabled o) (comment_threads o)
    (comment_thread_responses o) (video_ids o) (videos_ids_to_collect o)
    (collected_video_ids o).

Definition set_temp_id_storage (v : option (list string)) (o : YtEntityData) : YtEntityData :=
  mkYt (current_api_key o) (channels o) (cutoff_date o) (channel_response o)
    (upload_responses o) (vid_ids o) (videos_responses o) (df_upload_playlist o)
    (df_videos o) (df_m o) (responses_replies o) (responses_toplevel o) (i o) v
    (videos_with_comments_disabled o) (comment_threads o)
    (comment_thread_responses o) (video_ids o) (videos_ids_to_collect o)
    (collected_video_ids o).

Definition set_videos_with_comments_disabled (v : PyVal) (o : YtEntityData) : YtEntityData :=
  mkYt (current_api_key o) (channels o) (cutoff_date o) (channel_response o)
    (upload_responses o) (vid_ids o) (videos_responses o) (df_upload_playlist o)
    (df_videos o) (df_m o) (responses_replies o) (responses_toplevel o) (i o)
    (temp_id_storage o) v (comment_threads o) (comment_thread_responses o)
    (video_ids o) (videos_ids_to_collect o) (collected_video_ids o).

Definition set_comment_threads (v : option (list Response)) (o : YtEntityData) : YtEntityData :=
  mkYt (current_api_key o) (channels o) (cutoff_date o) (channel_response o)
    (upload_responses o) (vid_ids o) (videos_responses o) (df_upload_playlist o)
    (df_videos o) (df_m o) (responses_replies o) (responses_toplevel o) (i o)
    (temp_id_storage o) (videos_with_comments_disabled o) v
    (comment_thread_responses o) (video_ids o) (videos_ids_to_collect o)
    (collected_video_ids o).

Definition set_comment_thread_responses (v : PyVal) (o : YtEntityData) : YtEntityData :=
  mkYt (current_api_key o) (channels o) (cutoff_date o) (channel_response o)
    (upload_responses o) (vid_ids o) (videos_responses o) (df_upload_playlist o)
    (df_videos o) (df_m o) (responses_replies o) (responses_toplevel o) (i o)
    (temp_id_storage o) (videos_with_comments_disabled o) (comment_threads o) v
    (video_ids o) (videos_ids_to_collect o) (collected_video_ids o).

Definition set_video_ids (v : option (list string)) (o : YtEntityData) : YtEntityData :=
  mkYt (current_api_key o) (channels o) (cutoff_date o) (channel_response o)
    (upload_responses o) (vid_ids o) (videos_responses o) (df_upload_playlist o)
    (df_videos o) (df_m o) (responses_replies o) (responses_toplevel o) (i o)
    (temp_id_storage o) (videos_with_comments_disabled o) (comment_threads o)
    (comment_thread_responses o) v (videos_ids_to_collect o) (collected_video_ids o).

Definition set_videos_ids_to_collect (v : option (list string)) (o : YtEntityData) : YtEntityData :=
  mkYt (current_api_key o) (channels o) (cutoff_date o) (channel_response o)
    (upload_responses o) (vid_ids o) (videos_responses o) (df_upload_playlist o)
    (df_videos o) (df_m o) (responses_replies o) (responses_toplevel o) (i o)
    (temp_id_storage o) (videos_with_comments_disabled o) (comment_threads o)
    (comment_thread_responses o) (video_ids o) v (collected_video_ids o).

Definition set_collected_video_ids (v : option (list string)) (o : YtEntityData) : YtEntityData :=
  mkYt (current_api_key o) (channels o) (cutoff_date o) (channel_response o)
    (upload_responses o) (vid_ids o) (videos_responses o) (df_upload_playlist o)
    (df_videos o) (df_m o) (responses_replies o) (responses_toplevel o) (i o)
    (temp_id_storage o) (videos_with_comments_disabled o) (comment_threads o)
    (comment_thread_responses o) (video_ids o) (videos_ids_to_collect o) v.

(** A file of a folder under [data/raw] or [data/proc]. *)
Record File (C : Type) := mkFile {
  file_folder : string;
  file_name : string;
  file_content : C
}.

Arguments mkFile {C} _ _ _.
Arguments file_folder {C} _.
Arguments file_name {C} _.
Arguments file_content {C} _.

(** What the collector prints. *)
Inductive Msg :=
| MsgRule
| MsgCollecting (channel : string)
| MsgDone
| MsgNoPlaylist (channel : string)
| MsgSaved (count : option Z) (total : nat) (channel : string)
| MsgPutBack (video_id : string)
| MsgRestored (total collected to_collect : nat).

(** ** The external collaborators

    The remote API is a deterministic oracle with a state of its own (quota
    left, data of the platform); [pathlib] and [pandas] supply the glob
    matcher and the date arithmetic. *)
Class External := {
  Api : Type;
  execute_page : Request -> Api -> (Response + HttpError) * Api;
  execute_channels : string -> Api -> (ChannelResponse + HttpError) * Api;
  (** [ts + pd.DateOffset(months=1) < cutoff_date] *)
  month_before : Z -> Z -> bool;
  (** does a file name match a glob pattern? *)
  glob_match : string -> string -> bool;
  (** [RE_DATE.search(file.name)], read as a timestamp *)
  file_date : string -> option Z
}.

Section Collector.

Context {ext : External}.

(** The world the functions of [ytcollector.py] act on: the API, the
    folder [data/tmp], and, as a record of what was done, the requests sent
    and the pauses taken (in milliseconds). *)
Record Net := mkNet {
  api : Api;
  tmp : list (string * PyVal);
  requests : list Request;
  slept : list Z
}.

Definition sleep (ms : Z) : M Net unit :=
  modify (fun n => mkNet (api n) (tmp n) (requests n) (slept n ++ [ms])).

(** [request.execute()] for a request that returns a page. *)
Definition execute (req : Request) : M Net Response :=
  fun n =>
    let (r, a) := execute_page req (api n) in
    let n' := mkNet a (tmp n) (requests n ++ [req]) (slept n) in
    match r with
    | inl response => (Ok response, n')
    | inr e => (Raise (HttpErrorExn e), n')
    end.

Definition search_channel_id (channel_id : string) : M Net ChannelResponse :=
  fun n =>
    let (r, a) := execute_channels channel_id (api n) in
    let n' := mkNet a (tmp n) (requests n ++ [ChannelsList channel_id]) (slept n) in
    match r with
    | inl response => (Ok response, n')
    | inr e => (Raise (HttpErrorExn e), n')
    end.

Definition PagerFunc : Type := string -> option string -> M Net Response.

Definition pager_of (mk : string -> option string -> Request) : PagerFunc :=
  fun item_id page_token => execute (mk item_id page_token).

Definition pager_snippet : PagerFunc := pager_of PlaylistItemsList.
Definition comments_pager : PagerFunc := pager_of CommentThreadsList.
Definition replies_pager : PagerFunc := pager_of CommentsList.

Definition save_tmp_data (item_id : string) (data : PyVal) : M Net unit :=
  modify (fun n =>
    mkNet (api n) (od_set (get_tmp_file item_id) data (tmp n)) (requests n) (slept n)).

Definition remove_tmp_data (item_id : string) : M Net unit :=
  modify (fun n =>
    mkNet (api n)
      (filter (fun f => negb (String.eqb (fst f) (get_tmp_file item_id))) (tmp n))
      (requests n) (slept n)).

Definition init_pager (item_id : string) : M Net PyVal :=
  n <- get ;;
  match od_get (get_tmp_file item_id) (tmp n) with
  | Some pager_data => ret pager_data
  | None => ret (VPager (mkPager [] None false 0))
  end.

(** The function has no normal exit: every path ends in [raise e]. *)
Definition check_quota_exceeded_tmp (e : HttpError) (item_id : string) (data : PyVal)
  : M Net Empty_set :=
  match unpack_http_error e with
  | inl _ => raise (HttpErrorExn e)
  | inr reason =>
      (if String.eqb reason "quotaExceeded" then save_tmp_data item_id data else ret tt) ;;
      raise (HttpErrorExn e)
  end.

Definition on_http_error {S A} (h : HttpError -> M S A) (ex : PyExn) : option (M S A) :=
  match ex with
  | HttpErrorExn e => Some (h e)
  | _ => None
  end.

(** The [while] loop of [query_all_items]; [fuel] bounds the pages fetched. *)
Fixpoint query_all_items_loop (fuel : nat) (item_id : string) (pager_func : PagerFunc)
    (pager_data : DataClassPager) : M Net (list Response) :=
  if all_items_collected pager_data then ret (responses pager_data)
  else
    match fuel with
    | O => out_of_fuel
    | S fuel' =>
        response <- try_except
                      (pager_func item_id (next_page_token pager_data))
                      (on_http_error (fun e =>
                         x <- check_quota_exceeded_tmp e item_id (VPager pager_data) ;;
                         match x : Empty_set with end)) ;;
        let appended := responses pager_data ++ [response] in
        let counted := (num_requests pager_data + 1)%Z in
        match nextPageToken response with
        | Some token =>
            query_all_items_loop fuel' item_id pager_func
              (mkPager appended (Some token) false counted)
        | None =>
            let final := mkPager appended (next_page_token pager_data) true counted in
            save_tmp_data item_id (VPager final) ;;
            query_all_items_loop fuel' item_id pager_func final
        end
    end.

Definition query_all_items (fuel : nat) (item_id : string) (pager_func : PagerFunc)
  : M Net (list Response) :=
  loaded <- init_pager item_id ;;
  match loaded with
  | VPager pager_data => query_all_items_loop fuel item_id pager_func pager_data
  | _ => raise AttributeError
  end.

(** *** The upload playlist and the videos *)

Definition filter_last_items (its : list Item) (cutoff : Z) : list Item :=
  filter (fun item => negb (month_before (item_published_at item) cutoff)) its.

(** The [while] loop of [query_uploads_date]; [fuel] bounds the pages fetched. *)
Fixpoint query_uploads_date_loop (fuel : nat) (playlist_id : string) (cutoff : Z)
    (acc : list Response) (next : option string) : M Net (list Response) :=
  match fuel with
  | O => out_of_fuel
  | S fuel' =>
      response <- pager_snippet playlist_id next ;;
      let acc' := acc ++ [response] in
      match nextPageToken response with
      | None => ret acc'
      | Some token =>
          match pop (items response) with
          | None => raise IndexError
          | Some (_, last_item) =>
              sleep 500 ;;
              if month_before (item_published_at last_item) cutoff
              then ret acc'
              else query_uploads_date_loop fuel' playlist_id cutoff acc' (Some token)
          end
      end
  end.

Definition query_uploads_date (fuel : nat) (playlist_id : string) (cutoff : Z)
  : M Net (list Response) :=
  collected <- query_uploads_date_loop fuel playlist_id cutoff [] None ;;
  match pop collected with
  | None => raise IndexError
  | Some (before, last_response) =>
      ret (before ++ [mkResponse (filter_last_items (items last_response) cutoff)
                                 (nextPageToken last_response)])
  end.

Definition get_data_videos_playlist (response : Response) : list string :=
  map item_video_id (items response).

Definition get_data_videos (response : Response) : list string :=
  map item_id (items response).

(** [pd.concat] refuses an empty list of frames. *)
Definition get_dataframe_responses (rs : list Response)
    (response_data_func : Response -> list string) : PyExn + DataFrame :=
  match rs with
  | [] => inl ValueError
  | _ => inr (mkFrame (flat_map response_data_func rs))
  end.

Definition get_slices_video_ids (ids : list string) : list (nat * nat) :=
  let num_videos := List.length ids in
  let num_parts := (num_videos / 50 + (if Nat.eqb (num_videos mod 50) 0 then 0 else 1))%nat in
  map (fun k => (k * 50, (k + 1) * 50)%nat) (seq 0 num_parts).

Definition slice {A} (l : list A) (sl : nat * nat) : list A :=
  firstn (snd sl - fst sl) (skipn (fst sl) l).

Fixpoint for_each {S A B} (f : A -> M S B) (l : list A) : M S (list B) :=
  match l with
  | [] => ret []
  | x :: l' => y <- f x ;; ys <- for_each f l' ;; ret (y :: ys)
  end.

Definition get_video_data (vidid : list string) : M Net Response :=
  execute (VideosList vidid).

Definition query_videos_list (ids : list string) : M Net (list Response) :=
  for_each (fun vid_slice => get_video_data (slice ids vid_slice))
           (get_slices_video_ids ids).

(** [df_playlist.merge(df_videos, how="left", on="video_ids")]: the rows of
    the left frame in their order, one per match in the right frame and one
    if there is none. *)
Definition merge_playlist_and_videos (df_videos df_playlist : DataFrame) : DataFrame :=
  mkFrame
    (flat_map
       (fun v => repeat v (Nat.max 1 (count_occ string_dec (frame_video_ids df_videos) v)))
       (frame_video_ids df_playlist)).

(** *** Comments and replies *)

Definition get_comment_thread_data (response : Response) : list Row :=
  map (fun item =>
         mkRow (item_id item) (item_id item) (item_video_id item)
               (item_total_reply_count item) (item_text item))
      (items response).

Definition get_multiple_comment_thread_data (rs : list Response) : list Row :=
  flat_map get_comment_thread_data rs.

Definition get_data_reply_comment (response : Response) (thread_id : string) : list Row :=
  map (fun item => mkRow (item_id item) thread_id "" 0 (item_text item))
      (items response).

Definition init_replies_dict (video_id : string) : M Net PyVal :=
  n <- get ;;
  match od_get (get_tmp_file (video_id ++ "-replies")) (tmp n) with
  | Some comment_thread_responses => ret comment_thread_responses
  | None => ret (VDict [])
  end.

(** The [for] loop of [get_replies_comment_thread]. *)
Fixpoint get_replies_loop (fuel : nat) (video_id : string) (pager_func : PagerFunc)
    (data_thread : list Row) (comment_thread_responses : PyVal) : M Net PyVal :=
  match data_thread with
  | [] => ret comment_thread_responses
  | data_top_level :: rest =>
      if (0 <? row_total_reply_count data_top_level)%Z then
        let thread_id := row_thread_id data_top_level in
        present <- lift_sum (py_contains thread_id comment_thread_responses) ;;
        if present then
          get_replies_loop fuel video_id pager_func rest comment_thread_responses
        else
          updated <- try_except
                       (rs <- query_all_items fuel thread_id pager_func ;;
                        lift_sum (py_setitem thread_id (DResps rs) comment_thread_responses))
                       (on_http_error (fun e =>
                          x <- check_quota_exceeded_tmp e (video_id ++ "-replies")
                                 comment_thread_responses ;;
                          match x : Empty_set with end)) ;;
          get_replies_loop fuel video_id pager_func rest updated
      else get_replies_loop fuel video_id pager_func rest comment_thread_responses
  end.

Definition get_replies_comment_thread (fuel : nat) (video_id : string)
    (data_thread : list Row) (pager_func : PagerFunc) : M Net PyVal :=
  comment_thread_responses <- init_replies_dict video_id ;;
  get_replies_loop fuel video_id pager_func data_thread comment_thread_responses.

(** A row has no key ["items"]: a list of rows where responses are expected
    raises [KeyError] at its first element. *)
Fixpoint reply_rows (d : list (string * DictVal)) : PyExn + list Row :=
  match d with
  | [] => inr []
  | (thread_id, DResps rs) :: d' =>
      match reply_rows d' with
      | inr rows => inr (flat_map (fun r => get_data_reply_comment r thread_id) rs ++ rows)
      | inl e => inl e
      end
  | (_, DRows []) :: d' => reply_rows d'
  | (_, DRows (_ :: _)) :: _ => inl KeyError
  end.

Definition get_comment_reply_data (comment_thread_responses : PyVal) : PyExn + list Row :=
  match comment_thread_responses with
  | VDict d => reply_rows d
  | VList [] => inr []
  | VList (_ :: _) => inl TypeError
  | VNone | VPager _ => inl TypeError
  end.

(** ** data_utils.py and proc_utils.py *)

(** The state of a run: the object, the world of [ytcollector.py], the
    folders [data/raw] (pickles) and [data/proc] (frames), the date of the
    day, what was printed, and a record of every pickle written under
    [data/raw], in order. *)
Record Crawl := mkCrawl {
  self : YtEntityData;
  net : Net;
  raw : list (File PyVal);
  proc : list (File DataFrame);
  today : string;
  stdout : list Msg;
  pickled : list (File PyVal)
}.

Definition with_net (n : Net) (s : Crawl) : Crawl :=
  mkCrawl (self s) n (raw s) (proc s) (today s) (stdout s) (pickled s).

Definition with_self (f : YtEntityData -> YtEntityData) (s : Crawl) : Crawl :=
  mkCrawl (f (self s)) (net s) (raw s) (proc s) (today s) (stdout s) (pickled s).

Definition printed (m : Msg) (s : Crawl) : Crawl :=
  mkCrawl (self s) (net s) (raw s) (proc s) (today s) (stdout s ++ [m]) (pickled s).

(** A function of [ytcollector.py] called from the class. *)
Definition lift {A} (c : M Net A) : M Crawl A :=
  fun s => let (r, n) := c (net s) in (r, with_net n s).

(** An assignment to attributes of [self]. *)
Definition self_set (f : YtEntityData -> YtEntityData) : M Crawl unit :=
  modify (with_self f).

Definition print (m : Msg) : M Crawl unit := modify (printed m).

(** Reading an attribute that may be [None] or missing. *)
Definition attr {S A} (o : option A) (e : PyExn) : M S A :=
  match o with
  | Some a => ret a
  | None => raise e
  end.

Definition same_file {C} (folder name : string) (f : File C) : bool :=
  String.eqb folder (file_folder f) && String.eqb name (file_name f).

Fixpoint write_file {C} (folder name : string) (c : C) (fs : list (File C)) : list (File C) :=
  match fs with
  | [] => [mkFile folder name c]
  | f :: fs' =>
      if same_file folder name f then mkFile folder name c :: fs'
      else f :: write_file folder name c fs'
  end.

Fixpoint find_file {C} (folder name : string) (fs : list (File C)) : option C :=
  match fs with
  | [] => None
  | f :: fs' =>
      if same_file folder name f then Some (file_content f) else find_file folder name fs'
  end.

Definition get_name (name suffix date : string) : string :=
  name ++ "-" ++ date ++ "." ++ suffix.

Definition written (folder fname : string) (data : PyVal) (s : Crawl) : Crawl :=
  mkCrawl (self s) (net s) (write_file folder fname data (raw s)) (proc s) (today s)
          (stdout s) (pickled s ++ [mkFile folder fname data]).

Definition save_pickle (folder fname : string) (data : PyVal) : M Crawl unit :=
  modify (written folder fname data).

Definition save_response (response : PyVal) (name folder : string) : M Crawl unit :=
  s <- get ;;
  save_pickle folder (get_name name "pkl" (today s)) response.

Definition save_df (df : DataFrame) (name folder : string) : M Crawl unit :=
  modify (fun s =>
    mkCrawl (self s) (net s) (raw s)
            (write_file folder (get_name name "gzip.parquet" (today s)) df (proc s))
            (today s) (stdout s) (pickled s)).

Fixpoint elem_ids (l : list Elem) : PyExn + list string :=
  match l with
  | [] => inr []
  | EId k :: l' =>
      match elem_ids l' with
      | inr ks => inr (k :: ks)
      | inl e => inl e
      end
  | EResp _ :: _ => inl TypeError
  end.

(** [for k in v]: the keys of a dictionary, the elements of a list.  A
    response in the list is no key of a dictionary: the loops below fail on
    it with [TypeError]. *)
Definition py_iter (v : PyVal) : PyExn + list string :=
  match v with
  | VDict d => inr (od_keys d)
  | VList l => elem_ids l
  | VNone | VPager _ => inl TypeError
  end.

(** [len(v)] *)
Definition py_len (v : PyVal) : PyExn + nat :=
  match v with
  | VDict d => inr (List.length d)
  | VList l => inr (List.length l)
  | VNone | VPager _ => inl TypeError
  end.

(** The loop of [save_response_comments]: only new ids are inserted. *)
Fixpoint merge_new (rs : PyVal) (keys : list string) (response_comments : PyVal)
  : PyExn + PyVal :=
  match keys with
  | [] => inr response_comments
  | video_id :: rest =>
      match py_contains video_id response_comments with
      | inl e => inl e
      | inr true => merge_new rs rest response_comments
      | inr false =>
          match py_getitem video_id rs with
          | inl e => inl e
          | inr response =>
              match py_setitem video_id response response_comments with
              | inl e => inl e
              | inr updated => merge_new rs rest updated
              end
          end
      end
  end.

Definition check_comments_file_exists (folder fname : string) : M Crawl PyVal :=
  s <- get ;;
  match find_file folder fname (raw s) with
  | Some response => ret response
  | None => ret (VDict [])
  end.

Definition save_response_comments (rs : PyVal) (name folder : string) : M Crawl unit :=
  s <- get ;;
  let fname := get_name name "pkl" (today s) in
  response_comments <- check_comments_file_exists folder fname ;;
  keys <- lift_sum (py_iter rs) ;;
  merged <- lift_sum (merge_new rs keys response_comments) ;;
  _ <- lift_sum (py_len merged) ;;
  save_pickle folder fname merged.

Definition save_videos_with_disabled_comments (ids : PyVal) (name folder : string)
  : M Crawl unit :=
  s <- get ;;
  save_pickle folder (get_name name "pkl" (today s)) ids.

(** [folder.glob(pattern)] *)
Definition glob {C} (folder pattern : string) (fs : list (File C)) : list (File C) :=
  filter (fun f => String.eqb folder (file_folder f) && glob_match pattern (file_name f)) fs.

Fixpoint dated {C} (files : list (File C)) : PyExn + list (Z * File C) :=
  match files with
  | [] => inr []
  | f :: files' =>
      match file_date (file_name f) with
      | None => inl (AssertionError "No match")
      | Some ts =>
          match dated files' with
          | inr l => inr ((ts, f) :: l)
          | inl e => inl e
          end
      end
  end.

(** The first file among those of the latest date: [sorted] is stable. *)
Fixpoint latest {C} (best : Z * File C) (rest : list (Z * File C)) : File C :=
  match rest with
  | [] => snd best
  | (ts, f) :: rest' =>
      if (fst best <? ts)%Z then latest (ts, f) rest' else latest best rest'
  end.

Definition select_latest_file {C} (files : list (File C)) : PyExn + File C :=
  match dated files with
  | inl e => inl e
  | inr [] => inl IndexError
  | inr (first :: rest) => inr (latest first rest)
  end.

Definition get_file {C} (folder name : string) (fs : list (File C)) : PyExn + File C :=
  match glob folder ("*" ++ name ++ "*") fs with
  | [] => inl (AssertionError "0 files")
  | [file] => inr file
  | files => select_latest_file files
  end.

(** ** ytcollector_class.py *)

Definition RETRY_TIMES : nat := 10.

Definition setup_attributes (api_key : string) (chans : list (string * string))
    (cutoff : Z) : YtEntityData :=
  mkYt api_key chans cutoff None VNone None VNone None None None VNone VNone None None
       VNone None VNone None None None.

Definition put_videoid_in_buffer_back : M Crawl unit :=
  s <- get ;;
  match temp_id_storage (self s) with
  | None => raise TypeError
  | Some buffer =>
      match pop buffer with
      | None => ret tt
      | Some (rest, video_id) =>
          self_set (set_temp_id_storage (Some rest)) ;;
          pending <- attr (videos_ids_to_collect (self s)) AttributeError ;;
          self_set (set_videos_ids_to_collect (Some (pending ++ [video_id]))) ;;
          print (MsgPutBack video_id)
      end
  end.

Definition handle_http_error (e : HttpError) : M Crawl unit :=
  put_videoid_in_buffer_back ;;
  match unpack_http_error e with
  | inl _ => lift (sleep 2000)
  | inr reason =>
      if String.eqb reason "quotaExceeded" then
        raise (AssertionError "Quota limit exceeded. Wait until quotaLimit expires.")
      else if String.eqb reason "forbidden" then
        s <- get ;;
        raise (AssertionError ("API key `" ++ current_api_key (self s) ++ "` is suspended. "))
      else if String.eqb reason "accessNotConfigured" then
        raise (AssertionError "API key not activated, activate it at google cloud")
      else lift (sleep 5000)
  end.

(** The decorator: [remaining] is [times - attempt].  When no attempt is
    left the wrapper falls off its loop and returns [None]. *)
Fixpoint error_api_method {A} (remaining : nat) (func : M Crawl A) : M Crawl (option A) :=
  match remaining with
  | O => ret None
  | S remaining' =>
      try_except
        (a <- func ;; ret (Some a))
        (on_http_error (fun e =>
           handle_http_error e ;;
           error_api_method remaining' func))
  end.

Definition collect_upload_playlist_body (fuel : nat) (channel : string) : M Crawl unit :=
  s <- get ;;
  channel_id <- attr (od_get channel (channels (self s))) KeyError ;;
  response <- lift (search_channel_id channel_id) ;;
  self_set (set_channel_response (Some response)) ;;
  upload_playlist_id <- lift_sum (get_upload_playlist_id response) ;;
  uploaded <- lift (query_uploads_date fuel upload_playlist_id (cutoff_date (self s))) ;;
  self_set (set_upload_responses (VList (map EResp uploaded))) ;;
  save_response (VList (map EResp uploaded)) (channel ++ "-uploadplaylist-responses") channel ;;
  df <- lift_sum (get_dataframe_responses uploaded get_data_videos_playlist) ;;
  self_set (set_df_upload_playlist (Some df)) ;;
  save_df df (channel ++ "-upload-playlist") channel ;;
  self_set (set_vid_ids (Some (frame_video_ids df))).

Definition collect_upload_playlist (fuel : nat) (channel : string) : M Crawl (option unit) :=
  error_api_method RETRY_TIMES (collect_upload_playlist_body fuel channel).

Definition get_videoids_to_collect : M Crawl unit :=
  s <- get ;;
  df <- attr (df_m (self s)) AttributeError ;;
  let ids := rev (frame_video_ids df) in
  self_set (set_video_ids (Some ids)) ;;
  self_set (set_videos_ids_to_collect (Some ids)) ;;
  self_set (set_collected_video_ids (Some [])).

Definition collect_videos_body (channel : string) : M Crawl unit :=
  s <- get ;;
  ids <- attr (vid_ids (self s)) TypeError ;;
  queried <- lift (query_videos_list ids) ;;
  self_set (set_videos_responses (VList (map EResp queried))) ;;
  save_response (VList (map EResp queried)) (channel ++ "-video-responses") channel ;;
  videos <- lift_sum (get_dataframe_responses queried get_data_videos) ;;
  self_set (set_df_videos (Some videos)) ;;
  playlist <- attr (df_upload_playlist (self s)) TypeError ;;
  let merged := merge_playlist_and_videos playlist videos in
  self_set (set_df_m (Some merged)) ;;
  save_df merged (channel ++ "-video-playlist") channel ;;
  get_videoids_to_collect.

Definition collect_videos (channel : string) : M Crawl (option unit) :=
  error_api_method RETRY_TIMES (collect_videos_body channel).

Definition setup_comment_collector : M Crawl unit :=
  self_set (set_responses_replies (VDict [])) ;;
  self_set (set_responses_toplevel (VDict [])) ;;
  s <- get ;;
  collected <- attr (collected_video_ids (self s)) AttributeError ;;
  self_set (set_i (Some (Z.of_nat (List.length collected)))) ;;
  self_set (set_temp_id_storage (Some [])) ;;
  self_set (set_videos_with_comments_disabled (VList [])).

Definition get_video_id_to_collect : M Crawl string :=
  s <- get ;;
  pending <- attr (videos_ids_to_collect (self s)) AttributeError ;;
  match pop pending with
  | None => raise IndexError
  | Some (rest, video_id) =>
      self_set (set_videos_ids_to_collect (Some rest)) ;;
      buffer <- attr (temp_id_storage (self s)) AttributeError ;;
      self_set (set_temp_id_storage (Some (buffer ++ [video_id]))) ;;
      ret video_id
  end.

Definition collect_toplevel_comments (fuel : nat) (video_id : string) : M Crawl unit :=
  threads <- lift (query_all_items fuel video_id comments_pager) ;;
  self_set (set_comment_threads (Some threads)) ;;
  s <- get ;;
  updated <- lift_sum (py_setitem video_id
                         (DRows (get_multiple_comment_thread_data threads))
                         (responses_toplevel (self s))) ;;
  self_set (set_responses_toplevel updated).

Definition truthy (v : DictVal) : bool :=
  match v with
  | DRows [] | DResps [] => false
  | _ => true
  end.

(** A response has no key ["total_reply_count"]. *)
Definition as_data_thread (v : DictVal) : PyExn + list Row :=
  match v with
  | DRows rows => inr rows
  | DResps [] => inr []
  | DResps (_ :: _) => inl KeyError
  end.

Definition collect_comment_replies (fuel : nat) (video_id : string) : M Crawl unit :=
  s <- get ;;
  toplevel <- lift_sum (py_getitem video_id (responses_toplevel (self s))) ;;
  if truthy toplevel then
    data_thread <- lift_sum (as_data_thread toplevel) ;;
    thread_responses <- lift (get_replies_comment_thread fuel video_id data_thread
                                replies_pager) ;;
    self_set (set_comment_thread_responses thread_responses) ;;
    rows <- lift_sum (get_comment_reply_data thread_responses) ;;
    s' <- get ;;
    updated <- lift_sum (py_setitem video_id (DRows rows) (responses_replies (self s'))) ;;
    self_set (set_responses_replies updated)
  else ret tt.

Definition collect_comments_video (fuel : nat) (video_id : string) : M Crawl unit :=
  collect_toplevel_comments fuel video_id ;;
  collect_comment_replies fuel video_id.

(** [list.append] on an attribute *)
Definition py_append (k : string) (v : PyVal) : PyExn + PyVal :=
  match v with
  | VList l => inr (VList (l ++ [EId k]))
  | _ => inl AttributeError
  end.

Definition handle_disabled_comments_error (e : HttpError) (video_id : string)
  : M Crawl unit :=
  match unpack_http_error e with
  | inl _ => raise (HttpErrorExn e)
  | inr reason =>
      if String.eqb reason "commentsDisabled" then
        s <- get ;;
        updated <- lift_sum (py_append video_id (videos_with_comments_disabled (self s))) ;;
        self_set (set_videos_with_comments_disabled updated)
      else raise (HttpErrorExn e)
  end.

Definition safe_collect_comments_video (fuel : nat) (video_id : string) : M Crawl unit :=
  try_except (collect_comments_video fuel video_id)
             (on_http_error (fun e => handle_disabled_comments_error e video_id)).

Definition save_comments (channel : string) : M Crawl unit :=
  s <- get ;;
  ids <- attr (video_ids (self s)) AttributeError ;;
  print (MsgSaved (i (self s)) (List.length ids) channel) ;;
  save_response_comments (responses_toplevel (self s)) (channel ++ "-toplevelcomments")
    channel ;;
  save_response_comments (responses_replies (self s)) (channel ++ "-replies") channel ;;
  save_videos_with_disabled_comments (videos_with_comments_disabled (self s))
    (channel ++ "-disabled-comments-videoids") channel.

Definition flush_tmp_storage_comments (video_id : string) : M Crawl unit :=
  lift (remove_tmp_data video_id) ;;
  lift (remove_tmp_data (video_id ++ "-replies")).

Definition flush_all_tmp_storage : M Crawl unit :=
  lift (modify (fun n => mkNet (api n) [] (requests n) (slept n))).

Definition bookkeeping_comments (channel video_id : string) : M Crawl unit :=
  s <- get ;;
  count <- attr (i (self s)) TypeError ;;
  (if (count mod 50 =? 0)%Z
   then save_comments channel ;; flush_all_tmp_storage
   else ret tt) ;;
  collected <- attr (collected_video_ids (self s)) AttributeError ;;
  self_set (set_collected_video_ids (Some (collected ++ [video_id]))) ;;
  buffer <- attr (temp_id_storage (self s)) AttributeError ;;
  match pop buffer with
  | None => raise IndexError
  | Some (rest, _) =>
      self_set (set_temp_id_storage (Some rest)) ;;
      self_set (set_i (Some (count + 1)%Z))
  end.

(** The [while] loop of [collect_comments]: [steps] bounds its iterations,
    [fuel] the pages of each paginated query. *)
Fixpoint collect_comments_loop (steps fuel : nat) (channel : string) : M Crawl unit :=
  s <- get ;;
  pending <- attr (videos_ids_to_collect (self s)) AttributeError ;;
  match pending with
  | [] => ret tt
  | _ :: _ =>
      match steps with
      | O => out_of_fuel
      | S steps' =>
          video_id <- get_video_id_to_collect ;;
          safe_collect_comments_video fuel video_id ;;
          bookkeeping_comments channel video_id ;;
          collect_comments_loop steps' fuel channel
      end
  end.

Definition collect_comments_body (fuel : nat) (channel : string) : M Crawl unit :=
  collect_comments_loop fuel fuel channel ;;
  save_comments channel ;;
  flush_all_tmp_storage.

Definition collect_comments (fuel : nat) (channel : string) : M Crawl (option unit) :=
  error_api_method RETRY_TIMES (collect_comments_body fuel channel).

Definition on_key_error {S A} (h : M S A) (ex : PyExn) : option (M S A) :=
  match ex with
  | KeyError => Some h
  | _ => None
  end.

(** [try ... except KeyError ... else ...]: the flag tells whether the
    [try] block finished, so that the [else] block runs outside the
    handler. *)
Definition collect_data_channel (fuel : nat) (channel : string) : M Crawl unit :=
  resolved <- try_except
                (collect_upload_playlist fuel channel ;; ret true)
                (on_key_error (print (MsgNoPlaylist channel) ;; ret false)) ;;
  if resolved : bool then
    collect_videos channel ;;
    setup_comment_collector ;;
    collect_comments fuel channel ;;
    ret tt
  else ret tt.

Fixpoint collect_data_channels_loop (fuel : nat) (chans : list string) : M Crawl unit :=
  match chans with
  | [] => ret tt
  | channel :: rest =>
      print MsgRule ;;
      print (MsgCollecting channel) ;;
      collect_data_channel fuel channel ;;
      print MsgDone ;;
      print MsgRule ;;
      collect_data_channels_loop fuel rest
  end.

Definition collect_data_channels (fuel : nat) : M Crawl unit :=
  s <- get ;;
  collect_data_channels_loop fuel (od_keys (channels (self s))).

(** *** YtEntityDataCheckpoint *)

(** [read_file] with [proc=False]: a pickle of [data/raw]. *)
Definition read_file (folder name : string) : M Crawl PyVal :=
  s <- get ;;
  match get_file folder name (raw s) with
  | inl (AssertionError _) => ret VNone
  | inl e => raise e
  | inr file => ret (file_content file)
  end.

(** [read_file] with [proc=True]: a frame of [data/proc]. *)
Definition read_file_proc (folder name : string) : M Crawl (option DataFrame) :=
  s <- get ;;
  match get_file folder name (proc s) with
  | inl (AssertionError _) => ret None
  | inl e => raise e
  | inr file => ret (Some (file_content file))
  end.

Definition restore_pattern (channel date name : string) : string :=
  if String.eqb name "disabled" then name ++ "*" ++ date
  else channel ++ "*" ++ name ++ "*" ++ date.

Fixpoint restore_each {V} (read : string -> M Crawl V)
    (l : list (string * (V -> YtEntityData -> YtEntityData))) : M Crawl unit :=
  match l with
  | [] => ret tt
  | (name, setter) :: l' =>
      file <- read name ;;
      self_set (setter file) ;;
      restore_each read l'
  end.

Definition restore_responses (channel date : string) : M Crawl unit :=
  restore_each (fun name => read_file channel (restore_pattern channel date name))
    [("upload", set_upload_responses);
     ("video", set_videos_responses);
     ("toplevel", set_responses_toplevel);
     ("replies", set_responses_replies);
     ("disabled", set_videos_with_comments_disabled)].

Definition restore_dfs (channel : string) : M Crawl unit :=
  restore_each (fun name => read_file_proc channel name)
    [("upload", set_df_upload_playlist);
     ("video", set_df_m)].

Definition handle_collected_comments : M Crawl unit :=
  s <- get ;;
  df <- attr (df_m (self s)) AttributeError ;;
  let ids := rev (frame_video_ids df) in
  self_set (set_video_ids (Some ids)) ;;
  collected <- lift_sum (py_keys (responses_toplevel (self s))) ;;
  self_set (set_collected_video_ids (Some collected)) ;;
  let to_collect := filter (fun video_id => negb (mem video_id collected)) ids in
  self_set (set_videos_ids_to_collect (Some to_collect)) ;;
  print (MsgRestored (List.length ids) (List.length collected) (List.length to_collect)) ;;
  self_set (set_i (Some (Z.of_nat (List.length collected)))) ;;
  self_set (set_temp_id_storage (Some [])).

Definition restore_obj_from_checkpoint (channel date : string) : M Crawl YtEntityData :=
  restore_responses channel date ;;
  restore_dfs channel ;;
  handle_collected_comments ;;
  s <- get ;;
  ret (self s).

(** ** The vocabulary of the statements *)

(** The checkpoint of an item: the content of its file in [data/tmp]. *)
Definition checkpoint (item_id : string) (n : Net) : option PyVal :=
  od_get (get_tmp_file item_id) (tmp n).

Definition is_quota (e : HttpError) : bool :=
  match unpack_http_error e with
  | inr reason => String.eqb reason "quotaExceeded"
  | inl _ => false
  end.

(** The page tokens of the requests sent to fetch [pages] one after the
    other, the first one at token [t0]. *)
Definition tokens_for (t0 : option string) (pages : list Response) : list (option string) :=
  firstn (List.length pages) (t0 :: map nextPageToken pages).

(** The token in hand after [pages] were fetched starting at token [t0]. *)
Definition token_after (t0 : option string) (pages : list Response) : option string :=
  match pop pages with
  | Some (_, p) => nextPageToken p
  | None => t0
  end.

(** The state a call starts from: the pager of the file, a new one without. *)
Definition start_of (item_id : string) (n : Net) : DataClassPager :=
  match checkpoint item_id n with
  | Some (VPager pd) => pd
  | _ => mkPager [] None false 0
  end.

(** An unfinished pager holds the token that its last page carries. *)
Definition consistent (pd : DataClassPager) : Prop :=
  all_items_collected pd = false -> next_page_token pd = last_token (responses pd).

Definition consistent_checkpoint (item_id : string) (n : Net) : Prop :=
  forall pd, checkpoint item_id n = Some (VPager pd) -> consistent pd.

(** A computation keeps an observation of the state when no outcome of it
    changes the observation. *)
Definition keeps {S A X} (obs : S -> X) (c : M S A) : Prop :=
  forall s res s', c s = (res, s') -> obs s' = obs s.

(** The crawl frontier: the ids to collect, the buffer of the id under
    work, the collected ids, and the counter. *)
Definition frontier (s : Crawl) :=
  (videos_ids_to_collect (self s), temp_id_storage (self s),
   collected_video_ids (self s), i (self s), video_ids (self s)).

(** What a run leaves outside the object and outside [data/tmp]. *)
Definition outputs (s : Crawl) :=
  (raw s, proc s, today s, stdout s, pickled s).

Definition taken (rest buffer : list string) (video_id : string) (s : Crawl) : Crawl :=
  with_self (set_temp_id_storage (Some (buffer ++ [video_id])))
    (with_self (set_videos_ids_to_collect (Some rest)) s).

Definition requeued (pending buffer : list string) (video_id : string) (s : Crawl) : Crawl :=
  printed (MsgPutBack video_id)
    (with_self (set_videos_ids_to_collect (Some (pending ++ [video_id])))
       (with_self (set_temp_id_storage (Some buffer)) s)).

(** The reasons on which [handle_http_error] gives up. *)
Definition fatal_reason (reason : string) : bool :=
  String.eqb reason "quotaExceeded" || String.eqb reason "forbidden"
  || String.eqb reason "accessNotConfigured".

Definition flush_part (channel : string) : M Crawl unit :=
  save_comments channel ;; flush_all_tmp_storage.

(** The state after the bookkeeping of [video_id]. *)
Definition booked (count : Z) (collected buffer : list string) (video_id : string)
    (s : Crawl) : Crawl :=
  with_self (set_i (Some (count + 1)%Z))
    (with_self (set_temp_id_storage (Some buffer))
       (with_self (set_collected_video_ids (Some (collected ++ [video_id]))) s)).

(** The ids to collect, the buffer of the id under work and the collected
    ids hold, together, each id of [ids] once. *)
Definition partitioned (ids : list string) (s : Crawl) : Prop :=
  exists pending buffer collected,
    videos_ids_to_collect (self s) = Some pending /\
    temp_id_storage (self s) = Some buffer /\
    collected_video_ids (self s) = Some collected /\
    Permutation (pending ++ buffer ++ collected) ids.

(** The counters printed by the flushes, in order. *)
Definition flush_counts (out : list Msg) : list (option Z) :=
  flat_map (fun m => match m with MsgSaved count _ _ => [count] | _ => [] end) out.

(** The successive contents written to a file of [data/raw]. *)
Definition writes_to (folder fname : string) (log : list (File PyVal)) : list PyVal :=
  map file_content (filter (same_file folder fname) log).

Definition toplevel_file (channel date : string) : string :=
  get_name (channel ++ "-toplevelcomments") "pkl" date.

(** Every id of [w1] is an id of [w2]. *)
Definition grows (w1 w2 : PyVal) : Prop :=
  forall k, py_contains k w1 = inr true -> py_contains k w2 = inr true.

Fixpoint increasing (ws : list PyVal) : Prop :=
  match ws with
  | w1 :: (w2 :: _) as rest => grows w1 w2 /\ increasing rest
  | _ => True
  end.

Definition existing (folder fname : string) (s : Crawl) : PyVal :=
  match find_file folder fname (raw s) with
  | Some c => c
  | None => VDict []
  end.

(** The state after a flush: the three files are written, in this order. *)
Definition flushed (channel : string) (total : nat) (w1 w2 w3 : PyVal) (s : Crawl) : Crawl :=
  written channel (get_name (channel ++ "-disabled-comments-videoids") "pkl" (today s)) w3
    (written channel (get_name (channel ++ "-replies") "pkl" (today s)) w2
       (written channel (toplevel_file channel (today s)) w1
          (printed (MsgSaved (i (self s)) total channel) s))).

(** The record of the writes to the file of top-level comments is
    increasing, and the file holds what was written last. *)
Definition recorded (channel : string) (s : Crawl) : Prop :=
  let ws := writes_to channel (toplevel_file channel (today s)) (pickled s) in
  increasing ws /\
  match pop ws with
  | Some (_, w) => find_file channel (toplevel_file channel (today s)) (raw s) = Some w
  | None => True
  end.

(** The counters at which the turns from [count] on flush. *)
Fixpoint due (count : Z) (turns : nat) : list Z :=
  match turns with
  | O => []
  | S turns' => (if (count mod 50 =? 0)%Z then [count] else []) ++ due (count + 1) turns'
  end.

(** The pause that follows a failed attempt, in milliseconds. *)
Definition retry_delay (e : HttpError) : Z :=
  match unpack_http_error e with
  | inl _ => 2000
  | inr _ => 5000
  end.

(** The errors after which the wrapper tries again: the reason cannot be
    read, or it is none of the three reasons that stop the run. *)
Definition retryable (e : HttpError) : Prop :=
  match unpack_http_error e with
  | inl _ => True
  | inr reason => fatal_reason reason = false
  end.

(** The buffer of the id under work is a list, and the list of ids to
    collect exists when the buffer holds an id. *)
Definition ready (s : Crawl) : Prop :=
  exists buffer,
    temp_id_storage (self s) = Some buffer /\
    (buffer <> [] -> videos_ids_to_collect (self s) <> None).

(** The state after the call that looks the channel up. *)
Definition searched (channel_id : string) (response : ChannelResponse) (a : Api)
    (s : Crawl) : Crawl :=
  with_self (set_channel_response (Some response))
    (with_net (mkNet a (tmp (net s)) (requests (net s) ++ [ChannelsList channel_id])
                     (slept (net s))) s).

(** What [read_file] returns: the content of the file found, [None] without. *)
Definition loaded (folder name : string) (s : Crawl) : PyVal :=
  match get_file folder name (raw s) with
  | inr file => file_content file
  | inl _ => VNone
  end.

Definition loaded_proc (folder name : string) (s : Crawl) : option DataFrame :=
  match get_file folder name (proc s) with
  | inr file => Some (file_content file)
  | inl _ => None
  end.

(** The attributes after [restore_responses] and [restore_dfs]. *)
Definition restored (channel date : string) (s : Crawl) (o : YtEntityData) : YtEntityData :=
  set_df_m (loaded_proc channel "video" s)
    (set_df_upload_playlist (loaded_proc channel "upload" s)
       (set_videos_with_comments_disabled
          (loaded channel (restore_pattern channel date "disabled") s)
          (set_responses_replies (loaded channel (restore_pattern channel date "replies") s)
             (set_responses_toplevel
                (loaded channel (restore_pattern channel date "toplevel") s)
                (set_videos_responses
                   (loaded channel (restore_pattern channel date "video") s)
                   (set_upload_responses
                      (loaded channel (restore_pattern channel date "upload") s) o)))))).

Fixpoint assigned {V} (value : string -> Crawl -> V)
    (l : list (string * (V -> YtEntityData -> YtEntityData))) (s : Crawl) : Crawl :=
  match l with
  | [] => s
  | (name, setter) :: l' => assigned value l' (with_self (setter (value name s)) s)
  end.

(** The frontier rebuilt by [handle_collected_comments]. *)
Definition rebuilt (ids collected : list string) (s : Crawl) : Crawl :=
  let to_collect := filter (fun video_id => negb (mem video_id collected)) ids in
  with_self (set_temp_id_storage (Some []))
    (with_self (set_i (Some (Z.of_nat (List.length collected))))
       (printed (MsgRestored (List.length ids) (List.length collected)
                             (List.length to_collect))
          (with_self (set_videos_ids_to_collect (Some to_collect))
             (with_self (set_collected_video_ids (Some collected))
                (with_self (set_video_ids (Some ids)) s))))).

(** The last item of a page was uploaded more than a month before the
    cutoff date. *)
Definition ends_before (cutoff : Z) (p : Response) : bool :=
  match pop (items p) with
  | Some (_, last_item) => month_before (item_published_at last_item) cutoff
  | None => false
  end.

(** A page that holds a token counts one pause of half a second. *)
Definition pauses (pages : list Response) (last_page : Response) : nat :=
  List.length pages + (match nextPageToken last_page with Some _ => 1 | None => 0 end).

(** The chunks of the videos query: none is empty, none exceeds 50 ids. *)
Definition chunked (chunks : list (list string)) (ids : list string) : Prop :=
  List.concat chunks = ids /\
  Forall (fun c => 1 <= List.length c <= 50) chunks.

(** Every entry of [d] is an entry of [d']. *)
Definition extends {V} (d d' : list (string * V)) : Prop :=
  forall k x, od_get k d = Some x -> od_get k d' = Some x.

(** The threads of [data_thread] that have replies. *)
Definition threads_with_replies (data_thread : list Row) : list string :=
  map row_thread_id (filter (fun row => (0 <? row_total_reply_count row)%Z) data_thread).

(** The channels reported as lacking an upload playlist, in order. *)
Definition without_playlist (out : list Msg) : list string :=
  flat_map (fun m => match m with MsgNoPlaylist c => [c] | _ => [] end) out.

End Collector.

(** * Scripted collaborators

    Concrete collaborators and states, on which the collector is run in the
    examples that close the development. *)

(** A glob pattern with [*] as its only special character. *)
Fixpoint wildcard (pattern : string) : string -> bool :=
  match pattern with
  | EmptyString =>
      fun name => match name with EmptyString => true | String _ _ => false end
  | String c pattern' =>
      if Ascii.eqb c "*" then
        fix skip (name : string) : bool :=
          wildcard pattern' name ||
          match name with
          | EmptyString => false
          | String _ name' => skip name'
          end
      else
        fun name =>
          match name with
          | EmptyString => false
          | String d name' => Ascii.eqb c d && wildcard pattern' name'
          end
  end.

Definition digit (c : Ascii.ascii) : option Z :=
  let n := Z.of_N (Ascii.N_of_ascii c) in
  if ((48 <=? n) && (n <=? 57))%Z then Some (n - 48)%Z else None.

Fixpoint number (cs : list Ascii.ascii) (acc : Z) : option Z :=
  match cs with
  | [] => Some acc
  | c :: cs' =>
      match digit c with
      | Some d => number cs' (acc * 10 + d)%Z
      | None => None
      end
  end.

(** A date [yyyy-mm-dd] at the head of a text, as the number [yyyymmdd]. *)
Definition date_prefix (s : string) : option Z :=
  match s with
  | String y1 (String y2 (String y3 (String y4 (String h1 (String m1 (String m2
      (String h2 (String d1 (String d2 _))))))))) =>
      if Ascii.eqb h1 "-" && Ascii.eqb h2 "-"
      then number [y1; y2; y3; y4; m1; m2; d1; d2] 0
      else None
  | _ => None
  end.

Fixpoint find_date (s : string) : option Z :=
  match date_prefix s with
  | Some d => Some d
  | None =>
      match s with
      | EmptyString => None
      | String _ s' => find_date s'
      end
  end.

(** An API that answers from a script: the answer depends on the request
    and on the number of requests answered before. *)
Definition scripted (page : Request -> nat -> Response + HttpError)
    (chan : string -> nat -> ChannelResponse + HttpError) : External :=
  {| Api := nat;
     execute_page := fun req k => (page req k, S k);
     execute_channels := fun channel_id k => (chan channel_id k, S k);
     month_before := fun ts cutoff => (ts + 30 <? cutoff)%Z;
     glob_match := wildcard;
     file_date := find_date |}.

Definition http_error (reason : string) : HttpError :=
  mkHttpError 403 (DetailsList [[("message", "refused"); ("reason", reason)]]).

Definition no_items : Response := mkResponse [] None.

Definition page_of (id : string) (token : option string) : Response :=
  mkResponse [mkItem id "v1" 0 0 "text"] token.

(** The answers follow a list, whatever the request; past the list the
    answer is an empty last page. *)
Definition by_turn (answers : list (Response + HttpError)) : External :=
  scripted (fun _ k => nth k answers (inl no_items))
           (fun _ _ => inl (mkChannelResponse None)).

(** Every page request for the video [bad] fails with [reason]; the other
    videos have no comment. *)
Definition failing_video (bad reason : string) : External :=
  scripted (fun req _ =>
              match req with
              | CommentThreadsList video_id _ =>
                  if String.eqb video_id bad then inr (http_error reason)
                  else inl no_items
              | _ => inl no_items
              end)
           (fun _ _ => inl (mkChannelResponse None)).

(** Every page request fails with [reason]. *)
Definition always_failing (reason : string) : External :=
  scripted (fun _ _ => inr (http_error reason))
           (fun _ _ => inl (mkChannelResponse None)).

Definition new_net (E : External) (a : @Api E) : @Net E := @mkNet E a [] [] [].

(** The object once the list of ids to collect and the comment collector
    are set up. *)
Definition entity (chans : list (string * string)) (ids : list string) : YtEntityData :=
  mkYt "key" chans 0 None VNone None VNone None None None (VDict []) (VDict [])
       (Some 0%Z) (Some []) (VList []) None VNone (Some ids) (Some ids) (Some []).

Definition crawl_of (E : External) (a : @Api E) (o : YtEntityData)
    (raw_files : list (File PyVal)) (proc_files : list (File DataFrame)) : @Crawl E :=
  @mkCrawl E o (new_net E a) raw_files proc_files "2022-05-01" [] [].

Definition numbered (n : nat) : list string :=
  map (fun k => ("v" ++ NilEmpty.string_of_uint (Nat.to_uint k))%string) (seq 1 n).

(** Two pages with a token, then the quota is exhausted. *)
Definition quota_api : External :=
  by_turn [inl (page_of "c1" (Some "t1")); inl (page_of "c2" (Some "t2"));
           inr (http_error "quotaExceeded")].

(** Two pages, the second one without a token. *)
Definition two_pages_api : External :=
  by_turn [inl (page_of "c1" (Some "t1")); inl (page_of "c2" None)].

(** No video has a comment, no channel has an upload playlist. *)
Definition quiet_api : External := by_turn [].

Definition backend_api : External := always_failing "backendError".

Definition forbidden_api : External := failing_video "v3" "forbidden".

Definition disabled_api : External := failing_video "v2" "commentsDisabled".

(** A fresh run over 123 videos. *)
Definition crawl_123 : @Crawl quiet_api :=
  crawl_of quiet_api 0 (entity [] (numbered 123)) [] [].

(** The video [v3] is under work, [v1] and [v2] are left. *)
Definition crawl_in_flight : @Crawl quiet_api :=
  crawl_of quiet_api 0
    (set_temp_id_storage (Some ["v3"])
       (set_videos_ids_to_collect (Some ["v1"; "v2"]) (entity [] ["v1"; "v2"; "v3"])))
    [] [].

(** The files of a channel whose video [v3] was collected. *)
Definition checkpoint_raw : list (File PyVal) :=
  [mkFile "chan" "chan-toplevelcomments-2022-05-01.pkl" (VDict [("v3", DRows [])]);
   mkFile "chan" "chan-replies-2022-05-01.pkl" (VDict []);
   mkFile "chan" "chan-disabled-comments-videoids-2022-05-01.pkl" (VList [])].

Definition checkpoint_proc : list (File DataFrame) :=
  [mkFile "chan" "chan-upload-playlist-2022-05-01.gzip.parquet" (mkFrame ["v3"; "v2"; "v1"]);
   mkFile "chan" "chan-video-playlist-2022-05-01.gzip.parquet" (mkFrame ["v3"; "v2"; "v1"])].

Definition crawl_to_restore : @Crawl quiet_api :=
  crawl_of quiet_api 0 (setup_attributes "key" [("chan", "UC1")] 0)
    checkpoint_raw checkpoint_proc.

Definition crawl_two_channels : @Crawl quiet_api :=
  crawl_of quiet_api 0 (setup_attributes "key" [("a", "UCa"); ("b", "UCb")] 0) [] [].

(** One page with a token, then an error of the backend. *)
Definition backend_after_page_api : External :=
  by_turn [inl (page_of "c1" (Some "t1")); inr (http_error "backendError")].

(** An upload playlist of three pages: the last item of the second page is
    older than the cutoff 60 by more than the month of the script. *)
Definition uploads_page_1 : Response :=
  mkResponse [mkItem "p1" "v1" 100 0 "a"; mkItem "p2" "v2" 90 0 "b"] (Some "t1").

Definition uploads_page_2 : Response :=
  mkResponse [mkItem "p3" "v3" 50 0 "c"; mkItem "p4" "v4" 10 0 "d"] (Some "t2").

Definition uploads_api : External :=
  by_turn [inl uploads_page_1; inl uploads_page_2;
           inl (mkResponse [mkItem "p5" "v5" 5 0 "e"] None)].

(** A first page that carries a token and no item. *)
Definition tokened_empty_page_api : External :=
  by_turn [inl (mkResponse [] (Some "t1"))].

(** The first request is answered, the second one exhausts the quota. *)
Definition quota_after_one_api : External :=
  by_turn [inl no_items; inr (http_error "quotaExceeded")].

Definition quota_only_api : External := always_failing "quotaExceeded".

(** The videos query returns one item per id asked for, except for the
    video [v9], which the platform no longer has. *)
Definition videos_api : External :=
  scripted (fun req _ =>
              match req with
              | VideosList ids =>
                  inl (mkResponse
                         (map (fun v => mkItem v v 100 0 "video")
                              (filter (fun v => negb (String.eqb v "v9")) ids))
                         None)
              | _ => inl no_items
              end)
           (fun _ _ => inl (mkChannelResponse None)).

Definition channel_with_playlist (playlist_id : string) : ChannelResponse :=
  mkChannelResponse
    (Some [mkChannelItem
             (Some (mkContentDetails (Some (mkRelatedPlaylists (Some playlist_id)))))]).

(** Every channel has the playlist [PL1], whose only upload is old. *)
Definition old_uploads_api : External :=
  scripted (fun _ _ => inl (mkResponse [mkItem "p1" "v1" 10 0 "old"] None))
           (fun _ _ => inl (channel_with_playlist "PL1")).

(** The lookup of a channel fails. *)
Definition failing_lookup_api : External :=
  scripted (fun _ _ => inl no_items)
           (fun _ _ => inr (http_error "backendError")).

(** The lookup of a channel returns an empty list of items. *)
Definition empty_items_api : External :=
  scripted (fun _ _ => inl no_items)
           (fun _ _ => inl (mkChannelResponse (Some []))).

(** Every video has one thread with one reply. *)
Definition commented_api : External :=
  scripted (fun req _ =>
              match req with
              | CommentThreadsList video_id _ =>
                  inl (mkResponse [mkItem "t1" video_id 100 1 "comment"] None)
              | CommentsList _ _ => inl (mkResponse [mkItem "r1" "" 100 0 "reply"] None)
              | _ => inl no_items
              end)
           (fun _ _ => inl (mkChannelResponse None)).

Definition two_threads : list Row :=
  [mkRow "t1" "t1" "v1" 2 "first"; mkRow "t2" "t2" "v1" 0 "second";
   mkRow "t3" "t3" "v1" 1 "third"].

(** The checkpoint of the replies of [v1] holds the two threads that have
    replies. *)
Definition net_with_replies : @Net quiet_api :=
  @mkNet quiet_api 0
    [(get_tmp_file "v1-replies", VDict [("t1", DResps [no_items]); ("t3", DResps [])])]
    [] [].

(** A fresh object of one channel, with the cutoff date 60. *)
Definition crawl_one_channel (E : External) (a : @Api E) : @Crawl E :=
  crawl_of E a (setup_attributes "key" [("a", "UCa")] 60) [] [].

(** The upload playlist of the channel is known. *)
Definition crawl_with_playlist : @Crawl videos_api :=
  crawl_of videos_api 0
    (set_df_upload_playlist (Some (mkFrame ["v1"; "v2"; "v9"]))
       (set_vid_ids (Some ["v1"; "v2"; "v9"]) (entity [] [])))
    [] [].

(** Forty videos were counted, twenty are left. *)
Definition crawl_resumed : @Crawl quiet_api :=
  crawl_of quiet_api 0 (set_i (Some 40%Z) (entity [] (numbered 20))) [] [].

Definition dated_files : list (File PyVal) :=
  [mkFile "chan" "chan-video-responses-2022-05-01.pkl" (VList []);
   mkFile "chan" "chan-video-responses-2022-06-01.pkl" (VList [EId "v1"]);
   mkFile "other" "other-video-responses-2022-07-01.pkl" (VList [])].

(** A file without a date has the name of the frame of the videos in its
    name. *)
Definition crawl_with_stray_file : @Crawl quiet_api :=
  crawl_of quiet_api 0 (setup_attributes "key" [("chan", "UC1")] 0)
    checkpoint_raw
    (checkpoint_proc ++ [mkFile "chan" "video-notes.txt" (mkFrame [])]).

(** * Properties of the paginated collector *)

Section PagerFacts.

Context {ext : External}.

Lemma pop_app {A} (l : list A) (x : A) : pop (l ++ [x]) = Some (l, x).
Proof.
  induction l as [|y l IH]; simpl; [reflexivity|].
  rewrite IH. destruct (l ++ [x]) eqn:E; [|reflexivity].
  destruct l; discriminate.
Qed.

Lemma pop_some {A} (l r : list A) (x : A) : pop l = Some (r, x) -> l = r ++ [x].
Proof.
  revert r. induction l as [|y l IH]; intros r H; simpl in H; [discriminate|].
  destruct l as [|z l].
  - inversion H; reflexivity.
  - destruct (pop (z :: l)) as [[r' y']|] eqn:E; [|discriminate].
    inversion H; subst. simpl. f_equal. apply IH. reflexivity.
Qed.

Lemma pop_none {A} (l : list A) : pop l = None -> l = [].
Proof.
  induction l as [|y l IH]; intros H; [reflexivity|].
  simpl in H. destruct l as [|z l]; [discriminate|].
  destruct (pop (z :: l)) as [[r' y']|] eqn:E; [discriminate|].
  specialize (IH eq_refl). discriminate.
Qed.

Lemma last_token_app (rs : list Response) (r : Response) :
  last_token (rs ++ [r]) = nextPageToken r.
Proof. unfold last_token. rewrite pop_app. reflexivity. Qed.

Lemma od_get_set_same {V} (k : string) (v : V) (d : list (string * V)) :
  od_get k (od_set k v d) = Some v.
Proof.
  induction d as [|[k' v'] d IH]; simpl.
  - rewrite String.eqb_refl. reflexivity.
  - destruct (String.eqb k k') eqn:E; simpl; rewrite E; [reflexivity|exact IH].
Qed.

Variable mk : string -> option string -> Request.
Variable item_id : string.

(** One turn of the loop. *)
Lemma query_all_items_loop_step (fuel : nat) (pd : DataClassPager) (n : Net) :
  all_items_collected pd = false ->
  query_all_items_loop (S fuel) item_id (pager_of mk) pd n =
  let req := mk item_id (next_page_token pd) in
  match execute_page req (api n) with
  | (inl response, a) =>
      let n1 := mkNet a (tmp n) (requests n ++ [req]) (slept n) in
      let pages := responses pd ++ [response] in
      match nextPageToken response with
      | Some token =>
          query_all_items_loop fuel item_id (pager_of mk)
            (mkPager pages (Some token) false (num_requests pd + 1)) n1
      | None =>
          let final := mkPager pages (next_page_token pd) true (num_requests pd + 1) in
          (Ok pages,
           mkNet a (od_set (get_tmp_file item_id) (VPager final) (tmp n))
                 (requests n ++ [req]) (slept n))
      end
  | (inr e, a) =>
      (Raise (HttpErrorExn e),
       mkNet a
         (if is_quota e then od_set (get_tmp_file item_id) (VPager pd) (tmp n) else tmp n)
         (requests n ++ [req]) (slept n))
  end.
Proof.
  intros Hc. simpl. rewrite Hc.
  unfold bind, try_except, pager_of, execute at 1. cbv zeta.
  destruct (execute_page (mk item_id (next_page_token pd)) (api n)) as [[response|e] a].
  - destruct (nextPageToken response) as [token|]; [reflexivity|].
    unfold save_tmp_data, modify. destruct fuel; reflexivity.
  - simpl. unfold check_quota_exceeded_tmp, is_quota.
    destruct (unpack_http_error e) as [ex|reason]; [reflexivity|].
    unfold bind. destruct (String.eqb reason "quotaExceeded"); reflexivity.
Qed.

Lemma query_all_items_loop_done (fuel : nat) (pd : DataClassPager) (n : Net) :
  all_items_collected pd = true ->
  query_all_items_loop fuel item_id (pager_of mk) pd n = (Ok (responses pd), n).
Proof. intros Hc. destruct fuel; simpl; rewrite Hc; reflexivity. Qed.

Lemma token_after_cons (t0 : option string) (r : Response) (pages : list Response) :
  token_after t0 (r :: pages) = token_after (nextPageToken r) pages.
Proof.
  unfold token_after. destruct pages as [|p pages]; [reflexivity|].
  change (pop (r :: p :: pages))
    with (match pop (p :: pages) with
          | Some (l, y) => Some (r :: l, y)
          | None => None
          end).
  destruct (pop (p :: pages)) as [[l y]|] eqn:E; [reflexivity|].
  apply pop_none in E. discriminate.
Qed.

Lemma token_after_last (t0 : option string) (rs pages : list Response) :
  t0 = last_token rs ->
  token_after t0 pages = last_token (rs ++ pages).
Proof.
  revert t0 rs. induction pages as [|p pages IH]; intros t0 rs Ht.
  - rewrite app_nil_r. exact Ht.
  - rewrite token_after_cons.
    rewrite (IH (nextPageToken p) (rs ++ [p])).
    + rewrite <- app_assoc. reflexivity.
    + symmetry. apply last_token_app.
Qed.

(** A run of the loop that ends in an error: the pages fetched before it
    all carry a token, each request follows the token of the page before,
    and the file of the item holds the state reached when the error is a
    quota error. *)
Lemma query_all_items_loop_raise (fuel : nat) :
  forall (pd : DataClassPager) (n n' : Net) (ex : PyExn),
    all_items_collected pd = false ->
    query_all_items_loop fuel item_id (pager_of mk) pd n = (Raise ex, n') ->
    exists (e : HttpError) (pages : list Response),
      ex = HttpErrorExn e /\
      requests n' =
        requests n ++ map (mk item_id) (next_page_token pd :: map nextPageToken pages) /\
      tmp n' =
        (if is_quota e
         then od_set (get_tmp_file item_id)
                (VPager (mkPager (responses pd ++ pages)
                                 (token_after (next_page_token pd) pages)
                                 false
                                 (num_requests pd + Z.of_nat (List.length pages))))
                (tmp n)
         else tmp n) /\
      Forall (fun p => nextPageToken p <> None) pages.
Proof.
  induction fuel as [|fuel IH]; intros pd n n' ex Hc Hrun.
  - simpl in Hrun. rewrite Hc in Hrun. discriminate.
  - rewrite query_all_items_loop_step in Hrun by exact Hc. cbv zeta in Hrun.
    destruct (execute_page (mk item_id (next_page_token pd)) (api n)) as [[response|e] a].
    + destruct (nextPageToken response) as [token|] eqn:Htok; [|discriminate].
      apply IH in Hrun; [|reflexivity].
      destruct Hrun as (e & pages & -> & Hreq & Htmp & Hall).
      exists e, (response :: pages).
      split; [reflexivity|]. split; [|split].
      * rewrite Hreq. cbn [requests next_page_token map].
        rewrite <- app_assoc, Htok. reflexivity.
      * rewrite Htmp. cbn [tmp responses next_page_token num_requests].
        rewrite token_after_cons, Htok, <- app_assoc.
        replace (num_requests pd + 1 + Z.of_nat (List.length pages))%Z
          with (num_requests pd + Z.of_nat (List.length (response :: pages)))%Z
          by (cbn [List.length]; lia).
        reflexivity.
      * constructor; [congruence|exact Hall].
    + inversion Hrun; subst. exists e, [].
      cbn [requests tmp map List.length Z.of_nat]. unfold token_after. cbn [pop].
      rewrite app_nil_r, Z.add_0_r. repeat split; try reflexivity; [|constructor].
      destruct pd; simpl in *; subst; reflexivity.
Qed.

(** A run of the loop that returns: it fetched at least one page, sent one
    request for each page it fetched, and left the completed state in the
    file of the item. *)
Lemma query_all_items_loop_ok (fuel : nat) :
  forall (pd : DataClassPager) (n n' : Net) (rs : list Response),
    all_items_collected pd = false ->
    query_all_items_loop fuel item_id (pager_of mk) pd n = (Ok rs, n') ->
    exists (pages : list Response) (token : option string),
      pages <> [] /\
      rs = responses pd ++ pages /\
      requests n' =
        requests n ++ map (mk item_id) (tokens_for (next_page_token pd) pages) /\
      checkpoint item_id n' =
        Some (VPager (mkPager rs token true
                              (num_requests pd + Z.of_nat (List.length pages)))).
Proof.
  induction fuel as [|fuel IH]; intros pd n n' rs Hc Hrun.
  - simpl in Hrun. rewrite Hc in Hrun. discriminate.
  - rewrite query_all_items_loop_step in Hrun by exact Hc. cbv zeta in Hrun.
    destruct (execute_page (mk item_id (next_page_token pd)) (api n)) as [[response|e] a];
      [|discriminate].
    destruct (nextPageToken response) as [token|] eqn:Htok.
    + apply IH in Hrun; [|reflexivity].
      destruct Hrun as (pages & tok & Hne & -> & Hreq & Hcp).
      exists (response :: pages), tok.
      split; [discriminate|]. split; [|split].
      * cbn [responses]. rewrite <- app_assoc. reflexivity.
      * rewrite Hreq. cbn [requests next_page_token].
        unfold tokens_for. cbn [List.length map firstn].
        rewrite <- app_assoc, Htok. reflexivity.
      * rewrite Hcp. cbn [responses num_requests].
        rewrite <- app_assoc.
        replace (num_requests pd + 1 + Z.of_nat (List.length pages))%Z
          with (num_requests pd + Z.of_nat (List.length (response :: pages)))%Z
          by (cbn [List.length]; lia).
        reflexivity.
    + inversion Hrun; subst. exists [response], (next_page_token pd).
      split; [discriminate|]. split; [reflexivity|]. split; [reflexivity|].
      unfold checkpoint. cbn [tmp]. rewrite od_get_set_same. reflexivity.
Qed.

Lemma query_all_items_loop_requests (fuel : nat) :
  forall (pd : DataClassPager) (n n' : Net) (res : Res (list Response)),
    query_all_items_loop fuel item_id (pager_of mk) pd n = (res, n') ->
    exists more, requests n' = requests n ++ more.
Proof.
  induction fuel as [|fuel IH]; intros pd n n' res Hrun;
    destruct (all_items_collected pd) eqn:Hc.
  - rewrite query_all_items_loop_done in Hrun by exact Hc.
    inversion Hrun; subst. exists []. rewrite app_nil_r. reflexivity.
  - simpl in Hrun. rewrite Hc in Hrun. inversion Hrun; subst.
    exists []. rewrite app_nil_r. reflexivity.
  - rewrite query_all_items_loop_done in Hrun by exact Hc.
    inversion Hrun; subst. exists []. rewrite app_nil_r. reflexivity.
  - rewrite query_all_items_loop_step in Hrun by exact Hc. cbv zeta in Hrun.
    destruct (execute_page (mk item_id (next_page_token pd)) (api n)) as [[response|e] a].
    + destruct (nextPageToken response) as [token|].
      * apply IH in Hrun. destruct Hrun as [more Hreq].
        rewrite Hreq. cbn [requests]. rewrite <- app_assoc. eauto.
      * inversion Hrun; subst. cbn [requests]. eauto.
    + inversion Hrun; subst. cbn [requests]. eauto.
Qed.

(** With fuel for one turn at least, a run that starts from an unfinished
    state sends its first request at the token of that state. *)
Lemma query_all_items_loop_first (fuel : nat) (pd : DataClassPager) (n n' : Net)
    (res : Res (list Response)) :
  all_items_collected pd = false ->
  query_all_items_loop (S fuel) item_id (pager_of mk) pd n = (res, n') ->
  exists more, requests n' = requests n ++ mk item_id (next_page_token pd) :: more.
Proof.
  intros Hc Hrun.
  rewrite query_all_items_loop_step in Hrun by exact Hc. cbv zeta in Hrun.
  destruct (execute_page (mk item_id (next_page_token pd)) (api n)) as [[response|e] a].
  - destruct (nextPageToken response) as [token|].
    + apply query_all_items_loop_requests in Hrun. destruct Hrun as [more Hreq].
      rewrite Hreq. cbn [requests]. rewrite <- app_assoc. exists more. reflexivity.
    + inversion Hrun; subst. cbn [requests]. exists []. reflexivity.
  - inversion Hrun; subst. cbn [requests]. exists []. reflexivity.
Qed.

(** [query_all_items] on a world whose file for the item holds a pager. *)
Lemma query_all_items_from (fuel : nat) (pd : DataClassPager) (n : Net) :
  checkpoint item_id n = Some (VPager pd) ->
  query_all_items fuel item_id (pager_of mk) n =
  query_all_items_loop fuel item_id (pager_of mk) pd n.
Proof.
  unfold checkpoint, query_all_items, init_pager, bind, get. intros ->. reflexivity.
Qed.

Lemma query_all_items_fresh (fuel : nat) (n : Net) :
  checkpoint item_id n = None ->
  query_all_items fuel item_id (pager_of mk) n =
  query_all_items_loop fuel item_id (pager_of mk) (mkPager [] None false 0) n.
Proof.
  unfold checkpoint, query_all_items, init_pager, bind, get. intros ->. reflexivity.
Qed.

Lemma query_all_items_loop_out_of_fuel (fuel : nat) :
  forall (pd : DataClassPager) (n n' : Net),
    query_all_items_loop fuel item_id (pager_of mk) pd n = (OutOfFuel, n') ->
    tmp n' = tmp n.
Proof.
  induction fuel as [|fuel IH]; intros pd n n' Hrun;
    destruct (all_items_collected pd) eqn:Hc.
  - rewrite query_all_items_loop_done in Hrun by exact Hc. discriminate.
  - simpl in Hrun. rewrite Hc in Hrun. inversion Hrun. reflexivity.
  - rewrite query_all_items_loop_done in Hrun by exact Hc. discriminate.
  - rewrite query_all_items_loop_step in Hrun by exact Hc. cbv zeta in Hrun.
    destruct (execute_page (mk item_id (next_page_token pd)) (api n)) as [[response|e] a];
      [|discriminate].
    destruct (nextPageToken response) as [token|]; [|discriminate].
    apply IH in Hrun. exact Hrun.
Qed.

(** The files that [query_all_items] writes are consistent: the hypothesis
    of the theorem below holds in every world reached from a folder
    [data/tmp] without files by calls of [query_all_items]. *)
Lemma query_all_items_keeps_consistent (fuel : nat) (n n' : Net)
    (res : Res (list Response)) :
  consistent_checkpoint item_id n ->
  query_all_items fuel item_id (pager_of mk) n = (res, n') ->
  consistent_checkpoint item_id n'.
Proof.
  intros Hcons Hrun.
  assert (Hsame : tmp n' = tmp n -> consistent_checkpoint item_id n').
  { intros Htmp pd Hcp. apply Hcons. unfold checkpoint in *. congruence. }
  assert (Hloop : forall pd,
            consistent pd ->
            query_all_items_loop fuel item_id (pager_of mk) pd n = (res, n') ->
            consistent_checkpoint item_id n').
  { intros pd Hpd Hl. destruct (all_items_collected pd) eqn:Hc.
    - rewrite query_all_items_loop_done in Hl by exact Hc.
      inversion Hl; subst. apply Hsame. reflexivity.
    - destruct res as [rs|ex|].
      + apply query_all_items_loop_ok in Hl; [|exact Hc].
        destruct Hl as (pages & tok & _ & _ & _ & Hcp).
        intros pd' Hcp'. rewrite Hcp in Hcp'. inversion Hcp'; subst.
        intros Hfalse. discriminate.
      + apply query_all_items_loop_raise in Hl; [|exact Hc].
        destruct Hl as (e & pages & _ & _ & Htmp & _).
        destruct (is_quota e); [|apply Hsame; exact Htmp].
        intros pd' Hcp'. unfold checkpoint in Hcp'.
        rewrite Htmp, od_get_set_same in Hcp'. inversion Hcp'; subst.
        intros _. cbn [next_page_token responses].
        apply token_after_last. apply Hpd. exact Hc.
      + apply Hsame. eapply query_all_items_loop_out_of_fuel. exact Hl. }
  destruct (checkpoint item_id n) as [v|] eqn:Hcp.
  - destruct v as [|pd|d|l];
      try (unfold query_all_items, init_pager, bind, get in Hrun;
           unfold checkpoint in Hcp; rewrite Hcp in Hrun;
           inversion Hrun; subst; apply Hsame; reflexivity).
    rewrite (query_all_items_from _ _ _ Hcp) in Hrun.
    apply (Hloop pd); [apply Hcons; exact Hcp|exact Hrun].
  - rewrite (query_all_items_fresh _ _ Hcp) in Hrun.
    apply (Hloop (mkPager [] None false 0)); [intros _; reflexivity|exact Hrun].
Qed.

(** C1. When the fetch of a page raises a quota error after [k] pages are
    in the pager (those of the file the call started from and those it
    fetched), the file written before the error leaves holds exactly these
    [k] pages and the token that page [k] carries, as an unfinished pager;
    the failing call sent one request per page it fetched and the one that
    failed.  A later call for the same item, in any world that still holds
    this file, sends its first request at the stored token, and when it
    returns, its result is the [k] stored pages followed by one new page for
    each request it sent. *)
Theorem quota_checkpoint_then_resume (fuel : nat) (n n' : Net) (e : HttpError) :
  consistent_checkpoint item_id n ->
  query_all_items fuel item_id (pager_of mk) n = (Raise (HttpErrorExn e), n') ->
  unpack_http_error e = inr "quotaExceeded" ->
  exists (fetched : list Response) (count : Z),
    let pages := responses (start_of item_id n) ++ fetched in
    let stored := mkPager pages (last_token pages) false count in
    checkpoint item_id n' = Some (VPager stored) /\
    requests n' =
      requests n ++
      map (mk item_id) (next_page_token (start_of item_id n) :: map nextPageToken fetched) /\
    forall (fuel2 : nat) (n2 n3 : Net) (res : Res (list Response)),
      checkpoint item_id n2 = Some (VPager stored) ->
      query_all_items (S fuel2) item_id (pager_of mk) n2 = (res, n3) ->
      (exists more,
         requests n3 = requests n2 ++ mk item_id (last_token pages) :: more) /\
      (forall rs, res = Ok rs ->
         exists new_pages,
           rs = pages ++ new_pages /\
           requests n3 =
             requests n2 ++ map (mk item_id) (tokens_for (last_token pages) new_pages)).
Proof.
  intros Hcons Hrun Hquota.
  assert (Hstart : query_all_items fuel item_id (pager_of mk) n =
                   query_all_items_loop fuel item_id (pager_of mk) (start_of item_id n) n
                   \/ exists v, checkpoint item_id n = Some v /\
                                (forall pd, v <> VPager pd)).
  { unfold start_of. destruct (checkpoint item_id n) as [v|] eqn:Hcp.
    - destruct v as [|pd|d|l];
        try (right; eexists; split; [reflexivity|intros pd; discriminate]).
      left. apply query_all_items_from. exact Hcp.
    - left. apply query_all_items_fresh. exact Hcp. }
  destruct Hstart as [Hstart|(v & Hcp & Hv)].
  2:{ exfalso. revert Hrun. unfold query_all_items, init_pager, bind, get.
      unfold checkpoint in Hcp. rewrite Hcp.
      destruct v; try discriminate. exfalso. eapply Hv. reflexivity. }
  rewrite Hstart in Hrun.
  assert (Hwf : consistent (start_of item_id n)).
  { unfold start_of. destruct (checkpoint item_id n) as [v|] eqn:Hcp;
      [destruct v as [|pd|d|l]|]; try (intros _; reflexivity).
    apply Hcons. exact Hcp. }
  destruct (all_items_collected (start_of item_id n)) eqn:Hc.
  { rewrite query_all_items_loop_done in Hrun by exact Hc. discriminate. }
  apply query_all_items_loop_raise in Hrun; [|exact Hc].
  destruct Hrun as (e' & fetched & He & Hreq & Htmp & _).
  inversion He; subst e'.
  assert (Hq : is_quota e = true).
  { unfold is_quota. rewrite Hquota. reflexivity. }
  rewrite Hq in Htmp.
  exists fetched, (num_requests (start_of item_id n) + Z.of_nat (List.length fetched))%Z.
  cbv zeta.
  rewrite <- (token_after_last (next_page_token (start_of item_id n))
                (responses (start_of item_id n)))
    by (apply Hwf; exact Hc).
  split; [|split].
  - unfold checkpoint. rewrite Htmp. apply od_get_set_same.
  - exact Hreq.
  - intros fuel2 n2 n3 res Hcp2 Hrun2.
    rewrite (query_all_items_from _ _ _ Hcp2) in Hrun2.
    split.
    + apply query_all_items_loop_first in Hrun2; [exact Hrun2|reflexivity].
    + intros rs ->. apply query_all_items_loop_ok in Hrun2; [|reflexivity].
      destruct Hrun2 as (new_pages & tok & _ & Hrs & Hreq2 & _).
      exists new_pages. split; assumption.
Qed.

(** C2. A call that returns leaves a completed pager with the pages it
    returned in the file of the item; a further call for the same item, in
    any world that holds this file and with any fuel, returns the same pages
    and leaves the world as it found it: no request is sent. *)
Theorem completed_collection_is_replayed (fuel : nat) (n n' : Net) (rs : list Response) :
  query_all_items fuel item_id (pager_of mk) n = (Ok rs, n') ->
  exists (token : option string) (count : Z),
    let stored := mkPager rs token true count in
    checkpoint item_id n' = Some (VPager stored) /\
    forall (fuel2 : nat) (n2 : Net),
      checkpoint item_id n2 = Some (VPager stored) ->
      query_all_items fuel2 item_id (pager_of mk) n2 = (Ok rs, n2).
Proof.
  intros Hrun.
  assert (Hdone : forall token count fuel2 n2,
            checkpoint item_id n2 = Some (VPager (mkPager rs token true count)) ->
            query_all_items fuel2 item_id (pager_of mk) n2 = (Ok rs, n2)).
  { intros token count fuel2 n2 Hcp.
    rewrite (query_all_items_from _ _ _ Hcp).
    apply query_all_items_loop_done. reflexivity. }
  destruct (checkpoint item_id n) as [v|] eqn:Hcp.
  - destruct v as [|pd|d|l];
      try (revert Hrun; unfold query_all_items, init_pager, bind, get;
           unfold checkpoint in Hcp; rewrite Hcp; discriminate).
    rewrite (query_all_items_from _ _ _ Hcp) in Hrun.
    destruct (all_items_collected pd) eqn:Hc.
    + rewrite query_all_items_loop_done in Hrun by exact Hc.
      inversion Hrun; subst. exists (next_page_token pd), (num_requests pd).
      cbv zeta. split; [|apply Hdone].
      rewrite Hcp. destruct pd; simpl in *; subst; reflexivity.
    + apply query_all_items_loop_ok in Hrun; [|exact Hc].
      destruct Hrun as (pages & tok & _ & Hrs & _ & Hcp').
      eexists _, _. cbv zeta. split; [exact Hcp'|apply Hdone].
  - rewrite (query_all_items_fresh _ _ Hcp) in Hrun.
    apply query_all_items_loop_ok in Hrun; [|reflexivity].
    destruct Hrun as (pages & tok & _ & Hrs & _ & Hcp').
    eexists _, _. cbv zeta. split; [exact Hcp'|apply Hdone].
Qed.

(** ** Further facts on the paginated collector *)

Lemma od_get_set_other {V} (k k' : string) (v : V) (d : list (string * V)) :
  String.eqb k k' = false ->
  od_get k (od_set k' v d) = od_get k d.
Proof.
  intros Hne. induction d as [|[k0 v0] d IH]; cbn [od_set od_get].
  - rewrite Hne. reflexivity.
  - destruct (String.eqb k' k0) eqn:E; cbn [od_get].
    + apply String.eqb_eq in E. subst k0. rewrite Hne. reflexivity.
    + rewrite IH. reflexivity.
Qed.

(** A run of the loop that returns, seen page by page. *)
Lemma query_all_items_loop_chain (fuel : nat) :
  forall (pd : DataClassPager) (n n' : Net) (rs : list Response),
    all_items_collected pd = false ->
    query_all_items_loop fuel item_id (pager_of mk) pd n = (Ok rs, n') ->
    exists (pages : list Response) (last_page : Response),
      rs = responses pd ++ pages ++ [last_page] /\
      Forall (fun p => nextPageToken p <> None) pages /\
      nextPageToken last_page = None /\
      requests n' =
        requests n ++ map (mk item_id) (next_page_token pd :: map nextPageToken pages) /\
      checkpoint item_id n' =
        Some (VPager (mkPager rs (token_after (next_page_token pd) pages) true
                              (num_requests pd + Z.of_nat (S (List.length pages))))).
Proof.
  induction fuel as [|fuel IH]; intros pd n n' rs Hc Hrun.
  - simpl in Hrun. rewrite Hc in Hrun. discriminate.
  - rewrite query_all_items_loop_step in Hrun by exact Hc. cbv zeta in Hrun.
    destruct (execute_page (mk item_id (next_page_token pd)) (api n)) as [[response|e] a];
      [|discriminate].
    destruct (nextPageToken response) as [token|] eqn:Htok.
    + apply IH in Hrun; [|reflexivity].
      destruct Hrun as (pages & last_page & -> & Hall & Hlast & Hreq & Hcp).
      exists (response :: pages), last_page.
      split; [cbn [responses]; rewrite <- !app_assoc; reflexivity|].
      split; [constructor; [congruence|exact Hall]|].
      split; [exact Hlast|]. split.
      * rewrite Hreq. cbn [requests next_page_token map].
        rewrite <- app_assoc, Htok. reflexivity.
      * rewrite Hcp. cbn [responses next_page_token num_requests].
        rewrite token_after_cons, Htok, <- !app_assoc.
        replace (num_requests pd + 1 + Z.of_nat (S (List.length pages)))%Z
          with (num_requests pd + Z.of_nat (S (List.length (response :: pages))))%Z
          by (cbn [List.length]; lia).
        reflexivity.
    + inversion Hrun; subst. exists [], response.
      split; [reflexivity|]. split; [constructor|]. split; [exact Htok|].
      split; [reflexivity|].
      unfold checkpoint. cbn [tmp]. rewrite od_get_set_same. reflexivity.
Qed.

(** X1. A collection that starts without a checkpoint and returns followed
    the page tokens: it returns at least one page; the last page carries
    no token and every page before it carries one; the first request had no
    token and each further request had the token of the page before; there
    is one request per page, and the completed checkpoint counts as many
    requests as it holds pages. *)
Theorem fresh_collection_follows_tokens (fuel : nat) (n n' : Net) (rs : list Response) :
  checkpoint item_id n = None ->
  query_all_items fuel item_id (pager_of mk) n = (Ok rs, n') ->
  exists (pages : list Response) (last_page : Response) (stored : DataClassPager),
    rs = pages ++ [last_page] /\
    Forall (fun p => nextPageToken p <> None) pages /\
    nextPageToken last_page = None /\
    requests n' = requests n ++ map (mk item_id) (None :: map nextPageToken pages) /\
    checkpoint item_id n' = Some (VPager stored) /\
    responses stored = rs /\
    all_items_collected stored = true /\
    num_requests stored = Z.of_nat (List.length rs).
Proof.
  intros Hcp Hrun. rewrite (query_all_items_fresh _ _ Hcp) in Hrun.
  apply query_all_items_loop_chain in Hrun; [|reflexivity].
  destruct Hrun as (pages & last_page & Hrs & Hall & Hlast & Hreq & Hstored).
  cbn [responses next_page_token num_requests app] in *.
  eexists pages, last_page, _.
  split; [exact Hrs|]. split; [exact Hall|]. split; [exact Hlast|].
  split; [exact Hreq|]. split; [exact Hstored|].
  split; [reflexivity|]. split; [reflexivity|].
  cbn [num_requests]. rewrite Hrs, length_app. cbn [List.length]. lia.
Qed.

(** X2. A fetch error that is no quota error leaves the folder [data/tmp] as
    it was: no checkpoint is written, whatever number of pages the call had
    fetched before the error. *)
Theorem fetch_error_without_quota_writes_nothing (fuel : nat) (n n' : Net)
    (e : HttpError) :
  query_all_items fuel item_id (pager_of mk) n = (Raise (HttpErrorExn e), n') ->
  is_quota e = false ->
  tmp n' = tmp n.
Proof.
  intros Hrun Hq.
  { assert (Hloop : forall pd,
              query_all_items_loop fuel item_id (pager_of mk) pd n =
                (Raise (HttpErrorExn e), n') ->
              tmp n' = tmp n).
    { intros pd Hl. destruct (all_items_collected pd) eqn:Hc.
      - rewrite query_all_items_loop_done in Hl by exact Hc. discriminate.
      - apply query_all_items_loop_raise in Hl; [|exact Hc].
        destruct Hl as (e' & pages & He & _ & Htmp & _).
        inversion He; subst e'. rewrite Hq in Htmp. exact Htmp. }
    destruct (checkpoint item_id n) as [v|] eqn:Hcp.
    - destruct v as [|pd|d|l];
        try (unfold query_all_items, init_pager, bind, get in Hrun;
             unfold checkpoint in Hcp; rewrite Hcp in Hrun; discriminate).
      rewrite (query_all_items_from _ _ _ Hcp) in Hrun. eapply Hloop. exact Hrun.
    - rewrite (query_all_items_fresh _ _ Hcp) in Hrun. eapply Hloop. exact Hrun. }
Qed.

(** ** The upload playlist *)

Lemma query_uploads_date_loop_ok (playlist_id : string) (cutoff : Z) (fuel : nat) :
  forall (acc : list Response) (next : option string) (n n' : Net) (rs : list Response),
    query_uploads_date_loop fuel playlist_id cutoff acc next n = (Ok rs, n') ->
    exists (pages : list Response) (last_page : Response),
      rs = acc ++ pages ++ [last_page] /\
      Forall (fun p => nextPageToken p <> None /\ items p <> [] /\
                       ends_before cutoff p = false) pages /\
      (nextPageToken last_page = None \/ ends_before cutoff last_page = true) /\
      requests n' =
        requests n ++ map (PlaylistItemsList playlist_id) (next :: map nextPageToken pages) /\
      slept n' = slept n ++ repeat 500%Z (pauses pages last_page).
Proof.
  induction fuel as [|fuel IH]; intros acc next n n' rs Hrun; [discriminate|].
  cbn [query_uploads_date_loop] in Hrun.
  unfold bind at 1 in Hrun. unfold pager_snippet, pager_of, execute in Hrun.
  destruct (execute_page (PlaylistItemsList playlist_id next) (api n)) as [[response|e] a];
    [|discriminate].
  destruct (nextPageToken response) as [token|] eqn:Htok.
  - destruct (pop (items response)) as [[its it]|] eqn:Hpop; [|discriminate].
    unfold bind at 1, sleep, modify in Hrun.
    destruct (month_before (item_published_at it) cutoff) eqn:Hm.
    + inversion Hrun; subst. exists [], response.
      split; [reflexivity|]. split; [constructor|].
      split; [right; unfold ends_before; rewrite Hpop; exact Hm|].
      split; [reflexivity|].
      unfold pauses. rewrite Htok. reflexivity.
    + apply IH in Hrun.
      destruct Hrun as (pages & last_page & -> & Hall & Hlast & Hreq & Hsl).
      exists (response :: pages), last_page.
      split; [rewrite <- !app_assoc; reflexivity|].
      split; [constructor; [|exact Hall]|].
      { split; [congruence|]. split; [|unfold ends_before; rewrite Hpop; exact Hm].
        intros Hnil. rewrite Hnil in Hpop. discriminate. }
      split; [exact Hlast|]. split.
      * rewrite Hreq. cbn [requests map]. rewrite <- app_assoc, Htok. reflexivity.
      * rewrite Hsl. cbn [slept]. rewrite <- app_assoc. reflexivity.
  - inversion Hrun; subst. exists [], response.
    split; [reflexivity|]. split; [constructor|]. split; [left; exact Htok|].
    split; [reflexivity|].
    unfold pauses. rewrite Htok. cbn [slept List.length repeat Nat.add].
    rewrite app_nil_r. reflexivity.
Qed.

(** X3. The query of the upload playlist stops at the first page that has no
    token or whose last item is older than the cutoff by more than a month:
    every page before the last one has a token, at least one item, and a
    last item that is recent enough.  Only the last page is filtered; the pages before it are
    returned whole.  There is one request per page, each with the token of
    the page before, and one pause of half a second per page with a token. *)
Theorem uploads_stop_at_cutoff (fuel : nat) (playlist_id : string) (cutoff : Z)
    (n n' : Net) (rs : list Response) :
  query_uploads_date fuel playlist_id cutoff n = (Ok rs, n') ->
  exists (pages : list Response) (last_page : Response),
    rs = pages ++ [mkResponse (filter_last_items (items last_page) cutoff)
                              (nextPageToken last_page)] /\
    Forall (fun p => nextPageToken p <> None /\ items p <> [] /\
                       ends_before cutoff p = false) pages /\
    (nextPageToken last_page = None \/ ends_before cutoff last_page = true) /\
    requests n' =
      requests n ++ map (PlaylistItemsList playlist_id) (None :: map nextPageToken pages) /\
    slept n' = slept n ++ repeat 500%Z (pauses pages last_page).
Proof.
  unfold query_uploads_date, bind. intros Hrun.
  destruct (query_uploads_date_loop fuel playlist_id cutoff [] None n)
    as [[collected| |] n1] eqn:Hloop; try discriminate.
  apply query_uploads_date_loop_ok in Hloop.
  destruct Hloop as (pages & last_page & -> & Hall & Hlast & Hreq & Hsl).
  cbn [app] in Hrun. rewrite pop_app in Hrun. inversion Hrun; subst.
  exists pages, last_page. auto.
Qed.

(** X4. A page of the upload playlist that carries a token and no item stops
    the query with [IndexError]: the date of its last item cannot be read. *)
Theorem uploads_page_without_items (fuel : nat) (playlist_id : string) (cutoff : Z)
    (n : Net) (token : string) (a : Api) :
  execute_page (PlaylistItemsList playlist_id None) (api n) =
    (inl (mkResponse [] (Some token)), a) ->
  query_uploads_date (S fuel) playlist_id cutoff n =
    (Raise IndexError,
     mkNet a (tmp n) (requests n ++ [PlaylistItemsList playlist_id None]) (slept n)).
Proof.
  intros Hex. unfold query_uploads_date. cbn [query_uploads_date_loop].
  unfold bind, pager_snippet, pager_of, execute. rewrite Hex. reflexivity.
Qed.

(** ** The videos *)

Lemma firstn_skipn_add {A} (a b : nat) (l : list A) :
  firstn a l ++ firstn b (skipn a l) = firstn (a + b) l.
Proof.
  revert l. induction a as [|a IH]; intros l; [reflexivity|].
  destruct l as [|x l]; cbn [firstn skipn Nat.add app].
  - rewrite firstn_nil. reflexivity.
  - rewrite IH. reflexivity.
Qed.

Lemma slices_concat {A} (l : list A) (parts : nat) :
  List.concat (map (fun k => slice l (k * 50, (k + 1) * 50)) (seq 0 parts)) =
  firstn (parts * 50) l.
Proof.
  induction parts as [|p IH]; [reflexivity|].
  rewrite seq_S, map_app, concat_app, IH. cbn [map List.concat Nat.add].
  rewrite app_nil_r. unfold slice. cbn [fst snd].
  replace ((p + 1) * 50 - p * 50) with 50 by lia.
  rewrite firstn_skipn_add. f_equal. lia.
Qed.

Lemma num_parts_bounds (len : nat) :
  let parts := len / 50 + (if Nat.eqb (len mod 50) 0 then 0 else 1) in
  len <= parts * 50 /\ forall k, k < parts -> k * 50 < len.
Proof.
  cbv zeta. pose proof (Nat.div_mod_eq len 50) as Hd.
  pose proof (Nat.mod_upper_bound len 50 ltac:(lia)) as Hm.
  destruct (Nat.eqb (len mod 50) 0) eqn:E.
  - apply Nat.eqb_eq in E. split; [lia|]. intros k Hk. nia.
  - apply Nat.eqb_neq in E. split; [lia|]. intros k Hk. nia.
Qed.

Lemma slices_chunked (ids : list string) :
  chunked (map (slice ids) (get_slices_video_ids ids)) ids.
Proof.
  unfold get_slices_video_ids. cbv zeta.
  destruct (num_parts_bounds (List.length ids)) as [Hle Hlt].
  set (parts := List.length ids / 50 +
                (if Nat.eqb (List.length ids mod 50) 0 then 0 else 1)) in *.
  rewrite map_map. split.
  - rewrite slices_concat. apply firstn_all2. exact Hle.
  - apply Forall_forall. intros c Hc. apply in_map_iff in Hc.
    destruct Hc as (k & <- & Hk). apply in_seq in Hk.
    specialize (Hlt k ltac:(lia)).
    unfold slice. cbn [fst snd]. rewrite length_firstn, length_skipn. lia.
Qed.

Lemma for_each_execute (mkreq : list string -> Request) :
  forall (chunks : list (list string)) (n n' : Net) (rs : list Response),
    for_each (fun c => execute (mkreq c)) chunks n = (Ok rs, n') ->
    requests n' = requests n ++ map mkreq chunks /\
    List.length rs = List.length chunks /\
    tmp n' = tmp n /\ slept n' = slept n.
Proof.
  induction chunks as [|c chunks IH]; intros n n' rs Hrun.
  - inversion Hrun; subst. rewrite app_nil_r. auto.
  - cbn [for_each] in Hrun. unfold bind at 1, execute at 1 in Hrun.
    destruct (execute_page (mkreq c) (api n)) as [[response|e] a]; [|discriminate].
    unfold bind at 1 in Hrun.
    destruct (for_each (fun c0 => execute (mkreq c0)) chunks _) as [[ys| |] n1] eqn:Hrest;
      try discriminate.
    inversion Hrun; subst. apply IH in Hrest.
    destruct Hrest as (Hreq & Hlen & Htmp & Hsl).
    cbn [requests tmp slept] in *. rewrite Hreq, <- app_assoc.
    cbn [List.length map app]. auto.
Qed.

Lemma for_each_map {S A B C} (f : B -> M S C) (g : A -> B) (l : list A) :
  for_each (fun x => f (g x)) l = for_each f (map g l).
Proof.
  induction l as [|x l IH]; [reflexivity|]. cbn [for_each map]. rewrite IH. reflexivity.
Qed.

(** X5. The videos are queried in chunks of the list of ids, in order: the
    chunks put end to end give the list back, none is empty and none holds
    more than 50 ids; there is one request and one response per chunk. *)
Theorem videos_queried_in_chunks (ids : list string) (n n' : Net) (rs : list Response) :
  query_videos_list ids n = (Ok rs, n') ->
  exists chunks : list (list string),
    chunked chunks ids /\
    requests n' = requests n ++ map VideosList chunks /\
    List.length rs = List.length chunks /\
    List.length chunks = (List.length ids + 49) / 50.
Proof.
  unfold query_videos_list, get_video_data. intros Hrun.
  rewrite (for_each_map (fun c => execute (VideosList c)) (slice ids)) in Hrun.
  apply for_each_execute in Hrun. destruct Hrun as (Hreq & Hlen & _ & _).
  exists (map (slice ids) (get_slices_video_ids ids)).
  split; [apply slices_chunked|]. split; [exact Hreq|]. split; [exact Hlen|].
  unfold get_slices_video_ids. cbv zeta. rewrite !length_map, length_seq.
  pose proof (Nat.div_mod_eq (List.length ids) 50) as Hd.
  pose proof (Nat.mod_upper_bound (List.length ids) 50 ltac:(lia)) as Hm.
  pose proof (Nat.div_mod_eq (List.length ids + 49) 50) as Hd'.
  pose proof (Nat.mod_upper_bound (List.length ids + 49) 50 ltac:(lia)) as Hm'.
  destruct (Nat.eqb (List.length ids mod 50) 0) eqn:E.
  - apply Nat.eqb_eq in E. lia.
  - apply Nat.eqb_neq in E. lia.
Qed.

(** ** The replies *)

Lemma mem_od_keys {V} (k : string) (d : list (string * V)) :
  mem k (od_keys d) = match od_get k d with Some _ => true | None => false end.
Proof.
  induction d as [|[k' v] d IH]; [reflexivity|].
  unfold mem, od_keys in *. cbn [map fst existsb od_get].
  destruct (String.eqb k k'); [reflexivity|exact IH].
Qed.

Lemma extends_refl {V} (d : list (string * V)) : extends d d.
Proof. intros k x H. exact H. Qed.

Lemma extends_trans {V} (d1 d2 d3 : list (string * V)) :
  extends d1 d2 -> extends d2 d3 -> extends d1 d3.
Proof. intros H12 H23 k x H. apply H23, H12, H. Qed.

Lemma extends_set_new {V} (k : string) (v : V) (d : list (string * V)) :
  mem k (od_keys d) = false -> extends d (od_set k v d).
Proof.
  intros Hnew k0 x Hget. rewrite od_get_set_other; [exact Hget|].
  destruct (String.eqb k0 k) eqn:E; [|reflexivity].
  apply String.eqb_eq in E. subst k0. rewrite mem_od_keys, Hget in Hnew. discriminate.
Qed.

Lemma extends_mem {V} (k : string) (d d' : list (string * V)) :
  extends d d' -> mem k (od_keys d) = true -> mem k (od_keys d') = true.
Proof.
  intros Hext. rewrite !mem_od_keys. destruct (od_get k d) as [x|] eqn:E; [|discriminate].
  rewrite (Hext _ _ E). reflexivity.
Qed.

Lemma check_quota_exceeded_tmp_run (e : HttpError) (id : string) (data : PyVal) (n : Net) :
  check_quota_exceeded_tmp e id data n =
    (Raise (HttpErrorExn e),
     if is_quota e
     then mkNet (api n) (od_set (get_tmp_file id) data (tmp n)) (requests n) (slept n)
     else n).
Proof.
  unfold check_quota_exceeded_tmp, is_quota.
  destruct (unpack_http_error e) as [ex|reason]; [reflexivity|].
  destruct (String.eqb reason "quotaExceeded"); reflexivity.
Qed.

Section Replies.

Variable fuel : nat.
Variable video_id : string.
Variable pager_func : PagerFunc.

(** One turn of the loop on a thread that has replies and is not in the
    dictionary. *)
Lemma get_replies_loop_new (row : Row) (rest : list Row) (d : list (string * DictVal))
    (n : Net) :
  (0 <? row_total_reply_count row)%Z = true ->
  mem (row_thread_id row) (od_keys d) = false ->
  get_replies_loop fuel video_id pager_func (row :: rest) (VDict d) n =
    match query_all_items fuel (row_thread_id row) pager_func n with
    | (Ok rs, n1) =>
        get_replies_loop fuel video_id pager_func rest
          (VDict (od_set (row_thread_id row) (DResps rs) d)) n1
    | (Raise (HttpErrorExn e), n1) =>
        (Raise (HttpErrorExn e),
         if is_quota e
         then mkNet (api n1) (od_set (get_tmp_file (video_id ++ "-replies")) (VDict d) (tmp n1))
                    (requests n1) (slept n1)
         else n1)
    | (Raise ex, n1) => (Raise ex, n1)
    | (OutOfFuel, n1) => (OutOfFuel, n1)
    end.
Proof.
  intros Hcount Hnew. cbn [get_replies_loop]. rewrite Hcount.
  cbn [py_contains lift_sum]. unfold bind at 1, ret at 1. rewrite Hnew.
  unfold bind at 1, try_except, bind at 1.
  destruct (query_all_items fuel (row_thread_id row) pager_func n) as [[rs|ex|] n1];
    [reflexivity| |reflexivity].
  destruct ex; try reflexivity. cbn [on_http_error].
  unfold bind at 1. rewrite check_quota_exceeded_tmp_run. reflexivity.
Qed.

Lemma get_replies_loop_skip (row : Row) (rest : list Row) (d : list (string * DictVal))
    (n : Net) :
  (0 <? row_total_reply_count row)%Z = false \/
  mem (row_thread_id row) (od_keys d) = true ->
  get_replies_loop fuel video_id pager_func (row :: rest) (VDict d) n =
    get_replies_loop fuel video_id pager_func rest (VDict d) n.
Proof.
  intros H. cbn [get_replies_loop].
  destruct (0 <? row_total_reply_count row)%Z; [|reflexivity].
  destruct H as [H|H]; [discriminate|].
  cbn [py_contains lift_sum]. unfold bind at 1, ret at 1. rewrite H. reflexivity.
Qed.

Lemma threads_with_replies_cons (row : Row) (rest : list Row) :
  threads_with_replies (row :: rest) =
    (if (0 <? row_total_reply_count row)%Z then [row_thread_id row] else []) ++
    threads_with_replies rest.
Proof.
  unfold threads_with_replies. cbn [filter].
  destruct (0 <? row_total_reply_count row)%Z; reflexivity.
Qed.

Lemma get_replies_loop_ok :
  forall (data_thread : list Row) (d : list (string * DictVal)) (n n' : Net) (v : PyVal),
    get_replies_loop fuel video_id pager_func data_thread (VDict d) n = (Ok v, n') ->
    exists d', v = VDict d' /\ extends d d' /\
               forall t, In t (threads_with_replies data_thread) ->
                         mem t (od_keys d') = true.
Proof.
  induction data_thread as [|row rest IH]; intros d n n' v Hrun.
  - inversion Hrun; subst. exists d. split; [reflexivity|].
    split; [apply extends_refl|]. intros t [].
  - rewrite threads_with_replies_cons.
    destruct (0 <? row_total_reply_count row)%Z eqn:Hcount;
      [destruct (mem (row_thread_id row) (od_keys d)) eqn:Hmem|].
    + rewrite get_replies_loop_skip in Hrun by (right; exact Hmem).
      apply IH in Hrun. destruct Hrun as (d' & -> & Hext & Hall).
      exists d'. split; [reflexivity|]. split; [exact Hext|].
      intros t [<-|Ht]; [eapply extends_mem; eassumption|apply Hall, Ht].
    + rewrite get_replies_loop_new in Hrun by assumption.
      destruct (query_all_items fuel (row_thread_id row) pager_func n) as [[rs|ex|] n1];
        [| destruct ex; [destruct (is_quota e)|..]; discriminate | discriminate].
      apply IH in Hrun. destruct Hrun as (d' & -> & Hext & Hall).
      exists d'. split; [reflexivity|].
      split; [eapply extends_trans; [apply extends_set_new, Hmem|exact Hext]|].
      intros t [<-|Ht]; [|apply Hall, Ht].
      eapply extends_mem; [exact Hext|].
      rewrite mem_od_keys, od_get_set_same. reflexivity.
    + rewrite get_replies_loop_skip in Hrun by (left; exact Hcount).
      apply IH in Hrun. destruct Hrun as (d' & -> & Hext & Hall).
      exists d'. auto.
Qed.

Lemma get_replies_loop_raise :
  forall (data_thread : list Row) (d : list (string * DictVal)) (n n' : Net)
         (e : HttpError),
    get_replies_loop fuel video_id pager_func data_thread (VDict d) n =
      (Raise (HttpErrorExn e), n') ->
    is_quota e = true ->
    exists d', checkpoint (video_id ++ "-replies") n' = Some (VDict d') /\ extends d d'.
Proof.
  induction data_thread as [|row rest IH]; intros d n n' e Hrun Hq; [discriminate|].
  destruct (0 <? row_total_reply_count row)%Z eqn:Hcount;
    [destruct (mem (row_thread_id row) (od_keys d)) eqn:Hmem|].
  - rewrite get_replies_loop_skip in Hrun by (right; exact Hmem). eapply IH; eassumption.
  - rewrite get_replies_loop_new in Hrun by assumption.
    destruct (query_all_items fuel (row_thread_id row) pager_func n) as [[rs|ex|] n1];
      [| |discriminate].
    + destruct (IH _ _ _ _ Hrun Hq) as (d' & Hcp & Hext).
      exists d'. split; [exact Hcp|].
      eapply extends_trans; [apply extends_set_new, Hmem|exact Hext].
    + destruct ex; try discriminate.
      injection Hrun as He Hn. subst e0. rewrite Hq in Hn. subst n'.
      exists d. split; [|apply extends_refl].
      unfold checkpoint. cbn [tmp]. apply od_get_set_same.
  - rewrite get_replies_loop_skip in Hrun by (left; exact Hcount). eapply IH; eassumption.
Qed.

Lemma get_replies_loop_known :
  forall (data_thread : list Row) (d : list (string * DictVal)) (n : Net),
    (forall t, In t (threads_with_replies data_thread) -> mem t (od_keys d) = true) ->
    get_replies_loop fuel video_id pager_func data_thread (VDict d) n = (Ok (VDict d), n).
Proof.
  induction data_thread as [|row rest IH]; intros d n Hall; [reflexivity|].
  rewrite threads_with_replies_cons in Hall.
  rewrite get_replies_loop_skip.
  - apply IH. intros t Ht. apply Hall, in_or_app. right. exact Ht.
  - destruct (0 <? row_total_reply_count row)%Z; [right|left; reflexivity].
    apply Hall. left. reflexivity.
Qed.

Lemma get_replies_comment_thread_from (data_thread : list Row) (d : list (string * DictVal))
    (n : Net) :
  init_replies_dict video_id n = (Ok (VDict d), n) ->
  get_replies_comment_thread fuel video_id data_thread pager_func n =
    get_replies_loop fuel video_id pager_func data_thread (VDict d) n.
Proof.
  intros Hinit. unfold get_replies_comment_thread, bind. rewrite Hinit. reflexivity.
Qed.

(** X6. When the collection of the replies of a video returns, the
    dictionary returned holds an entry for every thread that has replies,
    and every entry of the dictionary it started from, unchanged. *)
Theorem replies_cover_threads (data_thread : list Row) (d : list (string * DictVal))
    (n n' : Net) (v : PyVal) :
  init_replies_dict video_id n = (Ok (VDict d), n) ->
  get_replies_comment_thread fuel video_id data_thread pager_func n = (Ok v, n') ->
  exists d', v = VDict d' /\ extends d d' /\
             forall row, In row data_thread -> (0 < row_total_reply_count row)%Z ->
                         mem (row_thread_id row) (od_keys d') = true.
Proof.
  intros Hinit Hrun. rewrite (get_replies_comment_thread_from _ _ _ Hinit) in Hrun.
  apply get_replies_loop_ok in Hrun. destruct Hrun as (d' & -> & Hext & Hall).
  exists d'. split; [reflexivity|]. split; [exact Hext|].
  intros row Hin Hcount. apply Hall. unfold threads_with_replies.
  apply in_map, filter_In. split; [exact Hin|]. apply Z.ltb_lt, Hcount.
Qed.

(** X7. The threads found in the dictionary of the checkpoint are not
    fetched again: when every thread that has replies is in it, the call
    sends no request, writes no file, and returns the dictionary as it is. *)
Theorem replies_skip_collected_threads (data_thread : list Row)
    (d : list (string * DictVal)) (n : Net) :
  init_replies_dict video_id n = (Ok (VDict d), n) ->
  (forall row, In row data_thread -> (0 < row_total_reply_count row)%Z ->
               mem (row_thread_id row) (od_keys d) = true) ->
  get_replies_comment_thread fuel video_id data_thread pager_func n = (Ok (VDict d), n).
Proof.
  intros Hinit Hall. rewrite (get_replies_comment_thread_from _ _ _ Hinit).
  apply get_replies_loop_known. intros t Ht. unfold threads_with_replies in Ht.
  apply in_map_iff in Ht. destruct Ht as (row & <- & Hrow).
  apply filter_In in Hrow. destruct Hrow as [Hin Hcount].
  apply Hall; [exact Hin|]. apply Z.ltb_lt, Hcount.
Qed.

(** X8. When the quota runs out during the replies of a video, the
    dictionary reached is written to the checkpoint of the video: it holds
    every entry the call started from, and the next call starts from it. *)
Theorem replies_quota_checkpoint (data_thread : list Row) (d : list (string * DictVal))
    (n n' : Net) (e : HttpError) :
  init_replies_dict video_id n = (Ok (VDict d), n) ->
  get_replies_comment_thread fuel video_id data_thread pager_func n =
    (Raise (HttpErrorExn e), n') ->
  is_quota e = true ->
  exists d', checkpoint (video_id ++ "-replies") n' = Some (VDict d') /\
             extends d d' /\
             init_replies_dict video_id n' = (Ok (VDict d'), n').
Proof.
  intros Hinit Hrun Hq. rewrite (get_replies_comment_thread_from _ _ _ Hinit) in Hrun.
  destruct (get_replies_loop_raise _ _ _ _ _ Hrun Hq) as (d' & Hcp & Hext).
  exists d'. split; [exact Hcp|]. split; [exact Hext|].
  unfold init_replies_dict, bind, get. unfold checkpoint in Hcp. rewrite Hcp. reflexivity.
Qed.

End Replies.

End PagerFacts.

(** * Properties of the crawl *)

Section CrawlFacts.

Context {ext : External}.

(** ** Reasoning on the monad *)

Lemma bind_inv_ok {S A B} (c : M S A) (k : A -> M S B) (s s'' : S) (b : B) :
  bind c k s = (Ok b, s'') ->
  exists a s', c s = (Ok a, s') /\ k a s' = (Ok b, s'').
Proof.
  unfold bind. destruct (c s) as [[a|e|] s']; intros H; try discriminate. eauto.
Qed.

Lemma bind_ok {S A B} (c : M S A) (k : A -> M S B) (s s' : S) (a : A) :
  c s = (Ok a, s') -> bind c k s = k a s'.
Proof. unfold bind. intros ->. reflexivity. Qed.

Lemma bind_raise {S A B} (c : M S A) (k : A -> M S B) (s s' : S) (e : PyExn) :
  c s = (Raise e, s') -> bind c k s = (Raise e, s').
Proof. unfold bind. intros ->. reflexivity. Qed.

Lemma keeps_ret {S A X} (obs : S -> X) (a : A) : keeps obs (ret a).
Proof. intros s res s' H. inversion H. reflexivity. Qed.

Lemma keeps_raise {S A X} (obs : S -> X) (e : PyExn) : keeps obs (@raise S A e).
Proof. intros s res s' H. inversion H. reflexivity. Qed.

Lemma keeps_out_of_fuel {S A X} (obs : S -> X) : keeps obs (@out_of_fuel S A).
Proof. intros s res s' H. inversion H. reflexivity. Qed.

Lemma keeps_get {S X} (obs : S -> X) : keeps obs get.
Proof. intros s res s' H. inversion H. reflexivity. Qed.

Lemma keeps_lift_sum {S A X} (obs : S -> X) (r : PyExn + A) : keeps obs (lift_sum r).
Proof. destruct r; [apply keeps_raise|apply keeps_ret]. Qed.

Lemma keeps_attr {S A X} (obs : S -> X) (o : option A) (e : PyExn) :
  keeps obs (@attr S A o e).
Proof. destruct o; [apply keeps_ret|apply keeps_raise]. Qed.

Lemma keeps_bind {S A B X} (obs : S -> X) (c : M S A) (k : A -> M S B) :
  keeps obs c -> (forall a, keeps obs (k a)) -> keeps obs (bind c k).
Proof.
  intros Hc Hk s res s'' H. unfold bind in H.
  destruct (c s) as [[a|e|] s'] eqn:E.
  - rewrite (Hk a _ _ _ H). exact (Hc _ _ _ E).
  - inversion H; subst. exact (Hc _ _ _ E).
  - inversion H; subst. exact (Hc _ _ _ E).
Qed.

Lemma keeps_try_except {S A X} (obs : S -> X) (c : M S A) (h : PyExn -> option (M S A)) :
  keeps obs c -> (forall e k, h e = Some k -> keeps obs k) -> keeps obs (try_except c h).
Proof.
  intros Hc Hh s res s'' H. unfold try_except in H.
  destruct (c s) as [[a|e|] s'] eqn:E.
  - inversion H; subst. exact (Hc _ _ _ E).
  - destruct (h e) as [k|] eqn:Ek.
    + rewrite (Hh e k Ek _ _ _ H). exact (Hc _ _ _ E).
    + inversion H; subst. exact (Hc _ _ _ E).
  - inversion H; subst. exact (Hc _ _ _ E).
Qed.

Lemma keeps_modify {S X} (obs : S -> X) (f : S -> S) :
  (forall s, obs (f s) = obs s) -> keeps obs (modify f).
Proof. intros Hf s res s' H. inversion H. apply Hf. Qed.

Lemma keeps_lift {A X} (obs : Crawl -> X) (c : M Net A) :
  (forall s n, obs (with_net n s) = obs s) ->
  keeps obs (lift c).
Proof.
  intros Hobs s res s' H. unfold lift in H.
  destruct (c (net s)) as [r n]. inversion H. apply Hobs.
Qed.

Ltac keeps_step :=
  first
    [ apply keeps_ret | apply keeps_raise | apply keeps_get | apply keeps_lift_sum
    | apply keeps_attr | apply keeps_out_of_fuel
    | apply keeps_lift; intros; reflexivity
    | apply keeps_modify; intros; reflexivity
    | apply keeps_bind; [|intros ?]
    | match goal with
      | |- keeps _ (match ?x with _ => _ end) => destruct x
      end ].

Ltac keeps_auto := repeat keeps_step.

Lemma collect_toplevel_comments_frame (fuel : nat) (video_id : string) :
  keeps (fun s => (frontier s, outputs s, videos_with_comments_disabled (self s)))
        (collect_toplevel_comments fuel video_id).
Proof. unfold collect_toplevel_comments, self_set. keeps_auto. Qed.

Lemma collect_comment_replies_frame (fuel : nat) (video_id : string) :
  keeps (fun s => (frontier s, outputs s, videos_with_comments_disabled (self s)))
        (collect_comment_replies fuel video_id).
Proof. unfold collect_comment_replies, self_set. keeps_auto. Qed.

Lemma collect_comments_video_frame (fuel : nat) (video_id : string) :
  keeps (fun s => (frontier s, outputs s, videos_with_comments_disabled (self s)))
        (collect_comments_video fuel video_id).
Proof.
  unfold collect_comments_video. apply keeps_bind; intros.
  - apply collect_toplevel_comments_frame.
  - apply collect_comment_replies_frame.
Qed.

Lemma handle_disabled_comments_error_frame (e : HttpError) (video_id : string) :
  keeps (fun s => (frontier s, outputs s)) (handle_disabled_comments_error e video_id).
Proof.
  unfold handle_disabled_comments_error, self_set.
  destruct (unpack_http_error e) as [ex|reason]; keeps_auto.
Qed.

Lemma safe_collect_comments_video_frame (fuel : nat) (video_id : string) :
  keeps (fun s => (frontier s, outputs s)) (safe_collect_comments_video fuel video_id).
Proof.
  unfold safe_collect_comments_video. apply keeps_try_except.
  - intros s res s' E. apply collect_comments_video_frame in E.
    cbv beta in E. congruence.
  - intros e k Hk. destruct e; try discriminate. inversion Hk; subst.
    apply handle_disabled_comments_error_frame.
Qed.

(** ** Take and requeue *)

Lemma get_video_id_to_collect_ok (s : Crawl) (rest buffer : list string) (v : string) :
  videos_ids_to_collect (self s) = Some (rest ++ [v]) ->
  temp_id_storage (self s) = Some buffer ->
  get_video_id_to_collect s = (Ok v, taken rest buffer v s).
Proof.
  intros Hp Hb. unfold get_video_id_to_collect, bind, get, attr.
  rewrite Hp. cbn [ret]. rewrite pop_app.
  unfold self_set, modify. rewrite Hb. reflexivity.
Qed.

Lemma put_videoid_in_buffer_back_ok (s : Crawl) (pending buffer : list string) (v : string) :
  videos_ids_to_collect (self s) = Some pending ->
  temp_id_storage (self s) = Some (buffer ++ [v]) ->
  put_videoid_in_buffer_back s = (Ok tt, requeued pending buffer v s).
Proof.
  intros Hp Hb. unfold put_videoid_in_buffer_back, bind, get.
  rewrite Hb, pop_app. unfold self_set, modify, attr. rewrite Hp. reflexivity.
Qed.

Lemma put_videoid_in_buffer_back_empty (s : Crawl) :
  temp_id_storage (self s) = Some [] ->
  put_videoid_in_buffer_back s = (Ok tt, s).
Proof.
  intros Hb. unfold put_videoid_in_buffer_back, bind, get. rewrite Hb. reflexivity.
Qed.

(** C5. When an [HttpError] reaches the retry wrapper while an id is in the
    buffer of the id under work, [handle_http_error] first moves this id
    back to the end of the list of ids to collect, the end ids are taken
    from: the next take returns it.  This holds for every error; when the
    reason is one of [quotaExceeded], [forbidden], [accessNotConfigured] the
    call then ends in the [AssertionError] that stops the run. *)
Theorem requeue_before_error_propagates (e : HttpError) (s : Crawl)
    (pending buffer : list string) (v : string) :
  videos_ids_to_collect (self s) = Some pending ->
  temp_id_storage (self s) = Some (buffer ++ [v]) ->
  exists res s',
    handle_http_error e s = (res, s') /\
    videos_ids_to_collect (self s') = Some (pending ++ [v]) /\
    temp_id_storage (self s') = Some buffer /\
    collected_video_ids (self s') = collected_video_ids (self s) /\
    (exists s'', get_video_id_to_collect s' = (Ok v, s'')) /\
    (forall reason,
        unpack_http_error e = inr reason -> fatal_reason reason = true ->
        exists msg, res = Raise (AssertionError msg)).
Proof.
  intros Hp Hb.
  pose proof (put_videoid_in_buffer_back_ok s pending buffer v Hp Hb) as Hback.
  unfold handle_http_error. rewrite (bind_ok _ _ _ _ _ Hback).
  set (s1 := requeued pending buffer v s).
  assert (Hframe : forall res s',
            videos_ids_to_collect (self s') = videos_ids_to_collect (self s1) ->
            temp_id_storage (self s') = temp_id_storage (self s1) ->
            collected_video_ids (self s') = collected_video_ids (self s1) ->
            (forall reason,
                unpack_http_error e = inr reason -> fatal_reason reason = true ->
                exists msg, res = Raise (AssertionError msg)) ->
            videos_ids_to_collect (self s') = Some (pending ++ [v]) /\
            temp_id_storage (self s') = Some buffer /\
            collected_video_ids (self s') = collected_video_ids (self s) /\
            (exists s'', get_video_id_to_collect s' = (Ok v, s'')) /\
            (forall reason,
                unpack_http_error e = inr reason -> fatal_reason reason = true ->
                exists msg, res = Raise (AssertionError msg : PyExn) :> Res unit)).
  { intros res s' H1 H2 H3 H4.
    split; [rewrite H1; reflexivity|].
    split; [rewrite H2; reflexivity|].
    split; [rewrite H3; reflexivity|].
    split; [|exact H4].
    eexists. apply get_video_id_to_collect_ok.
    - rewrite H1. reflexivity.
    - rewrite H2. reflexivity. }
  destruct (unpack_http_error e) as [ex|reason] eqn:Hreason.
  - eexists _, _. split; [reflexivity|]. apply Hframe; try reflexivity.
    intros reason Hr. discriminate.
  - unfold fatal_reason in *.
    destruct (String.eqb reason "quotaExceeded") eqn:E1.
    { eexists _, _. split; [reflexivity|]. apply Hframe; try reflexivity. eauto. }
    destruct (String.eqb reason "forbidden") eqn:E2.
    { eexists _, _. split; [reflexivity|]. apply Hframe; try reflexivity. eauto. }
    destruct (String.eqb reason "accessNotConfigured") eqn:E3.
    { eexists _, _. split; [reflexivity|]. apply Hframe; try reflexivity. eauto. }
    eexists _, _. split; [reflexivity|]. apply Hframe; try reflexivity.
    intros r Hr Hf. inversion Hr; subst. rewrite E1, E2, E3 in Hf. discriminate.
Qed.

(** ** One turn of the loop of [collect_comments] *)

Lemma attr_inv {S A} (o : option A) (e : PyExn) (s s' : S) (a : A) :
  attr o e s = (Ok a, s') -> o = Some a /\ s' = s.
Proof. destruct o; cbn; intros H; inversion H; subst; auto. Qed.

Lemma collect_comments_loop_unfold (steps fuel : nat) (channel : string) (s : Crawl)
    (rest buffer : list string) (v : string) :
  videos_ids_to_collect (self s) = Some (rest ++ [v]) ->
  temp_id_storage (self s) = Some buffer ->
  collect_comments_loop (S steps) fuel channel s =
  (safe_collect_comments_video fuel v ;;
   bookkeeping_comments channel v ;;
   collect_comments_loop steps fuel channel) (taken rest buffer v s).
Proof.
  intros Hp Hb. cbn [collect_comments_loop].
  unfold bind at 1. unfold get at 1. unfold bind at 1. rewrite Hp. cbn [attr ret].
  destruct (rest ++ [v]) as [|x l] eqn:E; [destruct rest; discriminate|].
  rewrite <- E in Hp.
  rewrite (bind_ok _ _ _ _ _ (get_video_id_to_collect_ok s rest buffer v Hp Hb)).
  reflexivity.
Qed.

Lemma collect_comments_loop_done (steps fuel : nat) (channel : string) (s : Crawl) :
  videos_ids_to_collect (self s) = Some [] ->
  collect_comments_loop steps fuel channel s = (Ok tt, s).
Proof.
  intros Hp. destruct steps; cbn [collect_comments_loop];
    unfold bind, get; rewrite Hp; reflexivity.
Qed.

Lemma save_response_comments_self (rs : PyVal) (name folder : string) :
  keeps (fun s => (self s, net s, proc s, today s, stdout s))
        (save_response_comments rs name folder).
Proof.
  unfold save_response_comments, check_comments_file_exists, save_pickle. keeps_auto.
Qed.

Lemma save_comments_self (channel : string) :
  keeps (fun s => (self s, net s, proc s, today s)) (save_comments channel).
Proof.
  unfold save_comments, save_videos_with_disabled_comments, save_pickle, print.
  keeps_auto;
    try (intros s res s' E; apply save_response_comments_self in E;
         cbv beta in E; congruence).
Qed.

Lemma flush_part_self (channel : string) :
  keeps (fun s => (self s, proc s, today s)) (flush_part channel).
Proof.
  unfold flush_part, flush_all_tmp_storage. apply keeps_bind; [|intros; keeps_auto].
  intros s res s' E. apply save_comments_self in E. cbv beta in E. congruence.
Qed.

Lemma bookkeeping_comments_cases (channel v : string) (s : Crawl) (count : Z)
    (collected buffer : list string) (x : string) :
  i (self s) = Some count ->
  collected_video_ids (self s) = Some collected ->
  temp_id_storage (self s) = Some (buffer ++ [x]) ->
  bookkeeping_comments channel v s =
  if (count mod 50 =? 0)%Z then
    match flush_part channel s with
    | (Ok _, s1) => (Ok tt, booked count collected buffer v s1)
    | (Raise e, s1) => (Raise e, s1)
    | (OutOfFuel, s1) => (OutOfFuel, s1)
    end
  else (Ok tt, booked count collected buffer v s).
Proof.
  intros Hi Hc Hb. unfold bookkeeping_comments.
  unfold bind at 1. unfold get at 1. unfold bind at 1. rewrite Hi. cbn [attr ret].
  unfold bind at 1.
  destruct (count mod 50 =? 0)%Z.
  - fold (flush_part channel). destruct (flush_part channel s) as [[u|e|] s1]; try reflexivity.
    unfold bind, attr. rewrite Hc, Hb. cbn [ret]. unfold self_set, modify.
    rewrite pop_app. reflexivity.
  - cbn [ret]. unfold bind, attr. rewrite Hc, Hb. cbn [ret]. unfold self_set, modify.
    rewrite pop_app. reflexivity.
Qed.

Lemma bookkeeping_comments_ok (channel v : string) (s s' : Crawl)
    (buffer : list string) (x : string) :
  temp_id_storage (self s) = Some (buffer ++ [x]) ->
  bookkeeping_comments channel v s = (Ok tt, s') ->
  exists count collected s1,
    i (self s) = Some count /\
    collected_video_ids (self s) = Some collected /\
    (if (count mod 50 =? 0)%Z then flush_part channel s = (Ok tt, s1) else s1 = s) /\
    self s1 = self s /\
    s' = booked count collected buffer v s1.
Proof.
  intros Hb H.
  assert (Hattrs : exists count collected,
             i (self s) = Some count /\ collected_video_ids (self s) = Some collected).
  { unfold bookkeeping_comments in H.
    apply bind_inv_ok in H. destruct H as (s0 & s0' & Hget & H).
    inversion Hget; subst s0 s0'.
    apply bind_inv_ok in H. destruct H as (count & s1 & Hattr & H).
    apply attr_inv in Hattr. destruct Hattr as [Hi ->].
    apply bind_inv_ok in H. destruct H as (u & s2 & _ & H).
    apply bind_inv_ok in H. destruct H as (c & s3 & Hattr & _).
    apply attr_inv in Hattr. destruct Hattr as [Hc _]. eauto. }
  destruct Hattrs as (count & collected & Hi & Hc).
  rewrite (bookkeeping_comments_cases channel v s count collected buffer x Hi Hc Hb) in H.
  exists count, collected.
  destruct (count mod 50 =? 0)%Z.
  - destruct (flush_part channel s) as [[[]|e|] s1] eqn:E; try discriminate.
    exists s1. inversion H; subst. repeat split; try reflexivity; try assumption.
    apply flush_part_self in E. cbv beta in E. congruence.
  - exists s. inversion H; subst. repeat split; try reflexivity; assumption.
Qed.

(** C7. When the collection of the comments of a video fails with an
    [HttpError] of reason [commentsDisabled], the wrapper
    [safe_collect_comments_video] returns normally: the error does not reach
    the retry wrapper.  The id is appended to the list of videos with
    disabled comments; the ids left to collect, the collected ids and the
    files are as they were.  The loop goes on with the bookkeeping of the
    id and then with the ids left to collect. *)
Theorem disabled_comments_skip_item (steps fuel : nat) (channel : string) (s s2 : Crawl)
    (rest buffer : list string) (v : string) (e : HttpError) (dis : list Elem) :
  videos_ids_to_collect (self s) = Some (rest ++ [v]) ->
  temp_id_storage (self s) = Some buffer ->
  videos_with_comments_disabled (self s) = VList dis ->
  collect_comments_video fuel v (taken rest buffer v s) = (Raise (HttpErrorExn e), s2) ->
  unpack_http_error e = inr "commentsDisabled" ->
  let s3 := with_self (set_videos_with_comments_disabled (VList (dis ++ [EId v]))) s2 in
  safe_collect_comments_video fuel v (taken rest buffer v s) = (Ok tt, s3) /\
  videos_ids_to_collect (self s3) = Some rest /\
  collected_video_ids (self s3) = collected_video_ids (self s) /\
  outputs s3 = outputs s /\
  collect_comments_loop (S steps) fuel channel s =
    (bookkeeping_comments channel v ;; collect_comments_loop steps fuel channel) s3 /\
  forall s4,
    bookkeeping_comments channel v s3 = (Ok tt, s4) ->
    videos_ids_to_collect (self s4) = Some rest /\
    temp_id_storage (self s4) = Some buffer /\
    videos_with_comments_disabled (self s4) = VList (dis ++ [EId v]) /\
    collect_comments_loop (S steps) fuel channel s =
      collect_comments_loop steps fuel channel s4.
Proof.
  intros Hp Hb Hd Hrun Hreason s3.
  pose proof (collect_comments_video_frame _ _ _ _ _ Hrun) as Hframe.
  cbv beta in Hframe. unfold frontier, outputs in Hframe.
  assert (Hsafe : safe_collect_comments_video fuel v (taken rest buffer v s) = (Ok tt, s3)).
  { unfold safe_collect_comments_video, try_except. rewrite Hrun.
    cbn [on_http_error]. unfold handle_disabled_comments_error. rewrite Hreason.
    cbn [String.eqb Ascii.eqb Bool.eqb]. unfold bind, get.
    replace (videos_with_comments_disabled (self s2)) with (VList dis)
      by (cbn in Hframe; congruence).
    reflexivity. }
  assert (Hloop : collect_comments_loop (S steps) fuel channel s =
                  (bookkeeping_comments channel v ;;
                   collect_comments_loop steps fuel channel) s3).
  { rewrite (collect_comments_loop_unfold _ _ _ _ _ _ _ Hp Hb).
    rewrite (bind_ok _ _ _ _ _ Hsafe). reflexivity. }
  split; [exact Hsafe|].
  split; [cbn in Hframe |- *; congruence|].
  split; [cbn in Hframe |- *; congruence|].
  split; [unfold outputs; cbn in Hframe |- *; congruence|].
  split; [exact Hloop|].
  intros s4 Hbook.
  assert (Htemp : temp_id_storage (self s3) = Some (buffer ++ [v])).
  { cbn in Hframe |- *. congruence. }
  destruct (bookkeeping_comments_ok _ _ _ _ _ _ Htemp Hbook)
    as (count & collected & s1 & _ & _ & _ & Hself & ->).
  split; [cbn; rewrite Hself; cbn in Hframe |- *; congruence|].
  split; [reflexivity|].
  split; [cbn; rewrite Hself; reflexivity|].
  rewrite Hloop. rewrite (bind_ok _ _ _ _ _ Hbook). reflexivity.
Qed.

(** ** The frontier as a partition of the ids *)

Lemma partitioned_frontier (ids : list string) (s s' : Crawl) :
  frontier s' = frontier s -> partitioned ids s -> partitioned ids s'.
Proof.
  unfold frontier, partitioned. intros Hf (p & b & c & Hp & Hb & Hc & Hperm).
  exists p, b, c. repeat split; try assumption; congruence.
Qed.

Lemma NoDup_app_disjoint {A} (l1 l2 : list A) (x : A) :
  NoDup (l1 ++ l2) -> In x l1 -> ~ In x l2.
Proof.
  induction l1 as [|y l1 IH]; intros Hnd Hin; [contradiction|].
  inversion Hnd; subst. destruct Hin as [->|Hin].
  - intros Hx. apply H1. apply in_or_app. right. exact Hx.
  - apply IH; assumption.
Qed.

Lemma perm_take {A} (rest buffer collected : list A) (v : A) :
  Permutation (rest ++ (buffer ++ [v]) ++ collected) ((rest ++ [v]) ++ buffer ++ collected).
Proof.
  rewrite <- !app_assoc. apply Permutation_app_head.
  rewrite !app_assoc. apply Permutation_app_tail. apply Permutation_app_comm.
Qed.

Lemma perm_book {A} (pending buffer collected : list A) (v : A) :
  Permutation (pending ++ buffer ++ collected ++ [v])
              (pending ++ (buffer ++ [v]) ++ collected).
Proof.
  apply Permutation_app_head. rewrite <- app_assoc.
  apply Permutation_app_head. apply Permutation_app_comm.
Qed.

Lemma handle_http_error_after_requeue (e : HttpError) :
  keeps self
    match unpack_http_error e with
    | inl _ => lift (sleep 2000)
    | inr reason =>
        if String.eqb reason "quotaExceeded" then
          raise (AssertionError "Quota limit exceeded. Wait until quotaLimit expires.")
        else if String.eqb reason "forbidden" then
          s <- get ;;
          raise (AssertionError ("API key `" ++ current_api_key (self s) ++ "` is suspended. "))
        else if String.eqb reason "accessNotConfigured" then
          raise (AssertionError "API key not activated, activate it at google cloud")
        else lift (sleep 5000)
    end.
Proof. keeps_auto. Qed.

(** C6, as the code has it.  For a list [ids] without duplicates, each id
    of [ids] is in exactly one of the three lists of ids to collect, of the
    buffer and of collected ids, and every step of the processing keeps it
    so, whatever its outcome: the take, the collection of the comments with
    the handling of disabled comments, the bookkeeping of the id under work,
    and the requeue of [handle_http_error]. *)
Theorem frontier_partition_preserved (ids : list string) (s : Crawl) :
  NoDup ids ->
  partitioned ids s ->
  (forall pending buffer collected v,
      videos_ids_to_collect (self s) = Some pending ->
      temp_id_storage (self s) = Some buffer ->
      collected_video_ids (self s) = Some collected ->
      In v ids ->
      (In v pending /\ ~ In v buffer /\ ~ In v collected) \/
      (~ In v pending /\ In v buffer /\ ~ In v collected) \/
      (~ In v pending /\ ~ In v buffer /\ In v collected)) /\
  (forall res s', get_video_id_to_collect s = (res, s') -> partitioned ids s') /\
  (forall fuel v res s',
      safe_collect_comments_video fuel v s = (res, s') -> partitioned ids s') /\
  (forall channel buffer v res s',
      temp_id_storage (self s) = Some (buffer ++ [v]) ->
      bookkeeping_comments channel v s = (res, s') -> partitioned ids s') /\
  (forall e res s', handle_http_error e s = (res, s') -> partitioned ids s').
Proof.
  intros Hnd Hpart. pose proof Hpart as (p & b & c & Hp & Hb & Hc & Hperm).
  split; [|split; [|split; [|split]]].
  - intros p' b' c' v Hp' Hb' Hc' Hin.
    assert (p' = p) by congruence. assert (b' = b) by congruence.
    assert (c' = c) by congruence. subst p' b' c'.
    assert (Hnd' : NoDup (p ++ b ++ c)).
    { eapply Permutation_NoDup; [apply Permutation_sym; exact Hperm|exact Hnd]. }
    assert (Hin' : In v (p ++ b ++ c)).
    { eapply Permutation_in; [apply Permutation_sym; exact Hperm|exact Hin]. }
    assert (Hnd_bc : NoDup (b ++ c)) by (eapply NoDup_app_remove_l; exact Hnd').
    assert (Hnd_cb : NoDup (c ++ b)).
    { eapply Permutation_NoDup; [apply Permutation_app_comm|exact Hnd_bc]. }
    assert (Hnd_bcp : NoDup ((b ++ c) ++ p)).
    { eapply Permutation_NoDup; [apply Permutation_app_comm|exact Hnd']. }
    apply in_app_or in Hin'. destruct Hin' as [Hv|Hv].
    + left. split; [exact Hv|].
      pose proof (NoDup_app_disjoint _ _ _ Hnd' Hv) as Hn.
      split; intros Hx; apply Hn; apply in_or_app; auto.
    + right. apply in_app_or in Hv. destruct Hv as [Hv|Hv].
      * left. split; [|split; [exact Hv|]].
        -- apply (NoDup_app_disjoint _ _ _ Hnd_bcp). apply in_or_app; auto.
        -- apply (NoDup_app_disjoint _ _ _ Hnd_bc Hv).
      * right. split; [|split; [|exact Hv]].
        -- apply (NoDup_app_disjoint _ _ _ Hnd_bcp). apply in_or_app; auto.
        -- apply (NoDup_app_disjoint _ _ _ Hnd_cb Hv).
  - intros res s' H. unfold get_video_id_to_collect, bind, get, attr in H.
    rewrite Hp in H. cbn [ret] in H.
    destruct (pop p) as [[rest v]|] eqn:Epop.
    + apply pop_some in Epop. subst p.
      unfold self_set, modify in H. rewrite Hb in H. inversion H; subst.
      exists rest, (b ++ [v]), c. repeat split; try assumption.
      eapply Permutation_trans; [apply perm_take|exact Hperm].
    + inversion H; subst. exact Hpart.
  - intros fuel v res s' H. apply safe_collect_comments_video_frame in H.
    cbv beta in H. eapply partitioned_frontier; [|exact Hpart]. congruence.
  - intros channel b' v res s' Hb' H.
    assert (b = b' ++ [v]) by congruence. subst b.
    destruct (i (self s)) as [count|] eqn:Hi.
    + rewrite (bookkeeping_comments_cases channel v s count c b' v Hi Hc Hb') in H.
      assert (Hbooked : forall s1, self s1 = self s ->
                partitioned ids (booked count c b' v s1)).
      { intros s1 Hself. exists p, b', (c ++ [v]). cbn. rewrite Hself.
        repeat split; try assumption.
        eapply Permutation_trans; [apply perm_book|exact Hperm]. }
      destruct (count mod 50 =? 0)%Z.
      * destruct (flush_part channel s) as [[u|ex|] s1] eqn:E;
          apply flush_part_self in E; cbv beta in E; inversion H; subst.
        -- apply Hbooked. congruence.
        -- eapply partitioned_frontier; [|exact Hpart]. unfold frontier. congruence.
        -- eapply partitioned_frontier; [|exact Hpart]. unfold frontier. congruence.
      * inversion H; subst. apply Hbooked. reflexivity.
    + unfold bookkeeping_comments, bind, get, attr in H. rewrite Hi in H.
      inversion H; subst. exact Hpart.
  - intros e res s' H. unfold handle_http_error in H.
    assert (Hrest : forall s1, partitioned ids s1 ->
              forall k : M Crawl unit, keeps self k ->
              k s1 = (res, s') -> partitioned ids s').
    { intros s1 Hs1 k Hk E. apply Hk in E.
      eapply partitioned_frontier; [|exact Hs1]. unfold frontier. congruence. }
    unfold bind at 1 in H.
    destruct (pop b) as [[rest v]|] eqn:Epop.
    + apply pop_some in Epop. subst b.
      rewrite (put_videoid_in_buffer_back_ok s p rest v Hp Hb) in H.
      eapply Hrest; [|apply handle_http_error_after_requeue|exact H].
      exists (p ++ [v]), rest, c. repeat split; try assumption.
      eapply Permutation_trans; [apply Permutation_sym; apply perm_take|exact Hperm].
    + apply pop_none in Epop. subst b.
      rewrite (put_videoid_in_buffer_back_empty s Hb) in H.
      eapply Hrest; [exact Hpart|apply handle_http_error_after_requeue|exact H].
Qed.

(** ** The flushes of [collect_comments] *)

Lemma grows_refl (w : PyVal) : grows w w.
Proof. intros k H. exact H. Qed.

Lemma grows_trans (w1 w2 w3 : PyVal) : grows w1 w2 -> grows w2 w3 -> grows w1 w3.
Proof. intros H1 H2 k H. apply H2, H1, H. Qed.

Lemma mem_od_set {V} (k k' : string) (x : V) (d : list (string * V)) :
  mem k' (od_keys d) = true -> mem k' (od_keys (od_set k x d)) = true.
Proof.
  unfold mem, od_keys. induction d as [|[k0 v0] d IH]; [discriminate|].
  cbn [od_set map existsb fst]. intros H.
  destruct (String.eqb k k0); cbn [map existsb fst].
  - exact H.
  - apply orb_true_iff in H. apply orb_true_iff. destruct H; auto.
Qed.

Lemma merge_new_grows (rs : PyVal) (keys : list string) :
  forall c c', merge_new rs keys c = inr c' -> grows c c'.
Proof.
  induction keys as [|k keys IH]; intros c c' H; cbn [merge_new] in H.
  - inversion H. apply grows_refl.
  - destruct (py_contains k c) as [e|[|]] eqn:Ec; [discriminate|apply IH; exact H|].
    destruct (py_getitem k rs) as [e|x]; [discriminate|].
    destruct (py_setitem k x c) as [e|c1] eqn:Es; [discriminate|].
    apply (grows_trans _ c1); [|apply IH; exact H].
    destruct c as [|pd|d|l]; try discriminate. inversion Es; subst.
    intros k' Hk'. cbn [py_contains] in *. f_equal.
    apply mem_od_set. injection Hk'. trivial.
Qed.

Ltac inv_bind H :=
  apply bind_inv_ok in H;
  let a := fresh "a" in
  let st := fresh "st" in
  let E := fresh "E" in
  destruct H as (a & st & E & H);
  repeat match goal with u : unit |- _ => destruct u end.

Lemma save_response_comments_ok (rs : PyVal) (name folder : string) (s s' : Crawl) :
  save_response_comments rs name folder s = (Ok tt, s') ->
  exists merged,
    grows (existing folder (get_name name "pkl" (today s)) s) merged /\
    s' = written folder (get_name name "pkl" (today s)) merged s.
Proof.
  intros H. unfold save_response_comments in H.
  inv_bind H. inversion E; subst a st. clear E.
  inv_bind H. unfold check_comments_file_exists, bind, get in E.
  assert (a = existing folder (get_name name "pkl" (today s)) s /\ st = s) as [-> ->].
  { unfold existing.
    destruct (find_file folder (get_name name "pkl" (today s)) (raw s));
      inversion E; auto. }
  clear E.
  inv_bind H. destruct (py_iter rs) as [e|keys]; [discriminate|].
  inversion E; subst a st. clear E.
  inv_bind H.
  destruct (merge_new rs keys (existing folder (get_name name "pkl" (today s)) s))
    as [e|merged] eqn:Em; [discriminate|].
  inversion E; subst a st. clear E.
  inv_bind H. destruct (py_len merged); [discriminate|].
  inversion E; subst a st. clear E.
  unfold save_pickle, modify in H. inversion H; subst.
  exists merged. split; [|reflexivity].
  eapply merge_new_grows. exact Em.
Qed.

Lemma save_comments_ok (channel : string) (s s' : Crawl) :
  save_comments channel s = (Ok tt, s') ->
  exists total w1 w2 w3,
    grows (existing channel (toplevel_file channel (today s)) s) w1 /\
    s' = flushed channel total w1 w2 w3 s.
Proof.
  intros H. unfold save_comments in H.
  inv_bind H. inversion E; subst a st. clear E.
  inv_bind H. apply attr_inv in E. destruct E as [Hids ->].
  inv_bind H. unfold print, modify in E. inversion E; subst st. clear E.
  inv_bind H. apply save_response_comments_ok in E. destruct E as (w1 & Hg & ->).
  inv_bind H. apply save_response_comments_ok in E. destruct E as (w2 & _ & ->).
  unfold save_videos_with_disabled_comments, bind, get, save_pickle, modify in H.
  inversion H; subst.
  exists (List.length a), w1, w2, (videos_with_comments_disabled (self s)).
  split; [exact Hg|reflexivity].
Qed.

Lemma append_inj_l (a x y : string) : (a ++ x)%string = (a ++ y)%string -> x = y.
Proof.
  induction a as [|c a IH]; cbn; intros H; [exact H|].
  inversion H. apply IH. assumption.
Qed.

Lemma append_assoc_str (a b c : string) : ((a ++ b) ++ c)%string = (a ++ b ++ c)%string.
Proof. induction a as [|x a IH]; cbn; [reflexivity|]. rewrite IH. reflexivity. Qed.

Lemma toplevel_not_replies (channel date : string) :
  String.eqb (toplevel_file channel date)
             (get_name (channel ++ "-replies") "pkl" date) = false.
Proof.
  apply String.eqb_neq. unfold toplevel_file, get_name. intros H.
  rewrite !append_assoc_str in H. apply append_inj_l in H. discriminate.
Qed.

Lemma toplevel_not_disabled (channel date : string) :
  String.eqb (toplevel_file channel date)
             (get_name (channel ++ "-disabled-comments-videoids") "pkl" date) = false.
Proof.
  apply String.eqb_neq. unfold toplevel_file, get_name. intros H.
  rewrite !append_assoc_str in H. apply append_inj_l in H. discriminate.
Qed.

Lemma find_file_write_same {C} (folder name : string) (c : C) (fs : list (File C)) :
  find_file folder name (write_file folder name c fs) = Some c.
Proof.
  assert (Hsame : same_file folder name (mkFile folder name c) = true).
  { unfold same_file. cbn. rewrite !String.eqb_refl. reflexivity. }
  induction fs as [|f fs IH]; cbn [write_file find_file].
  - rewrite Hsame. reflexivity.
  - destruct (same_file folder name f) eqn:E; cbn [find_file].
    + rewrite Hsame. reflexivity.
    + rewrite E. exact IH.
Qed.

Lemma find_file_write_other {C} (folder name name' : string) (c : C) (fs : list (File C)) :
  String.eqb name name' = false ->
  find_file folder name (write_file folder name' c fs) = find_file folder name fs.
Proof.
  intros Hne.
  assert (Hother : same_file folder name (mkFile folder name' c) = false).
  { unfold same_file. cbn. rewrite Hne. apply andb_false_r. }
  induction fs as [|f fs IH]; cbn [write_file find_file].
  - rewrite Hother. reflexivity.
  - destruct (same_file folder name' f) eqn:E; cbn [find_file].
    + rewrite Hother.
      assert (same_file folder name f = false) as ->; [|reflexivity].
      unfold same_file in *. apply andb_true_iff in E. destruct E as [_ E].
      apply String.eqb_eq in E. rewrite <- E, Hne. apply andb_false_r.
    + rewrite IH. reflexivity.
Qed.

Lemma increasing_snoc (ws : list PyVal) (w1 : PyVal) :
  increasing ws ->
  match pop ws with
  | Some (_, w) => grows w w1
  | None => True
  end ->
  increasing (ws ++ [w1]).
Proof.
  induction ws as [|w ws IH]; intros Hinc Hlast; [exact I|].
  destruct ws as [|w' ws].
  - cbn in *. auto.
  - change (grows w w' /\ increasing ((w' :: ws) ++ [w1])).
    destruct Hinc as [Hg Hinc]. split; [exact Hg|].
    apply IH; [exact Hinc|].
    change (pop (w :: w' :: ws))
      with (match pop (w' :: ws) with
            | Some (r, y) => Some (w :: r, y)
            | None => None
            end) in Hlast.
    destruct (pop (w' :: ws)) as [[r y]|]; [exact Hlast|exact I].
Qed.

Lemma writes_to_snoc_same (folder fname : string) (log : list (File PyVal)) (w : PyVal) :
  writes_to folder fname (log ++ [mkFile folder fname w]) =
  writes_to folder fname log ++ [w].
Proof.
  unfold writes_to. rewrite filter_app, map_app. cbn [filter].
  unfold same_file at 2. cbn [file_folder file_name].
  rewrite !String.eqb_refl. reflexivity.
Qed.

Lemma writes_to_snoc_other (folder fname fname' : string) (log : list (File PyVal))
    (w : PyVal) :
  String.eqb fname fname' = false ->
  writes_to folder fname (log ++ [mkFile folder fname' w]) = writes_to folder fname log.
Proof.
  intros Hne. unfold writes_to. rewrite filter_app, map_app. cbn [filter].
  unfold same_file at 2. cbn [file_folder file_name].
  rewrite Hne, andb_false_r. cbn. apply app_nil_r.
Qed.

Lemma flush_counts_snoc (out : list Msg) (m : Msg) :
  flush_counts (out ++ [m]) =
  flush_counts out ++ match m with MsgSaved count _ _ => [count] | _ => [] end.
Proof. unfold flush_counts. rewrite flat_map_app. cbn. rewrite app_nil_r. reflexivity. Qed.

Lemma flushed_ok (channel : string) (s : Crawl) (total : nat) (w1 w2 w3 : PyVal)
    (n : Net) (s1 : Crawl) :
  s1 = with_net n (flushed channel total w1 w2 w3 s) ->
  grows (existing channel (toplevel_file channel (today s)) s) w1 ->
  recorded channel s ->
  self s1 = self s /\
  today s1 = today s /\
  flush_counts (stdout s1) = flush_counts (stdout s) ++ [i (self s)] /\
  (exists w, writes_to channel (toplevel_file channel (today s)) (pickled s1) =
             writes_to channel (toplevel_file channel (today s)) (pickled s) ++ [w]) /\
  recorded channel s1.
Proof.
  intros -> Hg [Hinc Hlast].
  set (F := toplevel_file channel (today s)) in *.
  assert (Hw : writes_to channel F
                 (pickled (with_net n (flushed channel total w1 w2 w3 s))) =
               writes_to channel F (pickled s) ++ [w1]).
  { cbn [pickled with_net flushed written printed today].
    rewrite writes_to_snoc_other by apply toplevel_not_disabled.
    rewrite writes_to_snoc_other by apply toplevel_not_replies.
    apply writes_to_snoc_same. }
  split; [reflexivity|]. split; [reflexivity|]. split; [|split].
  - cbn [stdout with_net flushed written printed]. apply flush_counts_snoc.
  - exists w1. exact Hw.
  - unfold recorded.
    replace (today (with_net n (flushed channel total w1 w2 w3 s)))
      with (today s) by reflexivity.
    fold F. rewrite Hw. split.
    + apply increasing_snoc; [exact Hinc|].
      destruct (pop (writes_to channel F (pickled s))) as [[r w]|]; [|exact I].
      unfold existing in Hg. rewrite Hlast in Hg. exact Hg.
    + rewrite pop_app. cbn [raw with_net flushed written printed today].
      rewrite find_file_write_other by apply toplevel_not_disabled.
      rewrite find_file_write_other by apply toplevel_not_replies.
      apply find_file_write_same.
Qed.

Lemma flush_part_ok (channel : string) (s s1 : Crawl) :
  flush_part channel s = (Ok tt, s1) ->
  recorded channel s ->
  self s1 = self s /\
  today s1 = today s /\
  flush_counts (stdout s1) = flush_counts (stdout s) ++ [i (self s)] /\
  (exists w, writes_to channel (toplevel_file channel (today s)) (pickled s1) =
             writes_to channel (toplevel_file channel (today s)) (pickled s) ++ [w]) /\
  recorded channel s1.
Proof.
  intros H Hrec. unfold flush_part in H.
  inv_bind H. apply save_comments_ok in E. destruct E as (total & w1 & w2 & w3 & Hg & ->).
  unfold flush_all_tmp_storage, lift, modify in H.
  eapply flushed_ok; [|exact Hg|exact Hrec].
  inversion H. reflexivity.
Qed.

Lemma recorded_outputs (channel : string) (s s' : Crawl) :
  outputs s' = outputs s -> recorded channel s -> recorded channel s'.
Proof.
  unfold outputs, recorded. intros H. injection H as Hraw Hproc Htoday Hout Hpick.
  rewrite Hraw, Htoday, Hpick. trivial.
Qed.

(** What a completed run of the loop leaves. *)
Lemma collect_comments_loop_flushes (fuel : nat) (channel : string) (steps : nat) :
  forall (s s' : Crawl) (pending : list string) (count : Z),
    videos_ids_to_collect (self s) = Some pending ->
    temp_id_storage (self s) = Some [] ->
    i (self s) = Some count ->
    recorded channel s ->
    collect_comments_loop steps fuel channel s = (Ok tt, s') ->
    i (self s') = Some (count + Z.of_nat (List.length pending))%Z /\
    video_ids (self s') = video_ids (self s) /\
    today s' = today s /\
    recorded channel s' /\
    flush_counts (stdout s') =
      flush_counts (stdout s) ++ map Some (due count (List.length pending)) /\
    exists ws,
      writes_to channel (toplevel_file channel (today s)) (pickled s') =
        writes_to channel (toplevel_file channel (today s)) (pickled s) ++ ws /\
      List.length ws = List.length (due count (List.length pending)).
Proof.
  induction steps as [|steps IH]; intros s s' pending count Hp Hb Hi Hrec Hrun.
  - destruct pending as [|x l].
    + rewrite collect_comments_loop_done in Hrun by exact Hp. inversion Hrun; subst.
      cbn [List.length due map Z.of_nat]. rewrite Z.add_0_r, !app_nil_r.
      split; [exact Hi|]. do 2 (split; [reflexivity|]). split; [exact Hrec|].
      split; [reflexivity|]. exists []. rewrite app_nil_r. split; reflexivity.
    + cbn in Hrun. unfold bind, get, attr in Hrun. rewrite Hp in Hrun. discriminate.
  - destruct (pop pending) as [[rest v]|] eqn:Epop.
    2:{ apply pop_none in Epop. subst pending.
        rewrite collect_comments_loop_done in Hrun by exact Hp. inversion Hrun; subst.
        cbn [List.length due map Z.of_nat]. rewrite Z.add_0_r, !app_nil_r.
        split; [exact Hi|]. do 2 (split; [reflexivity|]). split; [exact Hrec|].
        split; [reflexivity|]. exists []. rewrite app_nil_r. split; reflexivity. }
    apply pop_some in Epop. subst pending.
    rewrite (collect_comments_loop_unfold _ _ _ _ _ _ _ Hp Hb) in Hrun.
    inv_bind Hrun. rename st into s2, E into Esafe.
    inv_bind Hrun. rename st into s3, E into Ebook.
    apply safe_collect_comments_video_frame in Esafe. cbv beta in Esafe.
    assert (Hout' : outputs s2 = outputs (taken rest [] v s)) by congruence.
    change (outputs (taken rest [] v s)) with (outputs s) in Hout'.
    injection Esafe as Hp2 Hb2 Hc2 Hi2 Hv2 Hraw Hproc Htoday Hstdout Hpick.
    assert (Hrec2 : recorded channel s2) by (eapply recorded_outputs; eassumption).
    assert (Hb2' : temp_id_storage (self s2) = Some ([] ++ [v])) by exact Hb2.
    destruct (bookkeeping_comments_ok _ _ _ _ _ _ Hb2' Ebook)
      as (count' & collected & s1 & Hi' & Hc' & Hflush & Hself & ->).
    assert (count' = count) by congruence. subst count'.
    assert (Hturn :
              today s1 = today s /\ recorded channel s1 /\
              flush_counts (stdout s1) =
                flush_counts (stdout s) ++
                map Some (if (count mod 50 =? 0)%Z then [count] else []) /\
              exists ws,
                writes_to channel (toplevel_file channel (today s)) (pickled s1) =
                  writes_to channel (toplevel_file channel (today s)) (pickled s) ++ ws /\
                List.length ws =
                  List.length (if (count mod 50 =? 0)%Z then [count] else [])).
    { destruct (count mod 50 =? 0)%Z.
      - destruct (flush_part_ok _ _ _ Hflush Hrec2) as (_ & Ht & Hfc & (w & Hw) & Hr).
        rewrite Htoday in Ht, Hw. rewrite Hpick in Hw. rewrite Hstdout, Hi' in Hfc.
        split; [exact Ht|]. split; [exact Hr|]. split; [exact Hfc|].
        exists [w]. split; [exact Hw|reflexivity].
      - subst s1. rewrite Htoday, Hstdout, Hpick.
        split; [reflexivity|]. split; [exact Hrec2|].
        split; [cbn; rewrite app_nil_r; reflexivity|].
        exists []. rewrite app_nil_r. split; reflexivity. }
    destruct Hturn as (Ht1 & Hrec1 & Hfc1 & ws1 & Hw1 & Hlen1).
    specialize (IH (booked count collected [] v s1) s' rest (count + 1)%Z).
    destruct IH as (Hi'' & Hv'' & Ht'' & Hrec'' & Hfc'' & ws2 & Hw2 & Hlen2).
    + cbn. rewrite Hself. exact Hp2.
    + reflexivity.
    + reflexivity.
    + eapply recorded_outputs; [|exact Hrec1]. reflexivity.
    + exact Hrun.
    + rewrite length_app. cbn [List.length]. rewrite Nat.add_1_r. cbn [due].
      cbn [today booked with_self] in Ht'', Hw2. cbn [stdout booked with_self] in Hfc''.
      cbn [pickled booked with_self] in Hw2.
      split; [rewrite Hi''; f_equal; lia|].
      split; [rewrite Hv''; cbn; rewrite Hself; exact Hv2|].
      split; [congruence|]. split; [exact Hrec''|]. split.
      * rewrite Hfc'', Hfc1, map_app, app_assoc. reflexivity.
      * exists (ws1 ++ ws2). rewrite Ht1 in Hw2. rewrite Hw2, Hw1, app_assoc.
        split; [reflexivity|]. rewrite !length_app. congruence.
Qed.

Lemma collect_comments_body_flushes (fuel : nat) (channel : string) (s s' : Crawl)
    (pending : list string) (count : Z) :
  videos_ids_to_collect (self s) = Some pending ->
  temp_id_storage (self s) = Some [] ->
  i (self s) = Some count ->
  recorded channel s ->
  collect_comments_body fuel channel s = (Ok tt, s') ->
  recorded channel s' /\
  today s' = today s /\
  flush_counts (stdout s') =
    flush_counts (stdout s) ++
    map Some (due count (List.length pending) ++ [count + Z.of_nat (List.length pending)])%Z /\
  exists ws,
    writes_to channel (toplevel_file channel (today s)) (pickled s') =
      writes_to channel (toplevel_file channel (today s)) (pickled s) ++ ws /\
    List.length ws = S (List.length (due count (List.length pending))).
Proof.
  intros Hp Hb Hi Hrec H. unfold collect_comments_body in H.
  inv_bind H. rename st into s1.
  destruct (collect_comments_loop_flushes _ _ _ _ _ _ _ Hp Hb Hi Hrec E)
    as (Hi1 & _ & Ht1 & Hrec1 & Hfc1 & ws & Hw1 & Hlen1).
  fold (flush_part channel) in H.
  destruct (flush_part_ok _ _ _ H Hrec1) as (_ & Ht' & Hfc' & (w & Hw') & Hrec').
  split; [exact Hrec'|]. split; [congruence|]. split.
  - rewrite Hfc', Hfc1, Hi1, map_app, app_assoc. reflexivity.
  - exists (ws ++ [w]). rewrite Ht1 in Hw'. rewrite Hw', Hw1, app_assoc.
    split; [reflexivity|]. rewrite length_app, Hlen1. cbn. lia.
Qed.

(** C3, as the code has it.  With the flush period of 50 and a counter
    that starts at 0, a run of the loop over 123 ids that ends without an
    error flushes four times: the counter printed is 0, 50, 100 and 123.
    The first three flushes are those of the bookkeeping of the 1st, the
    51st and the 101st id, the last one follows the loop.  The file of
    top-level comments is written once by each flush, and the ids of each
    content written are ids of the next one. *)
Theorem flush_cadence_123 (fuel : nat) (channel : string) (s s' : Crawl)
    (pending : list string) :
  videos_ids_to_collect (self s) = Some pending ->
  List.length pending = 123 ->
  temp_id_storage (self s) = Some [] ->
  i (self s) = Some 0%Z ->
  pickled s = [] ->
  collect_comments_body fuel channel s = (Ok tt, s') ->
  flush_counts (stdout s') =
    flush_counts (stdout s) ++ [Some 0; Some 50; Some 100; Some 123]%Z /\
  exists w1 w2 w3 w4,
    writes_to channel (toplevel_file channel (today s)) (pickled s') = [w1; w2; w3; w4] /\
    grows w1 w2 /\ grows w2 w3 /\ grows w3 w4.
Proof.
  intros Hp Hlen Hb Hi Hpick H.
  assert (Hrec : recorded channel s).
  { unfold recorded. rewrite Hpick. cbn. auto. }
  destruct (collect_comments_body_flushes _ _ _ _ _ _ Hp Hb Hi Hrec H)
    as ([Hinc _] & Ht & Hfc & ws & Hw & Hlen').
  rewrite Hlen in Hfc, Hlen'. rewrite Ht in Hinc.
  rewrite Hpick in Hw. cbn [writes_to filter map app] in Hw.
  split; [exact Hfc|].
  change (List.length (due 0 123)) with 3 in Hlen'.
  destruct ws as [|w1 [|w2 [|w3 [|w4 [|w5 ws]]]]]; try discriminate.
  exists w1, w2, w3, w4. split; [exact Hw|].
  unfold writes_to in Hinc, Hw. rewrite Hw in Hinc. cbn in Hinc. tauto.
Qed.

(** ** The retry wrapper *)

Lemma error_api_method_ok {A} (k : nat) (func : M Crawl A) (s s1 : Crawl) (a : A) :
  func s = (Ok a, s1) ->
  error_api_method (S k) func s = (Ok (Some a), s1).
Proof.
  intros H. cbn [error_api_method]. unfold try_except, bind. rewrite H. reflexivity.
Qed.

Lemma error_api_method_http {A} (k : nat) (func : M Crawl A) (s s1 : Crawl)
    (e : HttpError) :
  func s = (Raise (HttpErrorExn e), s1) ->
  error_api_method (S k) func s =
  (handle_http_error e ;; error_api_method k func) s1.
Proof.
  intros H. cbn [error_api_method]. unfold try_except at 1. unfold bind at 1.
  rewrite H. reflexivity.
Qed.

Lemma error_api_method_other {A} (k : nat) (func : M Crawl A) (s s1 : Crawl)
    (ex : PyExn) :
  func s = (Raise ex, s1) ->
  (forall e, ex <> HttpErrorExn e) ->
  error_api_method (S k) func s = (Raise ex, s1).
Proof.
  intros H Hne. cbn [error_api_method]. unfold try_except at 1. unfold bind at 1.
  rewrite H. destruct ex; try reflexivity. exfalso. eapply Hne. reflexivity.
Qed.

Lemma handle_http_error_retryable (e : HttpError) (s : Crawl) :
  retryable e ->
  ready s ->
  exists s',
    handle_http_error e s = (Ok tt, s') /\
    ready s' /\
    slept (net s') = slept (net s) ++ [retry_delay e].
Proof.
  intros Hre (buffer & Hb & Hp). unfold handle_http_error.
  assert (Hback : exists s1,
            put_videoid_in_buffer_back s = (Ok tt, s1) /\ ready s1 /\ net s1 = net s).
  { destruct (pop buffer) as [[rest v]|] eqn:Epop.
    - apply pop_some in Epop. subst buffer.
      destruct (videos_ids_to_collect (self s)) as [pending|] eqn:Hpend.
      + rewrite (put_videoid_in_buffer_back_ok s pending rest v Hpend Hb).
        eexists. split; [reflexivity|]. split; [|reflexivity].
        exists rest. split; [reflexivity|]. intros _. discriminate.
      + exfalso. apply Hp; [destruct rest; discriminate|reflexivity].
    - apply pop_none in Epop. subst buffer.
      rewrite (put_videoid_in_buffer_back_empty s Hb).
      eexists. split; [reflexivity|]. split; [|reflexivity].
      exists []. split; [exact Hb|]. intros Hne. contradiction. }
  destruct Hback as (s1 & Hback & Hready & Hnet).
  rewrite (bind_ok _ _ _ _ _ Hback).
  assert (Hsleep : forall ms,
            exists s', lift (sleep ms) s1 = (Ok tt, s') /\ ready s' /\
                       slept (net s') = slept (net s) ++ [ms]).
  { intros ms. eexists. split; [reflexivity|]. split; [exact Hready|].
    cbn. rewrite Hnet. reflexivity. }
  unfold retryable, retry_delay, fatal_reason in *.
  destruct (unpack_http_error e) as [ex|reason]; [apply Hsleep|].
  apply orb_false_iff in Hre. destruct Hre as [Hre H3].
  apply orb_false_iff in Hre. destruct Hre as [H1 H2].
  rewrite H1, H2, H3. apply Hsleep.
Qed.

(** C4, as the code has it.  An operation under the retry wrapper that
    fails at every attempt with the same [HttpError], one whose reason is
    not [quotaExceeded], [forbidden] or [accessNotConfigured] or cannot be
    read, is attempted [times] times (10 for the methods of the class).
    After each failed attempt the wrapper pauses, 5 seconds when the reason
    can be read and 2 seconds when it cannot.  After the last failed attempt
    the wrapper returns [None]: nothing is raised to the caller.  The
    invariant [P] describes the states in which the operation fails. *)
Theorem retries_end_without_error {A} (times : nat) (func : M Crawl A) (e : HttpError)
    (P : Crawl -> Prop) :
  retryable e ->
  (forall s, P s -> ready s) ->
  (forall s, P s ->
     exists s1, func s = (Raise (HttpErrorExn e), s1) /\ P s1 /\
                slept (net s1) = slept (net s)) ->
  (forall s s', P s -> handle_http_error e s = (Ok tt, s') -> P s') ->
  forall s, P s ->
    exists s',
      error_api_method times func s = (Ok None, s') /\
      P s' /\
      slept (net s') = slept (net s) ++ repeat (retry_delay e) times.
Proof.
  intros Hre Hready Hfail Hstable.
  induction times as [|times IH]; intros s Hs.
  - exists s. cbn. rewrite app_nil_r. auto.
  - destruct (Hfail s Hs) as (s1 & Hf & Hs1 & Hsl1).
    rewrite (error_api_method_http _ _ _ _ _ Hf).
    destruct (handle_http_error_retryable e s1 Hre (Hready s1 Hs1))
      as (s2 & Hh & _ & Hsl2).
    rewrite (bind_ok _ _ _ _ _ Hh).
    destruct (IH s2 (Hstable s1 s2 Hs1 Hh)) as (s' & Hrun & Hs' & Hsl').
    exists s'. split; [exact Hrun|]. split; [exact Hs'|].
    rewrite Hsl', Hsl2, Hsl1, <- app_assoc. reflexivity.
Qed.

Lemma fatal_not_disabled (reason : string) :
  fatal_reason reason = true -> String.eqb reason "commentsDisabled" = false.
Proof.
  unfold fatal_reason. intros H.
  apply orb_true_iff in H. destruct H as [H|H]; [apply orb_true_iff in H; destruct H as [H|H]|];
    apply String.eqb_eq in H; subst; reflexivity.
Qed.

(** X25. The path of a fatal error through [collect_comments]: the error
    raised by the collection of the id just taken passes the wrapper for
    disabled comments and the loop, reaches the retry wrapper, and ends the
    call in an [AssertionError] once the id is back in the list: the
    frontier is the one before the call. *)
Lemma collect_comments_stops_after_requeue (fuel : nat) (channel : string)
    (s s2 : Crawl) (rest : list string) (v : string) (e : HttpError) (reason : string) :
  videos_ids_to_collect (self s) = Some (rest ++ [v]) ->
  temp_id_storage (self s) = Some [] ->
  collect_comments_video (S fuel) v (taken rest [] v s) = (Raise (HttpErrorExn e), s2) ->
  unpack_http_error e = inr reason ->
  fatal_reason reason = true ->
  exists msg s3,
    collect_comments (S fuel) channel s = (Raise (AssertionError msg), s3) /\
    frontier s3 = frontier s.
Proof.
  intros Hp Hb Hrun Hreason Hfatal.
  pose proof (collect_comments_video_frame _ _ _ _ _ Hrun) as Hframe.
  cbv beta in Hframe.
  assert (Hfr : frontier s2 = frontier (taken rest [] v s)) by congruence.
  unfold frontier in Hfr. cbn in Hfr. injection Hfr as Hp2 Hb2 Hc2 Hi2 Hv2.
  assert (Hsafe : safe_collect_comments_video (S fuel) v (taken rest [] v s) =
                  (Raise (HttpErrorExn e), s2)).
  { unfold safe_collect_comments_video, try_except. rewrite Hrun.
    cbn [on_http_error]. unfold handle_disabled_comments_error.
    rewrite Hreason, (fatal_not_disabled _ Hfatal). reflexivity. }
  assert (Hbody : collect_comments_body (S fuel) channel s = (Raise (HttpErrorExn e), s2)).
  { unfold collect_comments_body. apply bind_raise.
    rewrite (collect_comments_loop_unfold _ _ _ _ _ _ _ Hp Hb).
    apply bind_raise. exact Hsafe. }
  unfold collect_comments, RETRY_TIMES.
  rewrite (error_api_method_http _ _ _ _ _ Hbody).
  assert (Hback : put_videoid_in_buffer_back s2 = (Ok tt, requeued rest [] v s2)).
  { apply put_videoid_in_buffer_back_ok; assumption. }
  assert (Hfrontier : frontier (requeued rest [] v s2) = frontier s).
  { unfold frontier. cbn. rewrite Hc2, Hi2, Hv2, Hp, Hb. reflexivity. }
  assert (Hstop : exists msg,
            handle_http_error e s2 = (Raise (AssertionError msg), requeued rest [] v s2)).
  { unfold handle_http_error. rewrite (bind_ok _ _ _ _ _ Hback), Hreason.
    unfold fatal_reason in Hfatal.
    destruct (String.eqb reason "quotaExceeded"); [eexists; reflexivity|].
    destruct (String.eqb reason "forbidden"); [eexists; reflexivity|].
    destruct (String.eqb reason "accessNotConfigured"); [eexists; reflexivity|].
    discriminate. }
  destruct Hstop as [msg Hstop].
  exists msg, (requeued rest [] v s2). split; [|exact Hfrontier].
  apply bind_raise. exact Hstop.
Qed.

(** ** A channel without an upload playlist *)

Lemma collect_upload_playlist_no_playlist (fuel : nat) (channel channel_id : string)
    (s : Crawl) (response : ChannelResponse) (a : Api) :
  od_get channel (channels (self s)) = Some channel_id ->
  execute_channels channel_id (api (net s)) = (inl response, a) ->
  get_upload_playlist_id response = inl KeyError ->
  collect_upload_playlist fuel channel s =
  (Raise KeyError, searched channel_id response a s).
Proof.
  intros Hch Hex Hkey. unfold collect_upload_playlist, RETRY_TIMES.
  apply error_api_method_other; [|intros e; discriminate].
  unfold collect_upload_playlist_body.
  unfold bind at 1. unfold get at 1. unfold bind at 1. rewrite Hch. cbn [attr ret].
  unfold bind at 1. unfold lift at 1. unfold search_channel_id. rewrite Hex.
  unfold bind at 1. unfold self_set, modify.
  unfold bind at 1. rewrite Hkey. reflexivity.
Qed.

(** C9. When the channel has no upload playlist, that is when the response
    to the lookup of the channel lacks one of the keys read by
    [get_upload_playlist_id], [collect_data_channel] returns normally after
    it printed that the channel has no upload playlist: besides this
    message, the state differs from the one before the call by the lookup
    only, so no video or comment was collected.  The loop over the channels
    goes on with the next channel. *)
Theorem channel_without_playlist_is_skipped (fuel : nat) (channel channel_id : string)
    (rest : list string) (s : Crawl) (response : ChannelResponse) (a : Api) :
  od_get channel (channels (self s)) = Some channel_id ->
  execute_channels channel_id (api (net s)) = (inl response, a) ->
  get_upload_playlist_id response = inl KeyError ->
  collect_data_channel fuel channel s =
    (Ok tt, printed (MsgNoPlaylist channel) (searched channel_id response a s)) /\
  collect_data_channels_loop fuel (channel :: rest) s =
    collect_data_channels_loop fuel rest
      (printed MsgRule
         (printed MsgDone
            (printed (MsgNoPlaylist channel)
               (searched channel_id response a
                  (printed (MsgCollecting channel) (printed MsgRule s)))))).
Proof.
  intros Hch Hex Hkey.
  assert (Hone : forall s0,
            od_get channel (channels (self s0)) = Some channel_id ->
            execute_channels channel_id (api (net s0)) = (inl response, a) ->
            collect_data_channel fuel channel s0 =
            (Ok tt, printed (MsgNoPlaylist channel) (searched channel_id response a s0))).
  { intros s0 Hch0 Hex0. unfold collect_data_channel.
    unfold bind at 1. unfold try_except. unfold bind at 1.
    rewrite (collect_upload_playlist_no_playlist fuel _ _ _ _ _ Hch0 Hex0 Hkey).
    reflexivity. }
  split; [apply Hone; assumption|].
  cbn [collect_data_channels_loop].
  unfold bind at 1. unfold print at 1. unfold modify at 1.
  unfold bind at 1. unfold print at 1. unfold modify at 1.
  unfold bind at 1.
  rewrite (Hone (printed (MsgCollecting channel) (printed MsgRule s)) Hch Hex).
  reflexivity.
Qed.

(** ** The restore procedure *)

Lemma dated_cases {C} (files : list (File C)) :
  (exists msg, dated files = inl (AssertionError msg)) \/
  (exists l, dated files = inr l /\ List.length l = List.length files).
Proof.
  induction files as [|f files IH]; cbn [dated].
  - right. exists []. auto.
  - destruct (file_date (file_name f)); [|left; eauto].
    destruct IH as [[msg ->]|(l & -> & Hlen)]; [left; eauto|].
    right. eexists. split; [reflexivity|]. cbn. congruence.
Qed.

Lemma get_file_cases {C} (folder name : string) (fs : list (File C)) :
  (exists msg, get_file folder name fs = inl (AssertionError msg)) \/
  (exists file, get_file folder name fs = inr file).
Proof.
  unfold get_file.
  destruct (glob folder ("*" ++ name ++ "*") fs) as [|f [|f' files]]; eauto.
  unfold select_latest_file.
  destruct (dated_cases (f :: f' :: files)) as [[msg ->]|(l & -> & Hlen)]; eauto.
  destruct l; [discriminate|eauto].
Qed.

Lemma read_file_run (folder name : string) (s : Crawl) :
  read_file folder name s = (Ok (loaded folder name s), s).
Proof.
  unfold read_file, loaded, bind, get.
  destruct (get_file_cases folder name (raw s)) as [[msg ->]|[file ->]]; reflexivity.
Qed.

Lemma read_file_proc_run (folder name : string) (s : Crawl) :
  read_file_proc folder name s = (Ok (loaded_proc folder name s), s).
Proof.
  unfold read_file_proc, loaded_proc, bind, get.
  destruct (get_file_cases folder name (proc s)) as [[msg ->]|[file ->]]; reflexivity.
Qed.

Lemma restore_each_run {V} (read : string -> M Crawl V) (value : string -> Crawl -> V)
    (l : list (string * (V -> YtEntityData -> YtEntityData))) :
  (forall name s, read name s = (Ok (value name s), s)) ->
  forall s, restore_each read l s = (Ok tt, assigned value l s).
Proof.
  intros Hread. induction l as [|[name setter] l IH]; intros s; [reflexivity|].
  cbn [restore_each assigned]. rewrite (bind_ok _ _ _ _ _ (Hread name s)).
  unfold bind, self_set, modify. apply IH.
Qed.

Lemma restore_files_run (channel date : string) (s : Crawl) :
  (restore_responses channel date ;; restore_dfs channel) s =
  (Ok tt, with_self (restored channel date s) s).
Proof.
  unfold restore_responses, restore_dfs.
  rewrite (bind_ok _ _ _ _ _
             (restore_each_run _ (fun name => loaded channel (restore_pattern channel date name))
                _ (fun name s => read_file_run _ _ s) s)).
  rewrite (restore_each_run _ (fun name => loaded_proc channel name)
             _ (fun name s => read_file_proc_run _ _ s)).
  reflexivity.
Qed.

Lemma restored_df_m (channel date : string) (s : Crawl) (o : YtEntityData) :
  df_m (restored channel date s o) = loaded_proc channel "video" s.
Proof. reflexivity. Qed.

Lemma restored_toplevel (channel date : string) (s : Crawl) (o : YtEntityData) :
  responses_toplevel (restored channel date s o) =
  loaded channel (restore_pattern channel date "toplevel") s.
Proof. reflexivity. Qed.

Lemma handle_collected_comments_cases (s : Crawl) :
  handle_collected_comments s =
  match df_m (self s) with
  | None => (Raise AttributeError, s)
  | Some df =>
      let ids := rev (frame_video_ids df) in
      match py_keys (responses_toplevel (self s)) with
      | inl e => (Raise e, with_self (set_video_ids (Some ids)) s)
      | inr collected => (Ok tt, rebuilt ids collected s)
      end
  end.
Proof.
  unfold handle_collected_comments, bind, get, attr.
  destruct (df_m (self s)) as [df|]; [|reflexivity]. cbn [ret].
  unfold self_set, modify.
  destruct (py_keys (responses_toplevel (self s))); reflexivity.
Qed.

Lemma mem_true_iff (k : string) (l : list string) : mem k l = true <-> In k l.
Proof.
  unfold mem. rewrite existsb_exists. split.
  - intros (x & Hin & Heq). apply String.eqb_eq in Heq. subst. exact Hin.
  - intros Hin. exists k. split; [exact Hin|apply String.eqb_refl].
Qed.

Lemma restore_obj_from_checkpoint_run (channel date : string) (s : Crawl) :
  restore_obj_from_checkpoint channel date s =
  (handle_collected_comments ;; s0 <- get ;; ret (self s0))
    (with_self (restored channel date s) s).
Proof.
  unfold restore_obj_from_checkpoint.
  pose proof (restore_files_run channel date s) as Hfiles.
  unfold bind at 1 in Hfiles. unfold bind at 1.
  destruct (restore_responses channel date s) as [[[]|e|] s1]; try discriminate.
  unfold bind at 1. rewrite Hfiles. reflexivity.
Qed.

(** C8. When the folder of the channel holds a file of top-level comments
    for the date, a dictionary, and a merged frame of the videos, the
    restore returns the object with: the collected ids set to the keys of
    that dictionary; the ids to collect set to the list of video ids of the
    frame, reversed, without the collected ids and in the same order; an
    empty buffer for the id under work. *)
Theorem restore_rebuilds_frontier (channel date : string) (s : Crawl)
    (ftop : File PyVal) (fdf : File DataFrame) (d : list (string * DictVal)) :
  get_file channel (restore_pattern channel date "toplevel") (raw s) = inr ftop ->
  file_content ftop = VDict d ->
  get_file channel "video" (proc s) = inr fdf ->
  exists s',
    restore_obj_from_checkpoint channel date s = (Ok (self s'), s') /\
    let ids := rev (frame_video_ids (file_content fdf)) in
    let to_collect := filter (fun v => negb (mem v (od_keys d))) ids in
    video_ids (self s') = Some ids /\
    collected_video_ids (self s') = Some (od_keys d) /\
    videos_ids_to_collect (self s') = Some to_collect /\
    temp_id_storage (self s') = Some [] /\
    (forall v, In v to_collect <-> In v ids /\ ~ In v (od_keys d)).
Proof.
  intros Htop Hd Hdf.
  rewrite restore_obj_from_checkpoint_run. unfold bind at 1.
  rewrite handle_collected_comments_cases.
  change (self (with_self (restored channel date s) s))
    with (restored channel date s (self s)).
  rewrite restored_df_m, restored_toplevel.
  unfold loaded_proc, loaded. rewrite Hdf, Htop, Hd. cbn [py_keys].
  eexists. split; [reflexivity|].
  cbv zeta. do 4 (split; [reflexivity|]).
  intros v. rewrite filter_In, negb_true_iff, <- not_true_iff_false, mem_true_iff.
  reflexivity.
Qed.


(** C10. The restore needs its files.  When no file of the folder of the
    channel matches the pattern of the top-level comments for the date,
    the attribute of the top-level comments is set to [None] and the restore
    ends in an [AttributeError]: the collected ids and the ids to collect
    are left as they were, not set from an empty dictionary.  And a restore
    that returns found both a file of top-level comments, holding a
    dictionary, and a merged frame of the videos. *)
Theorem restore_needs_checkpoint_files (channel date : string) (s : Crawl) :
  (glob channel ("*" ++ restore_pattern channel date "toplevel" ++ "*") (raw s) = [] ->
   exists s',
     restore_obj_from_checkpoint channel date s = (Raise AttributeError, s') /\
     responses_toplevel (self s') = VNone /\
     collected_video_ids (self s') = collected_video_ids (self s) /\
     videos_ids_to_collect (self s') = videos_ids_to_collect (self s)) /\
  (forall y s',
     restore_obj_from_checkpoint channel date s = (Ok y, s') ->
     exists ftop fdf d,
       get_file channel (restore_pattern channel date "toplevel") (raw s) = inr ftop /\
       file_content ftop = VDict d /\
       get_file channel "video" (proc s) = inr fdf).
Proof.
  split.
  - intros Hglob.
    assert (Hnone : loaded channel (restore_pattern channel date "toplevel") s = VNone).
    { unfold loaded, get_file. rewrite Hglob. reflexivity. }
    rewrite restore_obj_from_checkpoint_run. unfold bind at 1.
    rewrite handle_collected_comments_cases.
    change (self (with_self (restored channel date s) s))
      with (restored channel date s (self s)).
    rewrite restored_df_m, restored_toplevel, Hnone.
    destruct (loaded_proc channel "video" s) as [df|].
    + cbn [py_keys]. eexists. split; [reflexivity|].
      split; [exact Hnone|]. split; reflexivity.
    + eexists. split; [reflexivity|].
      split; [exact Hnone|]. split; reflexivity.
  - intros y s' H. rewrite restore_obj_from_checkpoint_run in H.
    unfold bind at 1 in H. rewrite handle_collected_comments_cases in H.
    change (self (with_self (restored channel date s) s))
      with (restored channel date s (self s)) in H.
    rewrite restored_df_m, restored_toplevel in H.
    unfold loaded_proc, loaded in H.
    destruct (get_file channel "video" (proc s)) as [e|fdf]; [discriminate|].
    destruct (get_file channel (restore_pattern channel date "toplevel") (raw s))
      as [e|ftop]; [discriminate|].
    cbv zeta in H.
    destruct (file_content ftop) as [|pd|d|l] eqn:Hc; try discriminate.
    exists ftop, fdf, d. auto.
Qed.

(** X9. Every row of reply data comes from an item of a response that the
    dictionary holds under the thread id of the row. *)
Theorem reply_rows_come_from_their_thread (v : PyVal) (rows : list Row) (row : Row) :
  get_comment_reply_data v = inr rows ->
  In row rows ->
  exists (d : list (string * DictVal)) (rs : list Response) (r : Response) (item : Item),
    v = VDict d /\ In (row_thread_id row, DResps rs) d /\ In r rs /\ In item (items r) /\
    row_comment_id row = item_id item /\ row_text row = item_text item.
Proof.
  destruct v as [| |d|[|x l]]; try discriminate.
  - cbn [get_comment_reply_data]. revert rows.
    induction d as [|[t x] d IH]; intros rows Hrows Hin.
    + inversion Hrows; subst. destruct Hin.
    + cbn [reply_rows] in Hrows. destruct x as [[|? ?]|rs].
      * destruct (IH _ Hrows Hin) as (d0 & rs & r & item & Hd & H1 & H2).
        inversion Hd; subst d0. exists ((t, DRows []) :: d), rs, r, item.
        split; [reflexivity|]. split; [right; exact H1|exact H2].
      * discriminate.
      * destruct (reply_rows d) as [ex|rows'] eqn:Hrest; [discriminate|].
        inversion Hrows; subst rows. apply in_app_or in Hin. destruct Hin as [Hin|Hin].
        -- apply in_flat_map in Hin. destruct Hin as (r & Hr & Hin).
           unfold get_data_reply_comment in Hin. apply in_map_iff in Hin.
           destruct Hin as (item & <- & Hitem).
           exists ((t, DResps rs) :: d), rs, r, item. cbn.
           split; [reflexivity|]. split; [left; reflexivity|]. auto.
        -- destruct (IH _ eq_refl Hin) as (d0 & rs0 & r & item & Hd & H1 & H2).
           inversion Hd; subst d0. exists ((t, DResps rs) :: d), rs0, r, item.
           split; [reflexivity|]. split; [right; exact H1|exact H2].
  - intros Hrows Hin. inversion Hrows; subst. destruct Hin.
Qed.

(** ** The files of [data/tmp] *)

Lemma length_append_str (a b : string) :
  String.length (a ++ b) = String.length a + String.length b.
Proof. induction a as [|c a IH]; cbn; [reflexivity|]. rewrite IH. reflexivity. Qed.

Lemma append_inj_r (x y a : string) : (x ++ a)%string = (y ++ a)%string -> x = y.
Proof.
  revert y. induction x as [|c x IH]; intros [|c' y] H; cbn in H.
  - reflexivity.
  - apply (f_equal String.length) in H. cbn in H. rewrite length_append_str in H. lia.
  - apply (f_equal String.length) in H. cbn in H. rewrite length_append_str in H. lia.
  - injection H as Hc H. f_equal; [exact Hc|apply IH, H].
Qed.

Lemma get_tmp_file_eqb (a b : string) :
  String.eqb (get_tmp_file a) (get_tmp_file b) = String.eqb a b.
Proof.
  destruct (String.eqb a b) eqn:E.
  - apply String.eqb_eq in E. subst. apply String.eqb_refl.
  - apply String.eqb_neq in E. apply String.eqb_neq. intros H. apply E.
    unfold get_tmp_file in H. apply append_inj_l in H. apply append_inj_r in H. exact H.
Qed.

Lemma od_get_remove {V} (k k' : string) (d : list (string * V)) :
  od_get k (filter (fun f => negb (String.eqb (fst f) k')) d) =
  if String.eqb k k' then None else od_get k d.
Proof.
  induction d as [|[k0 v] d IH]; cbn [filter od_get fst].
  - destruct (String.eqb k k'); reflexivity.
  - destruct (String.eqb k0 k') eqn:E0; cbn [negb od_get].
    + rewrite IH. destruct (String.eqb k k') eqn:E; [reflexivity|].
      apply String.eqb_eq in E0. subst k0. rewrite E. reflexivity.
    + rewrite IH. destruct (String.eqb k k0) eqn:E1; [|reflexivity].
      apply String.eqb_eq in E1. subst k0. rewrite E0. reflexivity.
Qed.

Lemma checkpoint_saved (a b : string) (data : PyVal) (n : Net) :
  checkpoint a (snd (save_tmp_data b data n)) =
    if String.eqb a b then Some data else checkpoint a n.
Proof.
  unfold checkpoint, save_tmp_data, modify. cbn [snd tmp].
  destruct (String.eqb a b) eqn:E.
  - apply String.eqb_eq in E. subst. apply od_get_set_same.
  - apply od_get_set_other. rewrite get_tmp_file_eqb. exact E.
Qed.

Lemma checkpoint_removed (a b : string) (n : Net) :
  checkpoint a (snd (remove_tmp_data b n)) =
    if String.eqb a b then None else checkpoint a n.
Proof.
  unfold checkpoint, remove_tmp_data, modify. cbn [snd tmp].
  rewrite od_get_remove, get_tmp_file_eqb. reflexivity.
Qed.

(** X10. The files of [data/tmp] are keyed by item: saving the data of an
    item makes it the checkpoint of this item and leaves the checkpoint of
    every other item as it was; removing the file of an item leaves this
    item without a checkpoint and the other items with theirs; and a pager
    saved is the pager that [init_pager] hands back. *)
Theorem checkpoint_files_keyed_by_item (a b : string) (data : PyVal) (n : Net) :
  checkpoint a (snd (save_tmp_data b data n)) =
    (if String.eqb a b then Some data else checkpoint a n) /\
  checkpoint a (snd (remove_tmp_data b n)) =
    (if String.eqb a b then None else checkpoint a n) /\
  fst (init_pager b (snd (save_tmp_data b data n))) = Ok data /\
  fst (init_pager b (snd (remove_tmp_data b n))) = Ok (VPager (mkPager [] None false 0)).
Proof.
  split; [apply checkpoint_saved|]. split; [apply checkpoint_removed|].
  pose proof (checkpoint_saved b b data n) as Hs.
  pose proof (checkpoint_removed b b n) as Hr.
  rewrite String.eqb_refl in Hs, Hr. unfold checkpoint in Hs, Hr.
  unfold init_pager, bind, get. rewrite Hs, Hr. split; reflexivity.
Qed.

(** X11. [flush_tmp_storage_comments] removes the two checkpoints of a
    video, the one of its top-level comments and the one of its replies,
    and no other; the object and the files outside [data/tmp] are as
    before. *)
Theorem flush_removes_the_checkpoints_of_a_video (video_id a : string) (s : Crawl) :
  exists s',
    flush_tmp_storage_comments video_id s = (Ok tt, s') /\
    self s' = self s /\ outputs s' = outputs s /\
    checkpoint a (net s') =
      if String.eqb a video_id || String.eqb a (video_id ++ "-replies")
      then None else checkpoint a (net s).
Proof.
  eexists. split; [reflexivity|]. split; [reflexivity|]. split; [reflexivity|].
  cbn [net with_net snd fst].
  change (checkpoint a (snd (remove_tmp_data (video_id ++ "-replies")
                               (snd (remove_tmp_data video_id (net s))))) =
          if String.eqb a video_id || String.eqb a (video_id ++ "-replies")
          then None else checkpoint a (net s)).
  rewrite !checkpoint_removed.
  destruct (String.eqb a video_id), (String.eqb a (video_id ++ "-replies")); reflexivity.
Qed.

(** ** The videos of a channel *)

Lemma merge_members (right left : DataFrame) (v : string) :
  In v (frame_video_ids (merge_playlist_and_videos right left)) <->
  In v (frame_video_ids left).
Proof.
  unfold merge_playlist_and_videos. cbn [frame_video_ids]. rewrite in_flat_map. split.
  - intros (x & Hx & Hr). apply repeat_spec in Hr. subst. exact Hx.
  - intros H. exists v. split; [exact H|].
    destruct (Nat.max 1 (count_occ string_dec (frame_video_ids right) v)) eqn:E; [lia|].
    left. reflexivity.
Qed.

Lemma merge_nodup (right left : DataFrame) :
  NoDup (frame_video_ids right) ->
  frame_video_ids (merge_playlist_and_videos right left) = frame_video_ids left.
Proof.
  intros Hnd. unfold merge_playlist_and_videos. cbn [frame_video_ids].
  induction (frame_video_ids left) as [|v l IH]; [reflexivity|].
  cbn [flat_map]. rewrite IH.
  pose proof (proj1 (NoDup_count_occ string_dec (frame_video_ids right)) Hnd v) as Hc.
  replace (Nat.max 1 (count_occ string_dec (frame_video_ids right) v)) with 1 by lia.
  reflexivity.
Qed.

Lemma query_videos_list_nil (n : Net) : query_videos_list [] n = (Ok [], n).
Proof. reflexivity. Qed.

(** X12. When the collection of the videos of a channel returns, the ids
    to collect are the ids that the videos query returned, the last one
    first: an id of the upload playlist that the videos query did not return
    is not collected.  No id is marked as collected. *)
Theorem videos_to_collect_come_from_the_videos_query (channel : string) (s s' : Crawl) :
  collect_videos_body channel s = (Ok tt, s') ->
  exists (ids : list string) (queried : list Response) (playlist : DataFrame)
         (pending : list string),
    vid_ids (self s) = Some ids /\
    df_upload_playlist (self s) = Some playlist /\
    videos_responses (self s') = VList (map EResp queried) /\
    video_ids (self s') = Some pending /\
    videos_ids_to_collect (self s') = Some pending /\
    collected_video_ids (self s') = Some [] /\
    (forall v, In v pending <-> In v (flat_map get_data_videos queried)) /\
    (NoDup (frame_video_ids playlist) -> pending = rev (flat_map get_data_videos queried)).
Proof.
  intros H. unfold collect_videos_body in H.
  unfold bind at 1, get at 1 in H.
  destruct (vid_ids (self s)) as [ids|] eqn:Hids; [|discriminate].
  cbn [attr] in H. unfold bind at 1, ret at 1 in H.
  unfold bind at 1 in H.
  destruct (lift (query_videos_list ids) s) as [[queried| |] s1] eqn:Hq; try discriminate.
  unfold bind at 1, self_set at 1, modify at 1 in H.
  unfold bind at 1, save_response at 1, bind at 1, get at 1, save_pickle at 1, modify at 1 in H.
  unfold bind at 1 in H.
  destruct (get_dataframe_responses queried get_data_videos) as [ex|videos] eqn:Hdf;
    [discriminate|].
  cbn [lift_sum] in H. unfold ret at 1 in H.
  unfold bind at 1, self_set at 1, modify at 1 in H.
  unfold bind at 1 in H.
  destruct (df_upload_playlist (self s)) as [playlist|] eqn:Hpl; [|discriminate].
  cbn [attr] in H. unfold ret at 1 in H.
  assert (Hv : frame_video_ids videos = flat_map get_data_videos queried).
  { unfold get_dataframe_responses in Hdf. destruct queried; [discriminate|].
    injection Hdf as <-. reflexivity. }
  unfold get_videoids_to_collect, save_df, self_set, bind, modify, get, attr, ret in H.
  cbn [self with_self set_df_m df_m] in H.
  injection H as <-.
  exists ids, queried, playlist,
    (rev (frame_video_ids (merge_playlist_and_videos playlist videos))).
  do 2 (split; [reflexivity|]). split; [reflexivity|].
  do 3 (split; [reflexivity|]). split.
  - intros v. rewrite <- in_rev, merge_members, Hv. reflexivity.
  - intros Hnd. rewrite (merge_nodup _ _ Hnd), Hv. reflexivity.
Qed.

Lemma collect_videos_no_ids (channel : string) (s : Crawl) :
  vid_ids (self s) = Some [] ->
  exists s', collect_videos channel s = (Raise ValueError, s') /\
             net s' = net s /\ frontier s' = frontier s /\ proc s' = proc s.
Proof.
  intros H. eexists. split.
  - unfold collect_videos, RETRY_TIMES.
    apply error_api_method_other; [|intros e; discriminate].
    unfold collect_videos_body. unfold bind at 1, get at 1. rewrite H. cbn [attr].
    unfold bind at 1, ret at 1. unfold bind at 1, lift at 1.
    rewrite query_videos_list_nil. reflexivity.
  - destruct s as [o n r p t out log]. destruct n. repeat split.
Qed.

Lemma query_uploads_date_one_page (fuel : nat) (playlist_id : string) (cutoff : Z)
    (n : Net) (its : list Item) (a : Api) :
  execute_page (PlaylistItemsList playlist_id None) (api n) =
    (inl (mkResponse its None), a) ->
  query_uploads_date (S fuel) playlist_id cutoff n =
    (Ok [mkResponse (filter_last_items its cutoff) None],
     mkNet a (tmp n) (requests n ++ [PlaylistItemsList playlist_id None]) (slept n)).
Proof.
  intros Hex. unfold query_uploads_date. cbn [query_uploads_date_loop].
  unfold bind, pager_snippet, pager_of, execute. rewrite Hex. reflexivity.
Qed.

Lemma collect_upload_playlist_body_one_page (fuel : nat)
    (channel channel_id playlist_id : string) (s : Crawl) (response : ChannelResponse)
    (its : list Item) (a1 a2 : Api) :
  od_get channel (channels (self s)) = Some channel_id ->
  execute_channels channel_id (api (net s)) = (inl response, a1) ->
  get_upload_playlist_id response = inr playlist_id ->
  execute_page (PlaylistItemsList playlist_id None) a1 = (inl (mkResponse its None), a2) ->
  exists s1,
    collect_upload_playlist_body (S fuel) channel s = (Ok tt, s1) /\
    vid_ids (self s1) =
      Some (map item_video_id (filter_last_items its (cutoff_date (self s)))) /\
    requests (net s1) =
      requests (net s) ++ [ChannelsList channel_id; PlaylistItemsList playlist_id None] /\
    frontier s1 = frontier s.
Proof.
  intros H1 H2 H3 H4. eexists. split.
  - unfold collect_upload_playlist_body. unfold bind at 1, get at 1. rewrite H1.
    cbn [attr]. unfold bind at 1, ret at 1. unfold bind at 1, lift at 1, search_channel_id.
    rewrite H2. unfold bind at 1, self_set at 1, modify at 1. rewrite H3.
    cbn [lift_sum]. unfold bind at 1, ret at 1.
    unfold bind at 1, lift at 1. cbn [net with_self with_net api].
    rewrite (query_uploads_date_one_page fuel playlist_id _ _ its a2) by exact H4.
    reflexivity.
  - cbn -[filter_last_items]. rewrite app_nil_r, <- app_assoc.
    destruct s as [o n r p t out log]. destruct n. repeat split.
Qed.

(** X13. A channel whose upload playlist has one page and no upload within
    the window stops the run: the list of videos is empty, the videos query
    sends no request, and building the frame of the videos raises
    [ValueError], which neither the retry wrapper nor the handler for
    channels without a playlist catches. *)
Theorem channel_without_recent_upload_aborts (fuel : nat)
    (channel channel_id playlist_id : string) (s : Crawl) (response : ChannelResponse)
    (its : list Item) (a1 a2 : Api) :
  od_get channel (channels (self s)) = Some channel_id ->
  execute_channels channel_id (api (net s)) = (inl response, a1) ->
  get_upload_playlist_id response = inr playlist_id ->
  execute_page (PlaylistItemsList playlist_id None) a1 = (inl (mkResponse its None), a2) ->
  filter_last_items its (cutoff_date (self s)) = [] ->
  exists s',
    collect_data_channel (S fuel) channel s = (Raise ValueError, s') /\
    requests (net s') =
      requests (net s) ++ [ChannelsList channel_id; PlaylistItemsList playlist_id None] /\
    frontier s' = frontier s.
Proof.
  intros H1 H2 H3 H4 H5.
  destruct (collect_upload_playlist_body_one_page fuel _ _ _ _ _ _ _ _ H1 H2 H3 H4)
    as (s1 & Hbody & Hids & Hreq & Hfr).
  rewrite H5 in Hids. cbn [map] in Hids.
  destruct (collect_videos_no_ids channel s1 Hids) as (s2 & Hvid & Hnet & Hfr2 & _).
  exists s2. split.
  - unfold collect_data_channel. unfold bind at 1, try_except, bind at 1.
    unfold collect_upload_playlist, RETRY_TIMES.
    rewrite (error_api_method_ok _ _ _ _ _ Hbody). unfold ret at 1.
    unfold bind at 1. rewrite Hvid. reflexivity.
  - rewrite Hnet, Hfr2. split; assumption.
Qed.

(** ** Errors of the API *)

Lemma put_videoid_in_buffer_back_ready (s : Crawl) :
  ready s ->
  exists s1, put_videoid_in_buffer_back s = (Ok tt, s1) /\ net s1 = net s /\
             outputs s1 = (raw s, proc s, today s, stdout s1, pickled s).
Proof.
  intros (buffer & Hb & Hp).
  destruct (pop buffer) as [[rest v]|] eqn:Epop.
  - apply pop_some in Epop. subst buffer.
    destruct (videos_ids_to_collect (self s)) as [pending|] eqn:Hpend.
    + rewrite (put_videoid_in_buffer_back_ok s pending rest v Hpend Hb).
      eexists. split; [reflexivity|]. split; reflexivity.
    + exfalso. apply Hp; [destruct rest; discriminate|reflexivity].
  - apply pop_none in Epop. subst buffer.
    rewrite (put_videoid_in_buffer_back_empty s Hb).
    eexists. split; [reflexivity|]. split; reflexivity.
Qed.

(** X14. An error of the API that arrives before the comment collector is
    set up, when the buffer of the id under work is still [None], ends the
    collection of the channel with [TypeError]: the handler of the retry
    wrapper fails on the length of the buffer, before any pause and before
    any second attempt. *)
Theorem http_error_before_collector_setup (fuel : nat) (channel channel_id : string)
    (s : Crawl) (e : HttpError) (a : Api) :
  temp_id_storage (self s) = None ->
  od_get channel (channels (self s)) = Some channel_id ->
  execute_channels channel_id (api (net s)) = (inr e, a) ->
  exists s',
    collect_data_channel fuel channel s = (Raise TypeError, s') /\
    requests (net s') = requests (net s) ++ [ChannelsList channel_id] /\
    slept (net s') = slept (net s) /\
    stdout s' = stdout s.
Proof.
  intros Hbuf Hchan Hex.
  assert (Hbody : collect_upload_playlist_body fuel channel s =
                  (Raise (HttpErrorExn e),
                   with_net (mkNet a (tmp (net s))
                                   (requests (net s) ++ [ChannelsList channel_id])
                                   (slept (net s))) s)).
  { unfold collect_upload_playlist_body. unfold bind at 1, get at 1. rewrite Hchan.
    cbn [attr]. unfold bind at 1, ret at 1. unfold bind at 1, lift at 1, search_channel_id.
    rewrite Hex. reflexivity. }
  eexists. split.
  - unfold collect_data_channel. apply bind_raise.
    unfold try_except. unfold collect_upload_playlist, RETRY_TIMES.
    unfold bind at 1. rewrite (error_api_method_http _ _ _ _ _ Hbody).
    unfold bind at 1, handle_http_error, bind at 1, put_videoid_in_buffer_back,
      bind at 1, get at 1.
    cbn [self with_net]. rewrite Hbuf. reflexivity.
  - split; [reflexivity|]. split; reflexivity.
Qed.

(** X15. An error of the API whose reason is one of the three fatal ones
    (quota exceeded, key suspended, API not activated) is not retried:
    the wrapped method ran once, and the wrapper raises [AssertionError]
    with no request and no pause after the failure. *)
Theorem fatal_error_is_not_retried {A} (k : nat) (func : M Crawl A) (s s1 : Crawl)
    (e : HttpError) (reason : string) :
  func s = (Raise (HttpErrorExn e), s1) ->
  unpack_http_error e = inr reason ->
  fatal_reason reason = true ->
  ready s1 ->
  exists msg s',
    error_api_method (S k) func s = (Raise (AssertionError msg), s') /\
    net s' = net s1 /\
    raw s' = raw s1 /\ pickled s' = pickled s1.
Proof.
  intros Hfunc Hreason Hfatal Hready.
  destruct (put_videoid_in_buffer_back_ready s1 Hready) as (s2 & Hback & Hnet & Hout).
  assert (Hstop : exists msg, handle_http_error e s1 = (Raise (AssertionError msg), s2)).
  { unfold handle_http_error. rewrite (bind_ok _ _ _ _ _ Hback), Hreason.
    unfold fatal_reason in Hfatal.
    destruct (String.eqb reason "quotaExceeded"); [eexists; reflexivity|].
    destruct (String.eqb reason "forbidden"); [eexists; reflexivity|].
    destruct (String.eqb reason "accessNotConfigured"); [eexists; reflexivity|].
    discriminate. }
  destruct Hstop as [msg Hstop]. exists msg, s2.
  split; [rewrite (error_api_method_http _ _ _ _ _ Hfunc); apply bind_raise; exact Hstop|].
  split; [exact Hnet|]. injection Hout as Hraw _ _ Hpick. auto.
Qed.

(** ** The loop over the videos *)

(** X16. The videos are collected from the end of the list: when the loop
    returns, the list of ids to collect and the buffer are empty, and the
    ids that were to collect follow the ids collected before, the last one
    first. *)
Theorem comments_collected_from_the_end (fuel : nat) (channel : string) (steps : nat) :
  forall (s s' : Crawl) (pending collected : list string),
    videos_ids_to_collect (self s) = Some pending ->
    temp_id_storage (self s) = Some [] ->
    collected_video_ids (self s) = Some collected ->
    collect_comments_loop steps fuel channel s = (Ok tt, s') ->
    videos_ids_to_collect (self s') = Some [] /\
    temp_id_storage (self s') = Some [] /\
    collected_video_ids (self s') = Some (collected ++ rev pending).
Proof.
  induction steps as [|steps IH]; intros s s' pending collected Hp Hb Hc Hrun.
  - destruct pending as [|x l].
    + rewrite collect_comments_loop_done in Hrun by exact Hp. inversion Hrun; subst.
      cbn [rev]. rewrite app_nil_r. auto.
    + cbn in Hrun. unfold bind, get, attr in Hrun. rewrite Hp in Hrun. discriminate.
  - destruct (pop pending) as [[rest v]|] eqn:Epop.
    2:{ apply pop_none in Epop. subst pending.
        rewrite collect_comments_loop_done in Hrun by exact Hp. inversion Hrun; subst.
        cbn [rev]. rewrite app_nil_r. auto. }
    apply pop_some in Epop. subst pending.
    rewrite (collect_comments_loop_unfold _ _ _ _ _ _ _ Hp Hb) in Hrun.
    inv_bind Hrun. rename st into s2, E into Esafe.
    inv_bind Hrun. rename st into s3, E into Ebook.
    apply safe_collect_comments_video_frame in Esafe. cbv beta in Esafe.
    injection Esafe as Hp2 Hb2 Hc2 _ _ _ _ _ _ _.
    assert (Hb2' : temp_id_storage (self s2) = Some ([] ++ [v])) by exact Hb2.
    destruct (bookkeeping_comments_ok _ _ _ _ _ _ Hb2' Ebook)
      as (count & collected' & s1 & _ & Hc' & _ & Hself & ->).
    assert (collected' = collected).
    { cbn in Hc2. rewrite Hc2, Hc in Hc'. congruence. }
    subst collected'.
    specialize (IH (booked count collected [] v s1) s' rest (collected ++ [v])).
    rewrite rev_app_distr. cbn [rev app].
    replace (collected ++ v :: rev rest) with ((collected ++ [v]) ++ rev rest)
      by (rewrite <- app_assoc; reflexivity).
    apply IH; [cbn; rewrite Hself; exact Hp2|reflexivity|reflexivity|exact Hrun].
Qed.

Lemma due_multiples (turns : nat) :
  forall count : Z,
    due count turns =
    filter (fun c => (c mod 50 =? 0)%Z) (map (fun k => (count + Z.of_nat k)%Z) (seq 0 turns)).
Proof.
  induction turns as [|turns IH]; intros count; [reflexivity|].
  cbn [due seq map filter]. rewrite Z.add_0_r, IH, <- seq_shift, map_map.
  replace (map (fun k => (count + Z.of_nat (S k))%Z) (seq 0 turns))
    with (map (fun k => (count + 1 + Z.of_nat k)%Z) (seq 0 turns))
    by (apply map_ext; intros k; lia).
  destruct (count mod 50 =? 0)%Z; reflexivity.
Qed.

(** X17. From any value of the counter, as after a restore, the collection
    of the comments of a channel saves the comments when the counter is a
    multiple of 50 before a video is counted, and once more at the end: the
    counters printed are the multiples of 50 among the counter values
    passed, in order, followed by the final value. *)
Theorem flushes_at_multiples_of_fifty (fuel : nat) (channel : string) (s s' : Crawl)
    (pending : list string) (count : Z) :
  videos_ids_to_collect (self s) = Some pending ->
  temp_id_storage (self s) = Some [] ->
  i (self s) = Some count ->
  pickled s = [] ->
  collect_comments_body fuel channel s = (Ok tt, s') ->
  flush_counts (stdout s') =
    flush_counts (stdout s) ++
    map Some
      (filter (fun c => (c mod 50 =? 0)%Z)
         (map (fun k => (count + Z.of_nat k)%Z) (seq 0 (List.length pending))) ++
       [(count + Z.of_nat (List.length pending))%Z]).
Proof.
  intros Hp Hb Hi Hlog Hrun.
  assert (Hrec : recorded channel s).
  { unfold recorded. rewrite Hlog. cbn. auto. }
  destruct (collect_comments_body_flushes _ _ _ _ _ _ Hp Hb Hi Hrec Hrun)
    as (_ & _ & Hfc & _).
  rewrite Hfc, due_multiples. reflexivity.
Qed.

(** ** The restored frontier *)

Lemma ok_inv {A S} (a b : A) (s t : S) : (Ok a, s) = (Ok b, t) -> a = b /\ s = t.
Proof. intros H. inversion H. auto. Qed.

Lemma perm_restored (ids keys : list string) :
  NoDup ids -> NoDup keys -> incl keys ids ->
  Permutation (filter (fun v => negb (mem v keys)) ids ++ [] ++ keys) ids.
Proof.
  intros Hids Hkeys Hincl. cbn [app]. apply NoDup_Permutation; [|exact Hids|].
  - apply NoDup_app; [apply NoDup_filter, Hids|exact Hkeys|].
    intros v Hv Hk. apply filter_In in Hv. destruct Hv as [_ Hv].
    apply negb_true_iff in Hv. apply mem_true_iff in Hk. congruence.
  - intros v. rewrite in_app_iff, filter_In, negb_true_iff. split.
    + intros [[Hv _]|Hk]; [exact Hv|apply Hincl, Hk].
    + intros Hv. destruct (mem v keys) eqn:E; [right; apply mem_true_iff, E|left; auto].
Qed.

(** X18. A restore that returns leaves a frontier that holds each video id
    of the channel once, when the frame of the videos holds no id twice and
    the file of the top-level comments has only ids of the frame as keys,
    each once; the counter is the number of these keys. *)
Theorem restored_frontier_is_partitioned (channel date : string) (s s' : Crawl)
    (o : YtEntityData) :
  restore_obj_from_checkpoint channel date s = (Ok o, s') ->
  exists (ids keys : list string),
    video_ids (self s') = Some ids /\
    collected_video_ids (self s') = Some keys /\
    i (self s') = Some (Z.of_nat (List.length keys)) /\
    o = self s' /\
    (NoDup ids -> NoDup keys -> incl keys ids -> partitioned ids s').
Proof.
  intros H. rewrite restore_obj_from_checkpoint_run in H.
  unfold bind at 1 in H. rewrite handle_collected_comments_cases in H.
  change (self (with_self (restored channel date s) s))
    with (restored channel date s (self s)) in H.
  rewrite restored_df_m, restored_toplevel in H.
  destruct (loaded_proc channel "video" s) as [df|]; [|discriminate].
  cbv zeta in H.
  destruct (py_keys (loaded channel (restore_pattern channel date "toplevel") s))
    as [e|keys]; [discriminate|].
  set (s0 := with_self (restored channel date s) s) in *.
  unfold bind, get, ret in H. apply ok_inv in H. destruct H as [Ho Hs]. subst o s'.
  exists (rev (frame_video_ids df)), keys.
  do 4 (split; [reflexivity|]).
  intros Hids Hkeys Hincl.
  exists (filter (fun v => negb (mem v keys)) (rev (frame_video_ids df))), [], keys.
  do 3 (split; [reflexivity|]). apply perm_restored; assumption.
Qed.

(** ** The files of the comments *)

Lemma merge_new_dict (rs : list (string * DictVal)) :
  forall (keys : list string) (ex : list (string * DictVal)),
    (forall k, In k keys -> mem k (od_keys rs) = true) ->
    exists m,
      merge_new (VDict rs) keys (VDict ex) = inr (VDict m) /\
      forall k, od_get k m =
                match od_get k ex with
                | Some x => Some x
                | None => if mem k keys then od_get k rs else None
                end.
Proof.
  induction keys as [|k0 rest IH]; intros ex Hkeys.
  - exists ex. split; [reflexivity|]. intros k. destruct (od_get k ex); reflexivity.
  - cbn [merge_new py_contains].
    assert (Hrest : forall k, In k rest -> mem k (od_keys rs) = true)
      by (intros k Hk; apply Hkeys; right; exact Hk).
    destruct (mem k0 (od_keys ex)) eqn:Hmem.
    + destruct (IH ex Hrest) as (m & Hm & Hget). exists m. split; [exact Hm|].
      intros k. rewrite Hget. destruct (od_get k ex) as [x|] eqn:Hex; [reflexivity|].
      unfold mem at 2. cbn [existsb]. fold (mem k rest).
      destruct (String.eqb k k0) eqn:E; [|reflexivity].
      apply String.eqb_eq in E. subst k0. rewrite mem_od_keys, Hex in Hmem. discriminate.
    + cbn [py_getitem].
      pose proof (Hkeys k0 (or_introl eq_refl)) as Hin. rewrite mem_od_keys in Hin.
      destruct (od_get k0 rs) as [x|] eqn:Hrs; [|discriminate].
      cbn [py_setitem].
      destruct (IH (od_set k0 x ex) Hrest) as (m & Hm & Hget). exists m.
      split; [exact Hm|]. intros k. rewrite Hget.
      unfold mem at 2. cbn [existsb]. fold (mem k rest).
      destruct (String.eqb k k0) eqn:E.
      * apply String.eqb_eq in E. subst k0. rewrite od_get_set_same.
        rewrite mem_od_keys in Hmem. destruct (od_get k ex); [discriminate|].
        cbn [orb]. symmetry. exact Hrs.
      * rewrite (od_get_set_other _ _ _ _ E). reflexivity.
Qed.

Lemma merge_new_known (rs : PyVal) :
  forall (keys : list string) (ex : list (string * DictVal)),
    (forall k, In k keys -> mem k (od_keys ex) = true) ->
    merge_new rs keys (VDict ex) = inr (VDict ex).
Proof.
  induction keys as [|k0 rest IH]; intros ex Hkeys; [reflexivity|].
  cbn [merge_new py_contains]. rewrite (Hkeys k0 (or_introl eq_refl)).
  apply IH. intros k Hk. apply Hkeys. right. exact Hk.
Qed.

Lemma save_response_comments_dict (rs ex m : list (string * DictVal)) (name folder : string)
    (s : Crawl) :
  existing folder (get_name name "pkl" (today s)) s = VDict ex ->
  merge_new (VDict rs) (od_keys rs) (VDict ex) = inr (VDict m) ->
  save_response_comments (VDict rs) name folder s =
    (Ok tt, written folder (get_name name "pkl" (today s)) (VDict m) s).
Proof.
  intros Hex Hm. unfold existing in Hex.
  unfold save_response_comments, check_comments_file_exists, bind, get.
  destruct (find_file folder (get_name name "pkl" (today s)) (raw s)) as [c|];
    [subst c|injection Hex as <-]; cbn [ret lift_sum py_iter]; rewrite Hm; reflexivity.
Qed.

(** X19. Saving the comments merges them into the file of the day: an id
    that the file holds keeps the entry of the file, whatever was collected
    for it since; an id that the file does not hold gets the entry
    collected.  Saving the same comments once more writes the same content
    again. *)
Theorem saved_comments_keep_the_entries_of_the_file (rs ex : list (string * DictVal))
    (name folder : string) (s : Crawl) :
  existing folder (get_name name "pkl" (today s)) s = VDict ex ->
  exists m,
    let saved := written folder (get_name name "pkl" (today s)) (VDict m) s in
    save_response_comments (VDict rs) name folder s = (Ok tt, saved) /\
    (forall k, od_get k m =
               match od_get k ex with
               | Some x => Some x
               | None => od_get k rs
               end) /\
    save_response_comments (VDict rs) name folder saved =
      (Ok tt, written folder (get_name name "pkl" (today s)) (VDict m) saved).
Proof.
  intros Hex.
  assert (Hkeys : forall k, In k (od_keys rs) -> mem k (od_keys rs) = true)
    by (intros k Hk; apply mem_true_iff, Hk).
  destruct (merge_new_dict rs (od_keys rs) ex Hkeys) as (m & Hm & Hget).
  assert (Hlaw : forall k, od_get k m =
                           match od_get k ex with
                           | Some x => Some x
                           | None => od_get k rs
                           end).
  { intros k. rewrite Hget. destruct (od_get k ex); [reflexivity|].
    rewrite mem_od_keys. destruct (od_get k rs); reflexivity. }
  exists m. cbv zeta. split; [apply (save_response_comments_dict rs ex m); assumption|].
  split; [exact Hlaw|].
  apply (save_response_comments_dict rs m m name folder
           (written folder (get_name name "pkl" (today s)) (VDict m) s)).
  - unfold existing. cbn [raw written today]. rewrite find_file_write_same. reflexivity.
  - apply merge_new_known. intros k Hk. apply mem_true_iff in Hk.
    rewrite mem_od_keys in Hk. rewrite mem_od_keys, Hlaw.
    destruct (od_get k ex); [reflexivity|]. exact Hk.
Qed.

(** ** The files of a checkpoint *)

Lemma dated_ok {C} (files : list (File C)) :
  forall l, dated files = inr l ->
            map snd l = files /\
            forall p, In p l -> file_date (file_name (snd p)) = Some (fst p).
Proof.
  induction files as [|f files IH]; intros l H.
  - inversion H; subst. split; [reflexivity|]. intros p [].
  - cbn [dated] in H. destruct (file_date (file_name f)) as [ts|] eqn:Hts; [|discriminate].
    destruct (dated files) as [e|l'] eqn:Hrest; [discriminate|].
    inversion H; subst. destruct (IH _ eq_refl) as [Hmap Hall].
    split; [cbn; rewrite Hmap; reflexivity|].
    intros p [<-|Hp]; [exact Hts|apply Hall, Hp].
Qed.

Lemma dated_undated {C} (files : list (File C)) (h : File C) :
  In h files -> file_date (file_name h) = None ->
  dated files = inl (AssertionError "No match").
Proof.
  intros Hin Hnone. induction files as [|f files IH]; [destruct Hin|].
  cbn [dated]. destruct Hin as [->|Hin]; [rewrite Hnone; reflexivity|].
  destruct (file_date (file_name f)); [|reflexivity]. rewrite (IH Hin). reflexivity.
Qed.

Lemma latest_max {C} (rest : list (Z * File C)) :
  forall best : Z * File C,
    exists ts, In (ts, latest best rest) (best :: rest) /\
               forall p, In p (best :: rest) -> (fst p <= ts)%Z.
Proof.
  induction rest as [|[ts f] rest IH]; intros [tb fb].
  - exists tb. split; [left; reflexivity|]. intros p [<-|[]]. cbn. lia.
  - cbn [latest fst]. destruct (tb <? ts)%Z eqn:E.
    + destruct (IH (ts, f)) as (t & Hin & Hmax). exists t.
      split; [right; exact Hin|].
      intros p [<-|Hp]; [|apply Hmax, Hp].
      pose proof (Hmax (ts, f) (or_introl eq_refl)). apply Z.ltb_lt in E.
      cbn [fst] in *. lia.
    + destruct (IH (tb, fb)) as (t & Hin & Hmax). exists t. split.
      * destruct Hin as [Hin|Hin]; [left; exact Hin|right; right; exact Hin].
      * intros p [<-|[<-|Hp]].
        -- apply (Hmax (tb, fb)). left. reflexivity.
        -- pose proof (Hmax (tb, fb) (or_introl eq_refl)). apply Z.ltb_ge in E.
           cbn [fst] in *. lia.
        -- apply Hmax. right. exact Hp.
Qed.

(** X20. The file that [get_file] returns is a file of the folder whose
    name matches the pattern; when several files match, every one of them
    carries a date and none is dated later than the file returned. *)
Theorem get_file_returns_the_latest {C} (folder name : string) (fs : list (File C))
    (f : File C) :
  get_file folder name fs = inr f ->
  let found := glob folder ("*" ++ name ++ "*") fs in
  In f fs /\ file_folder f = folder /\
  glob_match ("*" ++ name ++ "*") (file_name f) = true /\
  (found = [f] \/
   exists ts, file_date (file_name f) = Some ts /\
              forall g, In g found ->
                        exists tg, file_date (file_name g) = Some tg /\ (tg <= ts)%Z).
Proof.
  intros H. cbv zeta. unfold get_file in H.
  assert (Hfound : In f (glob folder ("*" ++ name ++ "*") fs) /\
                   (glob folder ("*" ++ name ++ "*") fs = [f] \/
                    exists ts, file_date (file_name f) = Some ts /\
                      forall g, In g (glob folder ("*" ++ name ++ "*") fs) ->
                        exists tg, file_date (file_name g) = Some tg /\ (tg <= ts)%Z)).
  { destruct (glob folder ("*" ++ name ++ "*") fs) as [|f1 [|f2 files]] eqn:Hglob.
    - discriminate.
    - inversion H; subst. split; [left; reflexivity|left; reflexivity].
    - unfold select_latest_file in H.
      destruct (dated (f1 :: f2 :: files)) as [e|[|first rest]] eqn:Hd; try discriminate.
      inversion H; subst f. destruct (dated_ok _ _ Hd) as [Hmap Hall].
      destruct (latest_max rest first) as (ts & Hin & Hmax).
      split.
      + rewrite <- Hmap. apply (in_map snd) in Hin. exact Hin.
      + right. exists ts. split; [apply (Hall _ Hin)|].
        intros g Hg. rewrite <- Hmap in Hg. apply in_map_iff in Hg.
        destruct Hg as (p & <- & Hp). exists (fst p).
        split; [apply Hall, Hp|apply Hmax, Hp]. }
  destruct Hfound as [Hin Hmax]. unfold glob in Hin. apply filter_In in Hin.
  destruct Hin as [Hfs Hmatch]. apply andb_true_iff in Hmatch.
  destruct Hmatch as [Hfolder Hmatch]. apply String.eqb_eq in Hfolder.
  split; [exact Hfs|]. split; [symmetry; exact Hfolder|]. split; [exact Hmatch|].
  exact Hmax.
Qed.

(** X21. When several files of the folder match the name and one of them
    carries no date, [read_file] returns [None] as if no file matched: the
    frame is ignored without an error.  The names of the frames are matched
    without a date, so that any file of the folder that has the name in its
    name takes part. *)
Theorem undated_match_hides_the_checkpoint (folder name : string) (s : Crawl)
    (f g h : File DataFrame) (rest : list (File DataFrame)) :
  glob folder ("*" ++ name ++ "*") (proc s) = f :: g :: rest ->
  In h (f :: g :: rest) ->
  file_date (file_name h) = None ->
  read_file_proc folder name s = (Ok None, s).
Proof.
  intros Hglob Hin Hnone. unfold read_file_proc, bind, get, get_file. rewrite Hglob.
  unfold select_latest_file. rewrite (dated_undated _ _ Hin Hnone). reflexivity.
Qed.

(** ** The loop over the channels *)

Lemma collect_data_channel_no_playlist (fuel : nat) (channel channel_id : string)
    (s : Crawl) (response : ChannelResponse) (a : Api) :
  od_get channel (channels (self s)) = Some channel_id ->
  execute_channels channel_id (api (net s)) = (inl response, a) ->
  get_upload_playlist_id response = inl KeyError ->
  collect_data_channel fuel channel s =
    (Ok tt, printed (MsgNoPlaylist channel) (searched channel_id response a s)).
Proof.
  intros Hch Hex Hkey. unfold collect_data_channel.
  unfold bind at 1. unfold try_except. unfold bind at 1.
  rewrite (collect_upload_playlist_no_playlist fuel _ _ _ _ _ Hch Hex Hkey).
  reflexivity.
Qed.

Lemma collect_data_channels_loop_no_playlist (fuel : nat)
    (cs : list (string * string)) :
  (forall channel_id a, exists response a',
      execute_channels channel_id a = (inl response, a') /\
      get_upload_playlist_id response = inl KeyError) ->
  forall (chans : list string) (s : Crawl),
    channels (self s) = cs ->
    (forall c, In c chans -> od_get c cs <> None) ->
    exists (s' : Crawl) (ids : list string),
      collect_data_channels_loop fuel chans s = (Ok tt, s') /\
      Forall2 (fun c id => od_get c cs = Some id) chans ids /\
      requests (net s') = requests (net s) ++ map ChannelsList ids /\
      slept (net s') = slept (net s) /\
      raw s' = raw s /\ proc s' = proc s /\ frontier s' = frontier s /\
      without_playlist (stdout s') = without_playlist (stdout s) ++ chans.
Proof.
  intros Hapi. induction chans as [|c chans IH]; intros s Hcs Hin.
  - exists s, []. split; [reflexivity|]. split; [constructor|].
    cbn [map]. rewrite !app_nil_r. repeat split.
  - destruct (od_get c cs) as [id|] eqn:Hid;
      [|exfalso; apply (Hin c); [left; reflexivity|exact Hid]].
    set (s1 := printed (MsgCollecting c) (printed MsgRule s)).
    destruct (Hapi id (api (net s1))) as (response & a' & Hex & Hkey).
    assert (Hch : od_get c (channels (self s1)) = Some id) by (cbn; rewrite Hcs; exact Hid).
    pose proof (collect_data_channel_no_playlist fuel c id s1 response a' Hch Hex Hkey)
      as Hone.
    set (s2 := printed MsgRule (printed MsgDone
                 (printed (MsgNoPlaylist c) (searched id response a' s1)))).
    destruct (IH s2) as (s' & ids & Hrun & Hids & Hreq & Hsl & Hraw & Hproc & Hfr & Hout).
    + cbn. exact Hcs.
    + intros c' Hc'. apply Hin. right. exact Hc'.
    + exists s', (id :: ids). split.
      * cbn [collect_data_channels_loop].
        unfold bind at 1. unfold print at 1. unfold modify at 1.
        unfold bind at 1. unfold print at 1. unfold modify at 1.
        unfold bind at 1. fold s1. rewrite Hone. exact Hrun.
      * split; [constructor; assumption|].
        split; [rewrite Hreq; cbn; rewrite <- app_assoc; reflexivity|].
        split; [rewrite Hsl; reflexivity|].
        split; [rewrite Hraw; reflexivity|]. split; [rewrite Hproc; reflexivity|].
        split; [rewrite Hfr; reflexivity|].
        rewrite Hout. unfold without_playlist, s2, s1, printed.
        cbn [stdout searched with_self with_net].
        rewrite !flat_map_app. cbn [flat_map app]. rewrite !app_nil_r, <- app_assoc.
        reflexivity.
Qed.

(** X22. When no channel of the object has an upload playlist, the run over
    the channels returns: every channel is looked up once, in the order of
    the dictionary, every channel is reported as lacking a playlist, and
    nothing is paused for, written or queued. *)
Theorem channels_without_playlist_are_all_skipped (fuel : nat) (s : Crawl) :
  (forall channel_id a, exists response a',
      execute_channels channel_id a = (inl response, a') /\
      get_upload_playlist_id response = inl KeyError) ->
  exists (s' : Crawl) (ids : list string),
    collect_data_channels fuel s = (Ok tt, s') /\
    Forall2 (fun c id => od_get c (channels (self s)) = Some id)
            (od_keys (channels (self s))) ids /\
    requests (net s') = requests (net s) ++ map ChannelsList ids /\
    slept (net s') = slept (net s) /\
    raw s' = raw s /\ proc s' = proc s /\ frontier s' = frontier s /\
    without_playlist (stdout s') =
      without_playlist (stdout s) ++ od_keys (channels (self s)).
Proof.
  intros Hapi. unfold collect_data_channels, bind, get.
  apply (collect_data_channels_loop_no_playlist fuel (channels (self s)) Hapi);
    [reflexivity|].
  intros c Hc. apply mem_true_iff in Hc. rewrite mem_od_keys in Hc.
  destruct (od_get c (channels (self s))); [discriminate|discriminate].
Qed.

(** X23. A channel whose lookup returns an empty list of items is not
    skipped: the missing first item raises [IndexError], which the handler
    for channels without a playlist does not catch, and the channels after
    it are not visited. *)
Theorem channel_with_empty_items_aborts (fuel : nat) (channel channel_id : string)
    (rest : list string) (s : Crawl) (response : ChannelResponse) (a : Api) :
  od_get channel (channels (self s)) = Some channel_id ->
  execute_channels channel_id (api (net s)) = (inl response, a) ->
  channel_items response = Some [] ->
  collect_data_channel fuel channel s =
    (Raise IndexError, searched channel_id response a s) /\
  exists s',
    collect_data_channels_loop fuel (channel :: rest) s = (Raise IndexError, s') /\
    requests (net s') = requests (net s) ++ [ChannelsList channel_id].
Proof.
  intros Hch Hex Hitems.
  assert (Hid : get_upload_playlist_id response = inl IndexError)
    by (unfold get_upload_playlist_id; rewrite Hitems; reflexivity).
  assert (Hone : forall s0,
            od_get channel (channels (self s0)) = Some channel_id ->
            execute_channels channel_id (api (net s0)) = (inl response, a) ->
            collect_data_channel fuel channel s0 =
              (Raise IndexError, searched channel_id response a s0)).
  { intros s0 Hch0 Hex0. unfold collect_data_channel. apply bind_raise.
    unfold try_except. unfold bind at 1.
    unfold collect_upload_playlist, RETRY_TIMES.
    rewrite (error_api_method_other 9 _ s0 (searched channel_id response a s0) IndexError);
      [reflexivity| |intros e; discriminate].
    unfold collect_upload_playlist_body.
    unfold bind at 1. unfold get at 1. unfold bind at 1. rewrite Hch0. cbn [attr ret].
    unfold bind at 1. unfold lift at 1. unfold search_channel_id. rewrite Hex0.
    unfold bind at 1. unfold self_set, modify.
    unfold bind at 1. rewrite Hid. reflexivity. }
  split; [apply Hone; assumption|].
  eexists. split.
  - cbn [collect_data_channels_loop].
    unfold bind at 1. unfold print at 1. unfold modify at 1.
    unfold bind at 1. unfold print at 1. unfold modify at 1.
    unfold bind at 1.
    rewrite (Hone (printed (MsgCollecting channel) (printed MsgRule s)) Hch Hex).
    reflexivity.
  - reflexivity.
Qed.

(** ** The comments of a video *)

Lemma lift_self {A} (c : M Net A) (s s1 : Crawl) (r : Res A) :
  lift c s = (r, s1) -> exists n, c (net s) = (r, n) /\ s1 = with_net n s.
Proof.
  unfold lift. intros H. destruct (c (net s)) as [r0 n]. inversion H; subst.
  exists n. auto.
Qed.

Lemma collect_toplevel_comments_ok (fuel : nat) (v : string) (s s' : Crawl)
    (d_top : list (string * DictVal)) :
  responses_toplevel (self s) = VDict d_top ->
  collect_toplevel_comments fuel v s = (Ok tt, s') ->
  exists threads n,
    query_all_items fuel v comments_pager (net s) = (Ok threads, n) /\
    s' = with_self (set_responses_toplevel
                      (VDict (od_set v (DRows (get_multiple_comment_thread_data threads))
                                     d_top)))
           (with_self (set_comment_threads (Some threads)) (with_net n s)).
Proof.
  intros Htop H. unfold collect_toplevel_comments in H. unfold bind at 1 in H.
  destruct (lift (query_all_items fuel v comments_pager) s) as [[threads| |] s1] eqn:Hq;
    try discriminate.
  apply lift_self in Hq. destruct Hq as (n & Hq & ->).
  unfold bind at 1, self_set at 1, modify at 1 in H.
  unfold bind at 1, get at 1 in H.
  change (responses_toplevel
            (self (with_self (set_comment_threads (Some threads)) (with_net n s))))
    with (responses_toplevel (self s)) in H.
  rewrite Htop in H. cbn [py_setitem lift_sum] in H.
  unfold bind at 1, ret at 1, self_set, modify in H.
  apply ok_inv in H. destruct H as [_ <-].
  exists threads, n. split; [exact Hq|reflexivity].
Qed.

(** X24. When the comments of a video are collected, the rows of its
    threads are entered under the id of the video in the top-level
    comments, also when there is none; the replies get an entry for the
    video only when there is a row.  A video without comments sends no
    request for replies. *)
Theorem comments_of_a_video_are_entered (fuel : nat) (v : string) (s s' : Crawl)
    (d_top d_rep : list (string * DictVal)) :
  responses_toplevel (self s) = VDict d_top ->
  responses_replies (self s) = VDict d_rep ->
  collect_comments_video fuel v s = (Ok tt, s') ->
  exists (threads : list Response) (n : Net),
    query_all_items fuel v comments_pager (net s) = (Ok threads, n) /\
    comment_threads (self s') = Some threads /\
    responses_toplevel (self s') =
      VDict (od_set v (DRows (get_multiple_comment_thread_data threads)) d_top) /\
    (get_multiple_comment_thread_data threads = [] ->
     responses_replies (self s') = VDict d_rep /\ net s' = n) /\
    (get_multiple_comment_thread_data threads <> [] ->
     exists rows, responses_replies (self s') = VDict (od_set v (DRows rows) d_rep)).
Proof.
  intros Htop Hrep H. unfold collect_comments_video in H. inv_bind H.
  destruct (collect_toplevel_comments_ok _ _ _ _ _ Htop E) as (threads & n & Hq & ->).
  exists threads, n. split; [exact Hq|].
  set (rows := get_multiple_comment_thread_data threads) in *.
  unfold collect_comment_replies in H. unfold bind at 1, get at 1 in H.
  cbn [self with_self set_responses_toplevel responses_toplevel py_getitem] in H.
  rewrite od_get_set_same in H. cbn [lift_sum] in H. unfold bind at 1, ret at 1 in H.
  destruct rows as [|row rows'] eqn:Hrows.
  - cbn [truthy] in H. unfold ret in H. apply ok_inv in H. destruct H as [_ <-].
    split; [reflexivity|]. split; [reflexivity|]. split.
    + intros _. split; [exact Hrep|reflexivity].
    + intros Hne. contradiction.
  - cbn [truthy as_data_thread lift_sum] in H. unfold bind at 1, ret at 1 in H.
    unfold bind at 1 in H.
    match type of H with
    | context [lift ?c ?st] => destruct (lift c st) as [[tr| |] s2] eqn:Hr; try discriminate
    end.
    apply lift_self in Hr. destruct Hr as (n2 & Hr & ->).
    unfold bind at 1, self_set at 1, modify at 1 in H. unfold bind at 1 in H.
    destruct (get_comment_reply_data tr) as [ex|reply_rows_found]; [discriminate|].
    cbn [lift_sum] in H. unfold ret at 1 in H. unfold bind at 1, get at 1 in H.
    cbn [self with_self with_net set_comment_thread_responses set_responses_toplevel
         set_comment_threads responses_replies] in H.
    rewrite Hrep in H. cbn [py_setitem lift_sum] in H.
    unfold bind at 1, ret at 1, self_set, modify in H.
    apply ok_inv in H. destruct H as [_ <-].
    split; [reflexivity|]. split; [reflexivity|]. split.
    + intros Hnil. discriminate.
    + intros _. exists reply_rows_found. reflexivity.
Qed.

End CrawlFacts.

(** * The theorems at work on the scripted collaborators *)

Lemma outcome {A S} (x : Res A * S) (r : Res A) : fst x = r -> x = (r, snd x).
Proof. destruct x. cbn. intros ->. reflexivity. Qed.

(** After two pages the quota is exhausted: the file holds the two pages. *)
Lemma quota_checkpoint_then_resume_witness :
  let w0 := new_net quota_api 0 in
  let w1 := snd (@query_all_items quota_api 5 "v1" (pager_of CommentThreadsList) w0) in
  exists fetched count,
    checkpoint "v1" w1 =
      Some (VPager (mkPager (responses (start_of "v1" w0) ++ fetched)
                            (last_token (responses (start_of "v1" w0) ++ fetched))
                            false count)) /\
    requests w1 =
      requests w0 ++
      map (CommentThreadsList "v1")
          (next_page_token (start_of "v1" w0) :: map nextPageToken fetched).
Proof.
  cbv zeta.
  destruct (@quota_checkpoint_then_resume quota_api CommentThreadsList "v1" 5
              (new_net quota_api 0)
              (snd (@query_all_items quota_api 5 "v1" (pager_of CommentThreadsList)
                      (new_net quota_api 0)))
              (http_error "quotaExceeded"))
    as (fetched & count & Hcp & Hreq & _).
  - intros pd H. vm_compute in H. discriminate H.
  - apply outcome. vm_compute. reflexivity.
  - reflexivity.
  - exists fetched, count. split; [exact Hcp|exact Hreq].
Defined.

(** A second call after a completed one returns the same two pages, even
    without fuel for a single request. *)
Lemma completed_collection_is_replayed_witness :
  let w0 := new_net two_pages_api 0 in
  let pages := [page_of "c1" (Some "t1"); page_of "c2" None] in
  let w1 := snd (@query_all_items two_pages_api 5 "v1" (pager_of CommentThreadsList) w0) in
  fst (@query_all_items two_pages_api 5 "v1" (pager_of CommentThreadsList) w0) = Ok pages /\
  @query_all_items two_pages_api 0 "v1" (pager_of CommentThreadsList) w1 = (Ok pages, w1).
Proof.
  cbv zeta. split; [vm_compute; reflexivity|].
  destruct (@completed_collection_is_replayed two_pages_api CommentThreadsList "v1" 5
              (new_net two_pages_api 0)
              (snd (@query_all_items two_pages_api 5 "v1" (pager_of CommentThreadsList)
                      (new_net two_pages_api 0)))
              [page_of "c1" (Some "t1"); page_of "c2" None])
    as (token & count & Hcp & Hagain).
  - apply outcome. vm_compute. reflexivity.
  - apply Hagain. exact Hcp.
Defined.

(** A run over 123 videos without comments. *)
Lemma flush_cadence_123_witness :
  let s' := snd (collect_comments_body 200 "c" crawl_123) in
  flush_counts (stdout s') = [Some 0; Some 50; Some 100; Some 123]%Z /\
  exists w1 w2 w3 w4,
    writes_to "c" (toplevel_file "c" "2022-05-01") (pickled s') = [w1; w2; w3; w4] /\
    grows w1 w2 /\ grows w2 w3 /\ grows w3 w4.
Proof.
  cbv zeta.
  apply (@flush_cadence_123 quiet_api 200 "c" crawl_123
           (snd (collect_comments_body 200 "c" crawl_123)) (numbered 123)).
  - reflexivity.
  - vm_compute. reflexivity.
  - reflexivity.
  - reflexivity.
  - reflexivity.
  - apply outcome. vm_compute. reflexivity.
Defined.

(** The same run flushes four times, not three: the first flush is the
    one of the first video, when the counter is still 0. *)
Lemma three_flushes_counterexample :
  let run := collect_comments 200 "c" crawl_123 in
  fst run = Ok (Some tt) /\
  videos_ids_to_collect (self (snd run)) = Some [] /\
  flush_counts (stdout (snd run)) = [Some 0; Some 50; Some 100; Some 123]%Z /\
  List.length (flush_counts (stdout (snd run))) <> 3.
Proof.
  vm_compute. split; [reflexivity|]. split; [reflexivity|]. split; [reflexivity|].
  discriminate.
Qed.

(** A request that fails ten times with [backendError]. *)
Lemma retries_end_without_error_witness :
  let s0 := crawl_of backend_api 0 (entity [] ["v1"]) [] [] in
  exists s',
    error_api_method RETRY_TIMES (lift (execute (VideosList ["v1"]))) s0 = (Ok None, s') /\
    slept (net s') = repeat 5000%Z 10.
Proof.
  cbv zeta.
  destruct (@retries_end_without_error backend_api Response RETRY_TIMES
              (lift (execute (VideosList ["v1"]))) (http_error "backendError")
              (@ready backend_api))
    with (s := crawl_of backend_api 0 (entity [] ["v1"]) [] [])
    as (s' & Hrun & _ & Hslept).
  - vm_compute. reflexivity.
  - intros s Hs. exact Hs.
  - intros s Hs. eexists. split; [reflexivity|]. split; [exact Hs|reflexivity].
  - intros s s' Hs Hh.
    destruct (@handle_http_error_retryable backend_api (http_error "backendError") s)
      as (s'' & Hh' & Hr & _); [vm_compute; reflexivity|exact Hs|].
    rewrite Hh in Hh'. injection Hh' as <-. exact Hr.
  - exists []. split; [reflexivity|]. intros H. contradiction.
  - exists s'. split; [exact Hrun|exact Hslept].
Defined.

(** The method [collect_videos] under the same failure, on an object whose
    buffer is the empty list that an earlier channel left: ten requests, ten
    pauses, and a normal return; no exception reaches the caller. *)
Lemma silent_give_up_counterexample :
  let s0 := crawl_of backend_api 0 (set_vid_ids (Some ["v1"]) (entity [] ["v1"])) [] [] in
  let run := collect_videos "c" s0 in
  fst run = Ok None /\
  (forall ex, fst run <> Raise ex) /\
  List.length (requests (net (snd run))) = 10 /\
  slept (net (snd run)) = repeat 5000%Z 10.
Proof.
  vm_compute. split; [reflexivity|]. split; [intros ex H; discriminate H|].
  split; reflexivity.
Qed.

(** The video [v3] comes back to the end of the list on a [forbidden] error. *)
Lemma requeue_before_error_propagates_witness :
  exists res s',
    handle_http_error (http_error "forbidden") crawl_in_flight = (res, s') /\
    videos_ids_to_collect (self s') = Some ["v1"; "v2"; "v3"] /\
    temp_id_storage (self s') = Some [] /\
    (exists s'', get_video_id_to_collect s' = (Ok "v3", s'')) /\
    exists msg, res = Raise (AssertionError msg).
Proof.
  destruct (@requeue_before_error_propagates quiet_api (http_error "forbidden")
              crawl_in_flight ["v1"; "v2"] [] "v3" eq_refl eq_refl)
    as (res & s' & Hrun & Hp & Hb & _ & Hnext & Hfatal).
  exists res, s'. split; [exact Hrun|]. split; [exact Hp|]. split; [exact Hb|].
  split; [exact Hnext|]. apply (Hfatal "forbidden"); reflexivity.
Defined.

(** The scenario of the specification: the ids are taken in the order
    [v3], [v2], [v1]; the collection of [v3] is refused; the run stops and
    the list of ids to collect is what it was. *)
Lemma requeue_scenario :
  let s0 := crawl_of forbidden_api 0 (entity [] ["v1"; "v2"; "v3"]) [] [] in
  let run := collect_comments 20 "c" s0 in
  fst run = Raise (AssertionError "API key `key` is suspended. ") /\
  frontier (snd run) = frontier s0 /\
  stdout (snd run) = [MsgPutBack "v3"].
Proof. vm_compute. repeat split. Qed.

(** The take of an id keeps the partition. *)
Lemma frontier_partition_preserved_witness :
  let s0 := crawl_of quiet_api 0 (entity [] ["v1"; "v2"]) [] [] in
  partitioned ["v1"; "v2"] (snd (get_video_id_to_collect s0)).
Proof.
  cbv zeta.
  destruct (@frontier_partition_preserved quiet_api ["v1"; "v2"]
              (crawl_of quiet_api 0 (entity [] ["v1"; "v2"]) [] []))
    as (_ & Htake & _).
  - repeat constructor; cbn; intuition discriminate.
  - exists ["v1"; "v2"], [], []. repeat split. apply Permutation_refl.
  - eapply Htake. apply surjective_pairing.
Defined.

(** A video with disabled comments ends both in the list of collected ids
    and in the list of videos with disabled comments. *)
Lemma disabled_and_collected_counterexample :
  let s0 := crawl_of disabled_api 0 (entity [] ["v1"; "v2"]) [] [] in
  let run := collect_comments 20 "c" s0 in
  fst run = Ok (Some tt) /\
  collected_video_ids (self (snd run)) = Some ["v2"; "v1"] /\
  videos_with_comments_disabled (self (snd run)) = VList [EId "v2"] /\
  ~ (forall v collected disabled,
        collected_video_ids (self (snd run)) = Some collected ->
        videos_with_comments_disabled (self (snd run)) = VList disabled ->
        In v collected -> ~ In (EId v) disabled).
Proof.
  vm_compute. split; [reflexivity|]. split; [reflexivity|]. split; [reflexivity|].
  intros H. apply (H "v2" ["v2"; "v1"] [EId "v2"] eq_refl eq_refl); left; reflexivity.
Qed.

(** The comments of [v2] are disabled: the loop goes on with [v1]. *)
Lemma disabled_comments_skip_item_witness :
  let s0 := crawl_of disabled_api 0 (entity [] ["v1"; "v2"]) [] [] in
  let s2 := snd (collect_comments_video 5 "v2" (taken ["v1"] [] "v2" s0)) in
  let s3 := with_self (set_videos_with_comments_disabled (VList [EId "v2"])) s2 in
  safe_collect_comments_video 5 "v2" (taken ["v1"] [] "v2" s0) = (Ok tt, s3) /\
  videos_ids_to_collect (self s3) = Some ["v1"] /\
  collect_comments_loop 3 5 "c" s0 =
    (bookkeeping_comments "c" "v2" ;; collect_comments_loop 2 5 "c") s3.
Proof.
  cbv zeta.
  destruct (@disabled_comments_skip_item disabled_api 2 5 "c"
              (crawl_of disabled_api 0 (entity [] ["v1"; "v2"]) [] [])
              (snd (collect_comments_video 5 "v2"
                      (taken ["v1"] [] "v2"
                         (crawl_of disabled_api 0 (entity [] ["v1"; "v2"]) [] []))))
              ["v1"] [] "v2" (http_error "commentsDisabled") [])
    as (Hsafe & Hp & _ & _ & Hloop & _).
  - reflexivity.
  - reflexivity.
  - reflexivity.
  - apply outcome. vm_compute. reflexivity.
  - reflexivity.
  - split; [exact Hsafe|]. split; [exact Hp|exact Hloop].
Defined.

(** The restore of a channel of three videos, one of them collected. *)
Lemma restore_rebuilds_frontier_witness :
  exists s',
    restore_obj_from_checkpoint "chan" "2022-05-01" crawl_to_restore = (Ok (self s'), s') /\
    collected_video_ids (self s') = Some ["v3"] /\
    videos_ids_to_collect (self s') = Some ["v1"; "v2"] /\
    temp_id_storage (self s') = Some [].
Proof.
  destruct (@restore_rebuilds_frontier quiet_api "chan" "2022-05-01" crawl_to_restore
              (mkFile "chan" "chan-toplevelcomments-2022-05-01.pkl"
                      (VDict [("v3", DRows [])]))
              (mkFile "chan" "chan-video-playlist-2022-05-01.gzip.parquet"
                      (mkFrame ["v3"; "v2"; "v1"]))
              [("v3", DRows [])])
    as (s' & Hrun & _ & Hc & Hp & Hb & _).
  - vm_compute. reflexivity.
  - reflexivity.
  - vm_compute. reflexivity.
  - exists s'. split; [exact Hrun|]. split; [exact Hc|]. split; [exact Hp|exact Hb].
Defined.

(** The channel [a] has no upload playlist: the loop goes on with [b]. *)
Lemma channel_without_playlist_is_skipped_witness :
  collect_data_channel 5 "a" crawl_two_channels =
    (Ok tt,
     printed (MsgNoPlaylist "a")
       (@searched quiet_api "UCa" (mkChannelResponse None) 1 crawl_two_channels)) /\
  collect_data_channels_loop 5 ["a"; "b"] crawl_two_channels =
    collect_data_channels_loop 5 ["b"]
      (printed MsgRule
         (printed MsgDone
            (printed (MsgNoPlaylist "a")
               (@searched quiet_api "UCa" (mkChannelResponse None) 1
                  (printed (MsgCollecting "a") (printed MsgRule crawl_two_channels)))))).
Proof.
  apply (@channel_without_playlist_is_skipped quiet_api 5 "a" "UCa" ["b"]
           crawl_two_channels (mkChannelResponse None) 1); reflexivity.
Defined.

(** A restore in a folder without files. *)
Lemma restore_needs_checkpoint_files_witness :
  exists s',
    restore_obj_from_checkpoint "a" "2022-05-01" crawl_two_channels =
      (Raise AttributeError, s') /\
    responses_toplevel (self s') = VNone /\
    collected_video_ids (self s') = None.
Proof.
  destruct (proj1 (@restore_needs_checkpoint_files quiet_api "a" "2022-05-01"
                     crawl_two_channels) eq_refl)
    as (s' & Hrun & Htop & Hc & _).
  exists s'. split; [exact Hrun|]. split; [exact Htop|exact Hc].
Defined.


(** * The further properties at work on the scripted collaborators *)

(** Two pages are fetched on a fresh start. *)
Lemma fresh_collection_follows_tokens_witness :
  let w0 := new_net two_pages_api 0 in
  let rs := [page_of "c1" (Some "t1"); page_of "c2" None] in
  let w1 := snd (@query_all_items two_pages_api 5 "v1" (pager_of CommentThreadsList) w0) in
  exists pages last_page stored,
    rs = pages ++ [last_page] /\
    Forall (fun p => nextPageToken p <> None) pages /\
    nextPageToken last_page = None /\
    requests w1 =
      requests w0 ++ map (CommentThreadsList "v1") (None :: map nextPageToken pages) /\
    checkpoint "v1" w1 = Some (VPager stored) /\
    responses stored = rs /\
    all_items_collected stored = true /\
    num_requests stored = Z.of_nat (List.length rs).
Proof.
  cbv zeta.
  apply (@fresh_collection_follows_tokens two_pages_api CommentThreadsList "v1" 5
           (new_net two_pages_api 0)).
  - reflexivity.
  - apply outcome. vm_compute. reflexivity.
Defined.

(** The backend fails after one page: two requests were sent, and the
    folder is empty as before. *)
Lemma fetch_error_without_quota_writes_nothing_witness :
  let w0 := new_net backend_after_page_api 0 in
  let w1 := snd (@query_all_items backend_after_page_api 5 "v1"
                   (pager_of CommentThreadsList) w0) in
  List.length (requests w1) = 2 /\ tmp w1 = tmp w0.
Proof.
  cbv zeta. split; [vm_compute; reflexivity|].
  apply (@fetch_error_without_quota_writes_nothing backend_after_page_api
           CommentThreadsList "v1" 5 (new_net backend_after_page_api 0) _
           (http_error "backendError")).
  - apply outcome. vm_compute. reflexivity.
  - reflexivity.
Defined.

(** The query stops after the second page and drops its old item. *)
Lemma uploads_stop_at_cutoff_witness :
  let w0 := new_net uploads_api 0 in
  let w1 := snd (@query_uploads_date uploads_api 5 "PL" 60 w0) in
  let rs := [uploads_page_1; mkResponse [mkItem "p3" "v3" 50 0 "c"] (Some "t2")] in
  exists pages last_page,
    rs = pages ++ [mkResponse (@filter_last_items uploads_api (items last_page) 60)
                              (nextPageToken last_page)] /\
    Forall (fun p => nextPageToken p <> None /\ items p <> [] /\
                     @ends_before uploads_api 60 p = false)
           pages /\
    (nextPageToken last_page = None \/ @ends_before uploads_api 60 last_page = true) /\
    requests w1 =
      requests w0 ++ map (PlaylistItemsList "PL") (None :: map nextPageToken pages) /\
    slept w1 = slept w0 ++ repeat 500%Z (pauses pages last_page).
Proof.
  cbv zeta.
  apply (@uploads_stop_at_cutoff uploads_api 5 "PL" 60 (new_net uploads_api 0)).
  apply outcome. vm_compute. reflexivity.
Defined.

Lemma uploads_page_without_items_witness :
  @query_uploads_date tokened_empty_page_api 1 "PL" 60 (new_net tokened_empty_page_api 0) =
    (Raise IndexError,
     @mkNet tokened_empty_page_api 1 [] [PlaylistItemsList "PL" None] []).
Proof.
  apply (@uploads_page_without_items tokened_empty_page_api 0 "PL" 60
           (new_net tokened_empty_page_api 0) "t1" 1).
  reflexivity.
Defined.

(** A list of 120 ids is queried in three chunks. *)
Lemma videos_queried_in_chunks_witness :
  let w0 := new_net quiet_api 0 in
  let w1 := snd (@query_videos_list quiet_api (numbered 120) w0) in
  exists chunks : list (list string),
    chunked chunks (numbered 120) /\
    requests w1 = requests w0 ++ map VideosList chunks /\
    List.length [no_items; no_items; no_items] = List.length chunks /\
    List.length chunks = (List.length (numbered 120) + 49) / 50.
Proof.
  cbv zeta.
  apply (@videos_queried_in_chunks quiet_api (numbered 120) (new_net quiet_api 0)).
  apply outcome. vm_compute. reflexivity.
Defined.

(** Of three threads, the two that have replies get an entry. *)
Lemma replies_cover_threads_witness :
  exists d',
    VDict [("t1", DResps [no_items]); ("t3", DResps [no_items])] = VDict d' /\
    extends [] d' /\
    forall row, In row two_threads -> (0 < row_total_reply_count row)%Z ->
                mem (row_thread_id row) (od_keys d') = true.
Proof.
  apply (@replies_cover_threads quiet_api 5 "v1" (@replies_pager quiet_api) two_threads []
           (new_net quiet_api 0)
           (snd (@get_replies_comment_thread quiet_api 5 "v1" two_threads
                   (@replies_pager quiet_api) (new_net quiet_api 0)))).
  - reflexivity.
  - apply outcome. vm_compute. reflexivity.
Defined.

Lemma replies_skip_collected_threads_witness :
  @get_replies_comment_thread quiet_api 5 "v1" two_threads (@replies_pager quiet_api)
    net_with_replies =
  (Ok (VDict [("t1", DResps [no_items]); ("t3", DResps [])]), net_with_replies).
Proof.
  apply (@replies_skip_collected_threads quiet_api 5 "v1" (@replies_pager quiet_api)
           two_threads [("t1", DResps [no_items]); ("t3", DResps [])] net_with_replies).
  - reflexivity.
  - intros row [<-|[<-|[<-|[]]]] H; first [reflexivity|discriminate H].
Defined.

(** The quota runs out at the second thread: the checkpoint holds the
    first one. *)
Lemma replies_quota_checkpoint_witness :
  let w1 := snd (@get_replies_comment_thread quota_after_one_api 5 "v1" two_threads
                   (@replies_pager quota_after_one_api) (new_net quota_after_one_api 0)) in
  exists d',
    checkpoint ("v1" ++ "-replies") w1 = Some (VDict d') /\
    extends [] d' /\
    init_replies_dict "v1" w1 = (Ok (VDict d'), w1).
Proof.
  cbv zeta.
  apply (@replies_quota_checkpoint quota_after_one_api 5 "v1"
           (@replies_pager quota_after_one_api) two_threads []
           (new_net quota_after_one_api 0) _ (http_error "quotaExceeded")).
  - reflexivity.
  - apply outcome. vm_compute. reflexivity.
  - reflexivity.
Defined.

Lemma reply_rows_come_from_their_thread_witness :
  let row := mkRow "c1" "t1" "" 0 "text" in
  exists (d : list (string * DictVal)) (rs : list Response) (r : Response) (item : Item),
    VDict [("t1", DResps [page_of "c1" None])] = VDict d /\
    In (row_thread_id row, DResps rs) d /\ In r rs /\ In item (items r) /\
    row_comment_id row = item_id item /\ row_text row = item_text item.
Proof.
  cbv zeta.
  apply (reply_rows_come_from_their_thread
           (VDict [("t1", DResps [page_of "c1" None])]) [mkRow "c1" "t1" "" 0 "text"]
           (mkRow "c1" "t1" "" 0 "text")).
  - reflexivity.
  - left. reflexivity.
Defined.

(** The video [v9] of the playlist is not returned by the videos query: it
    is not among the ids to collect. *)
Lemma videos_to_collect_come_from_the_videos_query_witness :
  let s' := snd (@collect_videos_body videos_api "c" crawl_with_playlist) in
  videos_ids_to_collect (self s') = Some ["v2"; "v1"] /\
  exists (ids : list string) (queried : list Response) (playlist : DataFrame)
         (pending : list string),
    vid_ids (self crawl_with_playlist) = Some ids /\
    df_upload_playlist (self crawl_with_playlist) = Some playlist /\
    videos_responses (self s') = VList (map EResp queried) /\
    video_ids (self s') = Some pending /\
    videos_ids_to_collect (self s') = Some pending /\
    collected_video_ids (self s') = Some [] /\
    (forall v, In v pending <-> In v (flat_map get_data_videos queried)) /\
    (NoDup (frame_video_ids playlist) -> pending = rev (flat_map get_data_videos queried)).
Proof.
  cbv zeta. split; [vm_compute; reflexivity|].
  apply (@videos_to_collect_come_from_the_videos_query videos_api "c" crawl_with_playlist).
  apply outcome. vm_compute. reflexivity.
Defined.

Lemma channel_without_recent_upload_aborts_witness :
  let s0 := crawl_one_channel old_uploads_api 0 in
  exists s',
    collect_data_channel 5 "a" s0 = (Raise ValueError, s') /\
    requests (net s') =
      requests (net s0) ++ [ChannelsList "UCa"; PlaylistItemsList "PL1" None] /\
    frontier s' = frontier s0.
Proof.
  cbv zeta.
  apply (@channel_without_recent_upload_aborts old_uploads_api 4 "a" "UCa" "PL1"
           (crawl_one_channel old_uploads_api 0) (channel_with_playlist "PL1")
           [mkItem "p1" "v1" 10 0 "old"] 1 2); reflexivity.
Defined.

Lemma http_error_before_collector_setup_witness :
  let s0 := crawl_one_channel failing_lookup_api 0 in
  exists s',
    collect_data_channel 5 "a" s0 = (Raise TypeError, s') /\
    requests (net s') = requests (net s0) ++ [ChannelsList "UCa"] /\
    slept (net s') = slept (net s0) /\
    stdout s' = stdout s0.
Proof.
  cbv zeta.
  apply (@http_error_before_collector_setup failing_lookup_api 5 "a" "UCa"
           (crawl_one_channel failing_lookup_api 0) (http_error "backendError") 1);
    reflexivity.
Defined.

Lemma fatal_error_is_not_retried_witness :
  let s0 := crawl_of quota_only_api 0 (entity [] ["v1"]) [] [] in
  let func := lift (@execute quota_only_api (VideosList ["v1"])) in
  exists msg s',
    error_api_method 10 func s0 = (Raise (AssertionError msg), s') /\
    net s' = net (snd (func s0)) /\
    raw s' = raw (snd (func s0)) /\ pickled s' = pickled (snd (func s0)).
Proof.
  cbv zeta.
  apply (@fatal_error_is_not_retried quota_only_api Response 9
           (lift (@execute quota_only_api (VideosList ["v1"])))
           (crawl_of quota_only_api 0 (entity [] ["v1"]) [] []) _
           (http_error "quotaExceeded") "quotaExceeded").
  - apply outcome. vm_compute. reflexivity.
  - reflexivity.
  - reflexivity.
  - exists []. split; [reflexivity|]. intros H. contradiction.
Defined.

Lemma comments_collected_from_the_end_witness :
  let s0 := crawl_of quiet_api 0 (entity [] ["v1"; "v2"; "v3"]) [] [] in
  let s' := snd (collect_comments_loop 5 5 "c" s0) in
  videos_ids_to_collect (self s') = Some [] /\
  temp_id_storage (self s') = Some [] /\
  collected_video_ids (self s') = Some ([] ++ rev ["v1"; "v2"; "v3"]).
Proof.
  cbv zeta.
  apply (@comments_collected_from_the_end quiet_api 5 "c" 5
           (crawl_of quiet_api 0 (entity [] ["v1"; "v2"; "v3"]) [] [])).
  - reflexivity.
  - reflexivity.
  - reflexivity.
  - apply outcome. vm_compute. reflexivity.
Defined.

(** Resumed at 40 with 20 videos left: one flush at 50, one at the end. *)
Lemma flushes_at_multiples_of_fifty_witness :
  let s' := snd (collect_comments_body 30 "c" crawl_resumed) in
  flush_counts (stdout s') = [Some 50%Z; Some 60%Z] /\
  flush_counts (stdout s') =
    flush_counts (stdout crawl_resumed) ++
    map Some
      (filter (fun c => (c mod 50 =? 0)%Z)
         (map (fun k => (40 + Z.of_nat k)%Z) (seq 0 (List.length (numbered 20)))) ++
       [(40 + Z.of_nat (List.length (numbered 20)))%Z]).
Proof.
  cbv zeta. split; [vm_compute; reflexivity|].
  apply (@flushes_at_multiples_of_fifty quiet_api 30 "c" crawl_resumed _ (numbered 20)
           40%Z).
  - reflexivity.
  - reflexivity.
  - reflexivity.
  - reflexivity.
  - apply outcome. vm_compute. reflexivity.
Defined.

Lemma restored_frontier_is_partitioned_witness :
  let s' := snd (restore_obj_from_checkpoint "chan" "2022-05-01" crawl_to_restore) in
  exists (ids keys : list string),
    video_ids (self s') = Some ids /\
    collected_video_ids (self s') = Some keys /\
    i (self s') = Some (Z.of_nat (List.length keys)) /\
    self s' = self s' /\
    (NoDup ids -> NoDup keys -> incl keys ids -> partitioned ids s').
Proof.
  cbv zeta.
  apply (@restored_frontier_is_partitioned quiet_api "chan" "2022-05-01" crawl_to_restore).
  apply outcome. vm_compute. reflexivity.
Defined.

(** The file holds an entry for [v3]: the comment collected later for [v3]
    is not saved, the entry of [v2] is added. *)
Lemma saved_comments_keep_the_entries_of_the_file_witness :
  let rs := [("v3", DRows [mkRow "c9" "c9" "v3" 0 "late"]); ("v2", DRows [])] in
  let s := crawl_to_restore in
  exists m,
    let saved := written "chan" (get_name "chan-toplevelcomments" "pkl" (today s))
                         (VDict m) s in
    save_response_comments (VDict rs) "chan-toplevelcomments" "chan" s = (Ok tt, saved) /\
    (forall k, od_get k m =
               match od_get k [("v3", DRows [])] with
               | Some x => Some x
               | None => od_get k rs
               end) /\
    save_response_comments (VDict rs) "chan-toplevelcomments" "chan" saved =
      (Ok tt, written "chan" (get_name "chan-toplevelcomments" "pkl" (today s))
                      (VDict m) saved).
Proof.
  cbv zeta.
  apply (@saved_comments_keep_the_entries_of_the_file quiet_api
           [("v3", DRows [mkRow "c9" "c9" "v3" 0 "late"]); ("v2", DRows [])]
           [("v3", DRows [])] "chan-toplevelcomments" "chan" crawl_to_restore).
  reflexivity.
Defined.

Lemma get_file_returns_the_latest_witness :
  let f := mkFile "chan" "chan-video-responses-2022-06-01.pkl" (VList [EId "v1"]) in
  let found := @glob quiet_api PyVal "chan" ("*" ++ "video" ++ "*") dated_files in
  In f dated_files /\ file_folder f = "chan" /\
  @glob_match quiet_api ("*" ++ "video" ++ "*") (file_name f) = true /\
  (found = [f] \/
   exists ts, @file_date quiet_api (file_name f) = Some ts /\
              forall g, In g found ->
                        exists tg, @file_date quiet_api (file_name g) = Some tg /\
                                   (tg <= ts)%Z).
Proof.
  cbv zeta.
  apply (@get_file_returns_the_latest quiet_api PyVal "chan" "video" dated_files).
  vm_compute. reflexivity.
Defined.

Lemma undated_match_hides_the_checkpoint_witness :
  read_file_proc "chan" "video" crawl_with_stray_file = (Ok None, crawl_with_stray_file).
Proof.
  apply (@undated_match_hides_the_checkpoint quiet_api "chan" "video" crawl_with_stray_file
           (mkFile "chan" "chan-video-playlist-2022-05-01.gzip.parquet"
                   (mkFrame ["v3"; "v2"; "v1"]))
           (mkFile "chan" "video-notes.txt" (mkFrame []))
           (mkFile "chan" "video-notes.txt" (mkFrame [])) []).
  - vm_compute. reflexivity.
  - right. left. reflexivity.
  - reflexivity.
Defined.

Lemma channels_without_playlist_are_all_skipped_witness :
  exists (s' : @Crawl quiet_api) (ids : list string),
    collect_data_channels 5 crawl_two_channels = (Ok tt, s') /\
    Forall2 (fun c id => od_get c (channels (self crawl_two_channels)) = Some id)
            (od_keys (channels (self crawl_two_channels))) ids /\
    requests (net s') = requests (net crawl_two_channels) ++ map ChannelsList ids /\
    slept (net s') = slept (net crawl_two_channels) /\
    raw s' = raw crawl_two_channels /\ proc s' = proc crawl_two_channels /\
    frontier s' = frontier crawl_two_channels /\
    without_playlist (stdout s') =
      without_playlist (stdout crawl_two_channels) ++
      od_keys (channels (self crawl_two_channels)).
Proof.
  apply (@channels_without_playlist_are_all_skipped quiet_api 5 crawl_two_channels).
  intros channel_id a. exists (mkChannelResponse None), (S a). split; reflexivity.
Defined.

Lemma channel_with_empty_items_aborts_witness :
  let s0 := crawl_one_channel empty_items_api 0 in
  collect_data_channel 5 "a" s0 =
    (Raise IndexError, @searched empty_items_api "UCa" (mkChannelResponse (Some [])) 1 s0) /\
  exists s',
    collect_data_channels_loop 5 ["a"; "b"] s0 = (Raise IndexError, s') /\
    requests (net s') = requests (net s0) ++ [ChannelsList "UCa"].
Proof.
  cbv zeta.
  apply (@channel_with_empty_items_aborts empty_items_api 5 "a" "UCa" ["b"]
           (crawl_one_channel empty_items_api 0) (mkChannelResponse (Some [])) 1);
    reflexivity.
Defined.

(** A video with one comment and one reply gets both entries. *)
Lemma comments_of_a_video_are_entered_witness :
  let s0 := crawl_of commented_api 0 (entity [] ["v1"]) [] [] in
  let s' := snd (collect_comments_video 5 "v1" s0) in
  exists (threads : list Response) (n : @Net commented_api),
    query_all_items 5 "v1" comments_pager (net s0) = (Ok threads, n) /\
    comment_threads (self s') = Some threads /\
    responses_toplevel (self s') =
      VDict (od_set "v1" (DRows (get_multiple_comment_thread_data threads)) []) /\
    (get_multiple_comment_thread_data threads = [] ->
     responses_replies (self s') = VDict [] /\ net s' = n) /\
    (get_multiple_comment_thread_data threads <> [] ->
     exists rows, responses_replies (self s') = VDict (od_set "v1" (DRows rows) [])).
Proof.
  cbv zeta.
  apply (@comments_of_a_video_are_entered commented_api 5 "v1"
           (crawl_of commented_api 0 (entity [] ["v1"]) [] []) _ [] []).
  - reflexivity.
  - reflexivity.
  - apply outcome. vm_compute. reflexivity.
Defined.

Lemma collect_comments_stops_after_requeue_witness :
  let s0 := crawl_of forbidden_api 0 (entity [] ["v1"; "v2"; "v3"]) [] [] in
  exists msg s3,
    collect_comments 20 "c" s0 = (Raise (AssertionError msg), s3) /\
    frontier s3 = frontier s0.
Proof.
  cbv zeta.
  apply (@collect_comments_stops_after_requeue forbidden_api 19 "c"
           (crawl_of forbidden_api 0 (entity [] ["v1"; "v2"; "v3"]) [] [])
           (snd (@collect_comments_video forbidden_api 20 "v3"
                   (taken ["v1"; "v2"] [] "v3"
                      (crawl_of forbidden_api 0 (entity [] ["v1"; "v2"; "v3"]) [] []))))
           ["v1"; "v2"] "v3" (http_error "forbidden") "forbidden").
  - reflexivity.
  - reflexivity.
  - apply outcome. vm_compute. reflexivity.
  - reflexivity.
  - reflexivity.
Defined.
